(** * MABWiser simulator: a shallow embedding of [mabwiser/simulator/simulator.py]

    The development follows the source file:
    - [Py]: the Python primitives the simulator relies on (slices, [range],
      [math.ceil] of a quotient, [int] of a number);
    - [Stats]: [Simulator.get_stats] and [Simulator.get_arm_stats];
    - [Split]: [_run_train_test_split] and the chunk size it selects;
    - [Model]: the policies as an interface (the ModelAdapter contract), the
      scoring routines, and the events of a replay;
    - [Replay]: [_get_partial_evaluation], [_offline_test_bandits],
      [_online_test_bandits_chunks], [_online_test_bandits] and
      [_train_bandits], as functions on the result tables and a trace;
    - [Simulation]: [_validate_args], [__init__] and [run];
    - [Examples]: concrete policies and logs to run the simulator on;
    - [Calls]: what a trace and the result tables hold for one bandit;
    - [Plot]: the checks [plot] starts with;
    - [Cases]: further inputs.
    The theorems come after the definitions, one module per subject.

    Numbers: integer arrays are lists of [Z]; the fraction [test_size] is an
    exact rational, and every product or quotient the source forms with it is
    taken exactly.  Logging is left out. *)

From Stdlib Require Import ZArith QArith Qround String List Lia.
From stdpp Require Import base option gmap strings list.

Local Open Scope Z_scope.

(** ** Python primitives *)
Module Py.

(** [seq[start:stop]] for a list, with Python's treatment of negative and
    out-of-range bounds. *)
Definition clamp_index (n i : Z) : Z :=
  if i <? 0 then Z.max 0 (i + n) else Z.min i n.

Definition slice {A : Type} (l : list A) (start stop : Z) : list A :=
  let n := Z.of_nat (length l) in
  let a := clamp_index n start in
  let b := clamp_index n stop in
  take (Z.to_nat (b - a)) (drop (Z.to_nat a) l).

(** [seq[:stop]] and [seq[start:]]. *)
Definition slice_to {A : Type} (l : list A) (stop : Z) : list A :=
  slice l 0 stop.

Definition slice_from {A : Type} (l : list A) (start : Z) : list A :=
  slice l start (Z.of_nat (length l)).

(** [list(range(a, b))]. *)
Definition range (a b : Z) : list Z :=
  map (fun k => a + Z.of_nat k) (seq 0 (Z.to_nat (b - a))).

(** [int(x)]: truncation toward zero. *)
Definition int (x : Q) : Z := Z.quot (Qnum x) (Zpos (Qden x)).

(** [int(math.ceil(a / b))] for integers [a], [b]; [None] is
    [ZeroDivisionError]. *)
Definition ceil_div (a b : Z) : option Z :=
  if b =? 0 then None else Some (- ((- a) / b)).

(** A value a library call hands back either as one item or as a list of
    items; [isinstance(x, list)] tells them apart. *)
Inductive ret (A : Type) : Type :=
| One (a : A)
| Many (l : list A).
Arguments One {A} a.
Arguments Many {A} l.

End Py.

(** ** Descriptive statistics: [get_stats] and [get_arm_stats] *)
Module Stats.
Section WithArms.

(** Arms are compared with [==]; rewards are an integer array.  The float
    results of [ndarray.mean] and [ndarray.std] are values of a type [F] that
    the numeric library owns; [isnan] is its [np.isnan]. *)
Context {Arm : Type} `{Countable Arm}.
Context {F : Type}.
Variable np_mean : list Z -> F.
Variable np_std : list Z -> F.
Variable isnan : F -> bool.

(** A statistic is a Python [int] (the literal [0] of the empty case, or an
    integer reduction) or a float. *)
Inductive num : Type :=
| NInt (z : Z)
| NFloat (x : F).


(** The dictionary [{'count', 'sum', 'min', 'max', 'mean', 'std'}]. *)
Record ArmStats : Type := mkArmStats {
  count : Z;
  sum : Z;
  min : Z;
  max : Z;
  mean : num;
  std : num
}.

(** [np.where(decisions == arm)[0]]: the positions holding [arm]. *)
Fixpoint where_from (i : nat) (decisions : list Arm) (arm : Arm) : list nat :=
  match decisions with
  | [] => []
  | d :: rest =>
      if decide (d = arm)
      then i :: where_from (S i) rest arm
      else where_from (S i) rest arm
  end.

Definition np_where (decisions : list Arm) (arm : Arm) : list nat :=
  where_from 0 decisions arm.

(** [rewards[indices]]: [None] is the [IndexError] of a position past the end
    of [rewards]. *)
Fixpoint take_indices (rewards : list Z) (indices : list nat) : option (list Z) :=
  match indices with
  | [] => Some []
  | i :: rest =>
      match rewards !! i, take_indices rewards rest with
      | Some r, Some rs => Some (r :: rs)
      | _, _ => None
      end
  end.

(** [get_stats]: [None] is the [ValueError] that [min] of an empty array
    raises. *)
Definition get_stats (rewards : list Z) : option ArmStats :=
  match rewards with
  | [] => None
  | r :: rest =>
      Some {| count := Z.of_nat (length rewards);
              sum := foldr Z.add 0 rewards;
              min := foldr Z.min r rest;
              max := foldr Z.max r rest;
              mean := NFloat (np_mean rewards);
              std := NFloat (np_std rewards) |}
  end.

Definition zero_stats : ArmStats :=
  {| count := 0; sum := 0; min := 0; max := 0; mean := NInt 0; std := NInt 0 |}.

(** The body of the loop over [self.arms]. *)
Definition arm_stats (decisions : list Arm) (rewards : list Z) (arm : Arm)
  : option ArmStats :=
  let indices := np_where decisions arm in
  if bool_decide (0 < length indices)%nat
  then arm_rewards ← take_indices rewards indices; get_stats arm_rewards
  else Some zero_stats.

(** [get_arm_stats]: the placeholders [{}] the source starts from are all
    overwritten by the loop, so the table starts empty here. *)
Definition get_arm_stats (arms : list Arm) (decisions : list Arm) (rewards : list Z)
  : option (gmap Arm ArmStats) :=
  foldl (fun acc arm =>
           stats ← acc;
           s ← arm_stats decisions rewards arm;
           Some (<[arm := s]> stats))
        (Some ∅) arms.

(** What the specification counts and sums: the rows whose decision is [arm]. *)
Definition occurrences (decisions : list Arm) (arm : Arm) : nat :=
  length (filter (fun d => d = arm) decisions).

Definition rewards_of (decisions : list Arm) (rewards : list Z) (arm : Arm) : list Z :=
  snd <$> filter (fun p => p.1 = arm) (zip decisions rewards).


End WithArms.
End Stats.

(** ** Train/test split and chunk size: [_run_train_test_split] *)
Module Split.
Section WithData.

Context {Arm Ctx : Type}.

(** [sklearn.model_selection.train_test_split] on the index list: the row
    numbers it puts in the train and in the test part, for a number of rows, a
    test fraction and a seed.  The arrays are then gathered by these rows. *)
Variable train_test_split : nat -> Q -> Z -> list nat * list nat.

(** What the method returns, together with the two attributes it sets. *)
Record SplitResult : Type := mkSplitResult {
  train_decisions : list Arm;
  train_rewards : list Z;
  train_contexts : option (list Ctx);
  test_decisions : list Arm;
  test_rewards : list Z;
  test_contexts : option (list Ctx);
  test_indices : list Z;
  chunk_size : Z
}.

(** [int(len(self.decisions) * (1 - self.config.test_size))]. *)
Definition train_size (n : Z) (test_size : Q) : Z :=
  Py.int (inject_Z n * (1 - test_size)).

Definition gather {A : Type} (l : list A) (rows : list nat) : list A :=
  omap (fun i => l !! i) rows.

(** The memory estimate of the shared distance list, in GB, and the chunk
    size derived from it. *)
Definition distance_list_size (n_test n_train : Z) : Q :=
  inject_Z n_test * (8 * inject_Z n_train) / 1000000000.

Definition select_chunk_size (n_test n_train : Z) (has_contexts : bool)
    (max_n_jobs : Z) : Z :=
  let size := distance_list_size n_test n_train in
  if negb (Qle_bool size 1) && has_contexts
  then
    let gb_chunk_size := Py.int (inject_Z n_test / size) * max_n_jobs in
    Z.min gb_chunk_size n_test
  else n_test.

Definition _run_train_test_split (is_ordered : bool) (test_size : Q) (seed : Z)
    (max_n_jobs : Z)
    (decisions : list Arm) (rewards : list Z) (contexts : option (list Ctx))
  : SplitResult :=
  let '(tr_d, tr_r, tr_c, te_d, te_r, te_c, idx) :=
    if is_ordered then
      let k := train_size (Z.of_nat (length decisions)) test_size in
      (Py.slice_to decisions k,
       Py.slice_to rewards k,
       (fun c => Py.slice_to c k) <$> contexts,
       Py.slice_from decisions k,
       Py.slice_from rewards k,
       (fun c => Py.slice_from c k) <$> contexts,
       Py.range k (Z.of_nat (length decisions)))
    else
      let '(train_rows, test_rows) :=
        train_test_split (length decisions) test_size seed in
      (gather decisions train_rows,
       gather rewards train_rows,
       (fun c => gather c train_rows) <$> contexts,
       gather decisions test_rows,
       gather rewards test_rows,
       (fun c => gather c test_rows) <$> contexts,
       Z.of_nat <$> test_rows)
  in
  {| train_decisions := tr_d; train_rewards := tr_r; train_contexts := tr_c;
     test_decisions := te_d; test_rewards := te_r; test_contexts := te_c;
     test_indices := idx;
     chunk_size :=
       select_chunk_size (Z.of_nat (length te_d)) (Z.of_nat (length tr_d))
         (bool_decide (is_Some tr_c)) max_n_jobs |}.

End WithData.
End Split.

(** ** Policies, result tables and the trace of the replay *)
Module Model.
Export Py.

(** The class of a policy implementation ([mab._imp]) as the simulator's
    [isinstance] tests see it. *)
Inductive ImpClass : Type :=
| ImpRadius
| ImpKNearest
| ImpLSHNearest
| ImpNeighbors
| ImpOther.

(** The class of a bandit object: a [MAB] with its implementation, or one of
    the simulator variants of [mabwiser.simulator.mab]. *)
Inductive MabClass : Type :=
| PlainMab (imp : ImpClass)
| RadiusSimulator
| KNearestSimulator
| LSHSimulator.

(** Modelled from the spec: the class hierarchy of the simulator variants
    ([mabwiser/simulator/mab.py] is not among the sources); the three
    variants are the [_NeighborsSimulator]s, and every neighbor implementation
    derives from [_Neighbors]. *)
Definition is_NeighborsSimulator (c : MabClass) : bool :=
  match c with
  | PlainMab _ => false
  | RadiusSimulator | KNearestSimulator | LSHSimulator => true
  end.

Definition is_Radius_or_KNearest_Simulator (c : MabClass) : bool :=
  match c with
  | RadiusSimulator | KNearestSimulator => true
  | _ => false
  end.

Definition is_Radius_or_LSH_Simulator (c : MabClass) : bool :=
  match c with
  | RadiusSimulator | LSHSimulator => true
  | _ => false
  end.

Definition is_LSHSimulator (c : MabClass) : bool :=
  match c with
  | LSHSimulator => true
  | _ => false
  end.

Definition imp_is_Neighbors (c : MabClass) : bool :=
  match c with
  | PlainMab ImpOther => false
  | _ => true
  end.

(** The statistic an evaluation is taken for, and the key it is stored under:
    a batch index or ["total"]; the offline replay stores its evaluations
    without a key. *)
Inductive stat : Type := SMin | SMean | SMax.

Inductive checkpoint : Type :=
| Batch (i : Z)
| Total
| Offline.

Global Instance stat_eq_dec : EqDecision stat.
Proof. solve_decision. Defined.

Global Instance checkpoint_eq_dec : EqDecision checkpoint.
Proof. solve_decision. Defined.

Global Instance ret_inhabited {A : Type} : Inhabited (ret A) := populate (Many []).

(** [x if isinstance(x, list) else [x]]. *)
Definition as_list {A : Type} (x : ret A) : list A :=
  match x with
  | One a => [a]
  | Many l => l
  end.

(** The same for predictions, whose items stay what [predict] returned: an
    arm, or (when the source wraps a returned list once more) a list. *)
Definition as_items {A : Type} (x : ret A) : list (ret A) :=
  match x with
  | One a => [One a]
  | Many l => One <$> l
  end.

Section WithTypes.

Context {Arm Ctx Dist Expn NStat Cfm TStats EvalRes M : Type}.

(** A bandit as the simulator holds it: its class, the [is_contextual] flag,
    [config.n_jobs] and the state of the policy object. *)
Record Mab : Type := mkMab {
  cls : MabClass;
  is_contextual : bool;
  n_jobs : Z;
  arms : list Arm;
  policy : M
}.

(** The ModelAdapter contract: what the simulator calls on a policy.  A call
    that can change the policy returns its new state. *)
Class ModelAdapter : Type := {
  fit : M -> list Arm -> list Z -> option (list Ctx) -> M;
  partial_fit : M -> list Arm -> list Z -> option (list Ctx) -> M;
  predict : M -> option (list Ctx) -> ret Arm * M;
  predict_expectations : M -> option (list Ctx) -> ret Expn * M;
  calculate_distances : M -> option (list Ctx) -> Dist * M;
  set_distances : M -> Dist -> M;
  row_arm_to_expectation : M -> list Expn;
  arm_to_expectation : M -> Expn;
  neighborhood_sizes : M -> list Z;
  neighborhood_arm_to_stat : M -> list NStat;
  (** the constructor of a simulator variant from an implementation's
      attributes, with the [is_quick] flag *)
  simulator : MabClass -> bool -> M -> M
}.

(** What the evaluator is scored against: the train statistics, or the pair
    of these and the neighborhood statistics of the policy. *)
Inductive reference : Type :=
| RefTrain (train : TStats)
| RefNeighborhoods (train : TStats) (neighborhoods : list NStat).

(** [sklearn.metrics.confusion_matrix] and [config.evaluator]. *)
Class Scoring : Type := {
  confusion_matrix : list Arm -> list (ret Arm) -> Cfm;
  evaluator : list Arm -> list Arm -> list Z -> list (ret Arm) -> reference ->
              stat -> Z -> bool -> EvalRes
}.

(** The calls into the collaborators and the recordings into the result
    tables, in the order the simulator makes them. *)
Inductive event : Type :=
| EvFit (name : string) (decisions : list Arm) (rewards : list Z)
        (contexts : option (list Ctx))
| EvCalculateDistances (name : string) (contexts : option (list Ctx)) (d : Dist)
| EvSetDistances (name : string) (d : Dist)
| EvPredict (name : string) (contexts : option (list Ctx)) (result : ret Arm)
| EvPredictExpectations (name : string) (contexts : option (list Ctx))
                        (result : ret Expn)
| EvConfusion (name : string) (ck : checkpoint)
              (decisions : list Arm) (predictions : list (ret Arm)) (cfm : Cfm)
| EvEvaluation (name : string) (ck : checkpoint) (s : stat)
               (decisions : list Arm) (predictions : list (ret Arm))
               (start_index : Z) (res : EvalRes)
| EvPartialFit (name : string) (decisions : list Arm) (rewards : list Z)
               (contexts : option (list Ctx)).

(** An entry of [bandit_to_arm_to_stats_min] (and [avg], [max]): the
    dictionary keyed by checkpoint of the online replay, in insertion order,
    or the single result the offline replay stores in its place. *)
Inductive evaluations : Type :=
| Keyed (items : list (checkpoint * EvalRes))
| Whole (res : EvalRes).

Global Instance evaluations_inhabited : Inhabited evaluations := populate (Keyed []).

Fixpoint alist_set (k : checkpoint) (v : EvalRes) (l : list (checkpoint * EvalRes))
  : list (checkpoint * EvalRes) :=
  match l with
  | [] => [(k, v)]
  | (k', v') :: rest =>
      if decide (k' = k) then (k, v) :: rest else (k', v') :: alist_set k v rest
  end.

(** [entry[i] = res]; an entry is keyed in every state the online replay
    reaches, the other case only makes the function total. *)
Definition set_key (i : checkpoint) (res : EvalRes) (entry : evaluations) : evaluations :=
  match entry with
  | Keyed items => Keyed (alist_set i res items)
  | Whole _ => Keyed [(i, res)]
  end.

End WithTypes.
End Model.

(** ** The replay engine *)
Module Replay.
Export Model.
Section WithCollaborators.

Context {Arm Ctx Dist Expn NStat Cfm TStats EvalRes M : Type}.
Context {MA : @ModelAdapter Arm Ctx Dist Expn NStat M}.
Context {SC : @Scoring Arm NStat Cfm TStats EvalRes}.

Local Abbreviation Mab := (@Mab Arm M).
Local Abbreviation event := (@event Arm Ctx Dist Expn Cfm EvalRes).
Local Abbreviation evaluations := (@evaluations EvalRes).

(** The result tables of the simulator, keyed by bandit name.  A read
    [table[name]] is [table !!! name]: [_train_bandits] creates the entry of
    every bandit in every table before the replay reads it ([tables_ready]
    below); where an entry is missing the source raises [KeyError], and the
    total read only makes the functions total. *)
Record Results : Type := mkResults {
  bandit_to_predictions : gmap string (list (ret Arm));
  bandit_to_expectations : gmap string (ret Expn);
  bandit_to_neighborhood_size : gmap string (list Z);
  bandit_to_arm_to_stats_neighborhoods : gmap string (list NStat);
  bandit_to_confusion_matrices : gmap string (list Cfm);
  bandit_to_arm_to_stats_min : gmap string evaluations;
  bandit_to_arm_to_stats_avg : gmap string evaluations;
  bandit_to_arm_to_stats_max : gmap string evaluations
}.

Definition empty_results : Results :=
  mkResults ∅ ∅ ∅ ∅ ∅ ∅ ∅ ∅.

Definition set_predictions (name : string) (v : list (ret Arm)) (r : Results) : Results :=
  mkResults (<[name := v]> (bandit_to_predictions r)) (bandit_to_expectations r)
    (bandit_to_neighborhood_size r) (bandit_to_arm_to_stats_neighborhoods r)
    (bandit_to_confusion_matrices r) (bandit_to_arm_to_stats_min r)
    (bandit_to_arm_to_stats_avg r) (bandit_to_arm_to_stats_max r).

Definition set_expectations (name : string) (v : ret Expn) (r : Results) : Results :=
  mkResults (bandit_to_predictions r) (<[name := v]> (bandit_to_expectations r))
    (bandit_to_neighborhood_size r) (bandit_to_arm_to_stats_neighborhoods r)
    (bandit_to_confusion_matrices r) (bandit_to_arm_to_stats_min r)
    (bandit_to_arm_to_stats_avg r) (bandit_to_arm_to_stats_max r).

Definition set_neighborhood_size (name : string) (v : list Z) (r : Results) : Results :=
  mkResults (bandit_to_predictions r) (bandit_to_expectations r)
    (<[name := v]> (bandit_to_neighborhood_size r))
    (bandit_to_arm_to_stats_neighborhoods r)
    (bandit_to_confusion_matrices r) (bandit_to_arm_to_stats_min r)
    (bandit_to_arm_to_stats_avg r) (bandit_to_arm_to_stats_max r).

Definition set_neighborhoods (name : string) (v : list NStat) (r : Results) : Results :=
  mkResults (bandit_to_predictions r) (bandit_to_expectations r)
    (bandit_to_neighborhood_size r)
    (<[name := v]> (bandit_to_arm_to_stats_neighborhoods r))
    (bandit_to_confusion_matrices r) (bandit_to_arm_to_stats_min r)
    (bandit_to_arm_to_stats_avg r) (bandit_to_arm_to_stats_max r).

Definition set_confusion_matrices (name : string) (v : list Cfm) (r : Results) : Results :=
  mkResults (bandit_to_predictions r) (bandit_to_expectations r)
    (bandit_to_neighborhood_size r) (bandit_to_arm_to_stats_neighborhoods r)
    (<[name := v]> (bandit_to_confusion_matrices r)) (bandit_to_arm_to_stats_min r)
    (bandit_to_arm_to_stats_avg r) (bandit_to_arm_to_stats_max r).

(** The table of one statistic: [min], [avg] (for ["mean"]) or [max]. *)
Definition stats_table (s : stat) (r : Results) : gmap string evaluations :=
  match s with
  | SMin => bandit_to_arm_to_stats_min r
  | SMean => bandit_to_arm_to_stats_avg r
  | SMax => bandit_to_arm_to_stats_max r
  end.

Definition set_stats (s : stat) (name : string) (v : evaluations) (r : Results) : Results :=
  match s with
  | SMin =>
      mkResults (bandit_to_predictions r) (bandit_to_expectations r)
        (bandit_to_neighborhood_size r) (bandit_to_arm_to_stats_neighborhoods r)
        (bandit_to_confusion_matrices r) (<[name := v]> (bandit_to_arm_to_stats_min r))
        (bandit_to_arm_to_stats_avg r) (bandit_to_arm_to_stats_max r)
  | SMean =>
      mkResults (bandit_to_predictions r) (bandit_to_expectations r)
        (bandit_to_neighborhood_size r) (bandit_to_arm_to_stats_neighborhoods r)
        (bandit_to_confusion_matrices r) (bandit_to_arm_to_stats_min r)
        (<[name := v]> (bandit_to_arm_to_stats_avg r)) (bandit_to_arm_to_stats_max r)
  | SMax =>
      mkResults (bandit_to_predictions r) (bandit_to_expectations r)
        (bandit_to_neighborhood_size r) (bandit_to_arm_to_stats_neighborhoods r)
        (bandit_to_confusion_matrices r) (bandit_to_arm_to_stats_min r)
        (bandit_to_arm_to_stats_avg r) (<[name := v]> (bandit_to_arm_to_stats_max r))
  end.

(** The state the replay threads: the result tables and the trace. *)
Record State : Type := mkState {
  results : Results;
  trace : list event
}.

Definition update (f : Results -> Results) (st : State) : State :=
  mkState (f (results st)) (trace st).

Definition emit (e : event) (st : State) : State :=
  mkState (results st) (trace st ++ [e]).

(** [for name, mab in self.bandits: ...], the body changing a state and the
    policy object it is run on. *)
Fixpoint for_bandits {S : Type} (body : S -> string -> Mab -> S * Mab)
    (s : S) (bandits : list (string * Mab)) : S * list (string * Mab) :=
  match bandits with
  | [] => (s, [])
  | (name, mab) :: rest =>
      let '(s1, mab1) := body s name mab in
      let '(s2, rest2) := for_bandits body s1 rest in
      (s2, (name, mab1) :: rest2)
  end.

Definition with_policy (mab : Mab) (p : M) : Mab :=
  mkMab (cls mab) (is_contextual mab) (n_jobs mab) (arms mab) p.

(** [table[name] = table[name] + items] on the list tables.  The entry of
    [bandit_to_expectations] is a list whenever a run gets here. *)
Definition append_predictions (name : string) (items : list (ret Arm)) (r : Results)
  : Results :=
  set_predictions name (bandit_to_predictions r !!! name ++ items) r.

Definition append_expectations (name : string) (items : list Expn) (r : Results)
  : Results :=
  set_expectations name (Many (as_list (bandit_to_expectations r !!! name) ++ items)) r.

(** *** Scoring a checkpoint: [_get_partial_evaluation] *)

(** The simulator attributes the replay reads but does not change. *)
Variable is_quick : bool.
Variable sim_arms : list Arm.
Variable arm_to_stats_train : TStats.

(** [cfm = confusion_matrix(decisions, predictions)] and
    [self.bandit_to_confusion_matrices[name].append(cfm)]. *)
Definition record_confusion (name : string) (ck : checkpoint)
    (decisions : list Arm) (predictions : list (ret Arm)) (st : State) : State :=
  let cfm := confusion_matrix decisions predictions in
  emit (EvConfusion name ck decisions predictions cfm)
    (update (fun r => set_confusion_matrices name
                        (bandit_to_confusion_matrices r !!! name ++ [cfm]) r) st).

(** The reference statistics and the [nn] flag handed to the evaluator. *)
Definition scoring_reference (name : string) (nn : bool) (st : State) : reference * bool :=
  if nn && negb is_quick
  then (RefNeighborhoods arm_to_stats_train
          (bandit_to_arm_to_stats_neighborhoods (results st) !!! name), nn)
  else (RefTrain arm_to_stats_train, false).

(** One call of the evaluator; [store] puts its result in the table. *)
Definition record_evaluation (store : EvalRes -> evaluations -> evaluations)
    (name : string) (ck : checkpoint) (s : stat)
    (decisions : list Arm) (rewards : list Z) (predictions : list (ret Arm))
    (start_index : Z) (nn : bool) (st : State) : State :=
  let '(ref, flag) := scoring_reference name nn st in
  let res := evaluator sim_arms decisions rewards predictions ref s start_index flag in
  emit (EvEvaluation name ck s decisions predictions start_index res)
    (update (fun r => set_stats s name (store res (stats_table s r !!! name)) r) st).

Definition _get_partial_evaluation (name : string) (i : checkpoint)
    (decisions : list Arm) (predictions : list (ret Arm)) (rewards : list Z)
    (start_index : Z) (nn : bool) (st : State) : State :=
  let st := record_confusion name i decisions predictions st in
  let st := record_evaluation (set_key i) name i SMin decisions rewards predictions
              start_index nn st in
  let st := record_evaluation (set_key i) name i SMean decisions rewards predictions
              start_index nn st in
  record_evaluation (set_key i) name i SMax decisions rewards predictions
    start_index nn st.

(** *** Predicting one chunk *)

(** The state of the loop over the bandits of a chunk: the local variable
    [distances] next to the simulator state. *)
Record ChunkState : Type := mkChunkState {
  chunk_state : State;
  distances : option Dist
}.

(** [distances = mab.calculate_distances(chunk_contexts)] when the cache is
    empty, [mab.set_distances(distances)] otherwise. *)
Definition share_distances (name : string) (chunk_contexts : option (list Ctx))
    (cs : ChunkState) (p : M) : ChunkState * M :=
  match distances cs with
  | None =>
      let '(d, p1) := calculate_distances p chunk_contexts in
      (mkChunkState (emit (EvCalculateDistances name chunk_contexts d) (chunk_state cs))
         (Some d), p1)
  | Some d =>
      (mkChunkState (emit (EvSetDistances name d) (chunk_state cs)) (Some d),
       set_distances p d)
  end.

(** [mab.predict(chunk_contexts)]. *)
Definition call_predict (name : string) (contexts : option (list Ctx)) (st : State) (p : M)
  : ret Arm * State * M :=
  let '(r, p1) := predict p contexts in
  (r, emit (EvPredict name contexts r) st, p1).

(** [[mab.predict() for _ in range(n)]]. *)
Fixpoint predict_times (n : nat) (name : string) (st : State) (p : M)
  : list (ret Arm) * State * M :=
  match n with
  | O => ([], st, p)
  | S n' =>
      let '(r, st1, p1) := call_predict name None st p in
      let '(rs, st2, p2) := predict_times n' name st1 p1 in
      (r :: rs, st2, p2)
  end.

Definition call_predict_expectations (name : string) (contexts : option (list Ctx))
    (st : State) (p : M) : ret Expn * State * M :=
  let '(r, p1) := predict_expectations p contexts in
  (r, emit (EvPredictExpectations name contexts r) st, p1).

(** *** Offline replay: [_offline_test_bandits] *)

(** The body of [for name, mab in self.bandits] inside a chunk. *)
Definition offline_predict (start stop : Z) (chunk_decision : list Arm)
    (chunk_contexts : option (list Ctx))
    (cs : ChunkState) (name : string) (mab : Mab) : ChunkState * Mab :=
  let '(predictions, cs1, p) :=
    if is_contextual mab then
      let '(r, expectations, cs1, p) :=
        if is_Radius_or_KNearest_Simulator (cls mab) then
          let '(cs1, p1) := share_distances name chunk_contexts cs (policy mab) in
          let '(r, st2, p2) := call_predict name chunk_contexts (chunk_state cs1) p1 in
          (r, Many (slice (row_arm_to_expectation p2) start stop),
           mkChunkState st2 (distances cs1), p2)
        else
          let '(r, st1, p1) :=
            call_predict name chunk_contexts (chunk_state cs) (policy mab) in
          let '(expectations, st2, p2) :=
            if is_LSHSimulator (cls mab) then
              (Many (slice (row_arm_to_expectation p1) start stop), st1, p1)
            else if imp_is_Neighbors (cls mab) then
              (One (arm_to_expectation p1), st1, p1)
            else call_predict_expectations name chunk_contexts st1 p1 in
          (r, expectations, mkChunkState st2 (distances cs), p2)
      in
      (as_items r,
       mkChunkState
         (update (append_expectations name (as_list expectations)) (chunk_state cs1))
         (distances cs1),
       p)
    else
      let '(rs, st1, p1) :=
        predict_times (length chunk_decision) name (chunk_state cs) (policy mab) in
      (rs, mkChunkState st1 (distances cs), p1)
  in
  let st := update (append_predictions name predictions) (chunk_state cs1) in
  let st :=
    if is_NeighborsSimulator (cls mab) && negb is_quick
    then update (set_neighborhoods name (neighborhood_arm_to_stat p)) st
    else st in
  (mkChunkState st (distances cs1), with_policy mab p).

(** The body of [for idx in chunk_start_index]. *)
Definition offline_chunk (chunk_size : Z)
    (test_decisions : list Arm) (test_contexts : option (list Ctx))
    (acc : ChunkState * list (string * Mab)) (idx : Z)
  : ChunkState * list (string * Mab) :=
  let '(cs, bandits) := acc in
  let cs := mkChunkState (chunk_state cs) None in
  let start := idx * chunk_size in
  let stop := Z.min ((idx + 1) * chunk_size) (Z.of_nat (length test_decisions)) in
  let chunk_decision := slice test_decisions start stop in
  let chunk_contexts := (fun c => slice c start stop) <$> test_contexts in
  for_bandits (offline_predict start stop chunk_decision chunk_contexts) cs bandits.

(** The rows [start:stop] of the chunks the offline loop cuts a test set of
    [n] rows into: its [start] and [stop] for every [idx]. *)
Definition offline_spans (chunk_size n : Z) : option (list (Z * Z)) :=
  chunks ← ceil_div n chunk_size;
  Some ((fun idx => (idx * chunk_size, Z.min ((idx + 1) * chunk_size) n))
          <$> range 0 chunks).

(** The chunk loop; [None] is the [ZeroDivisionError] of a chunk size 0. *)
Definition offline_chunks (chunk_size : Z)
    (test_decisions : list Arm) (test_contexts : option (list Ctx))
    (st : State) (bandits : list (string * Mab))
  : option (State * list (string * Mab)) :=
  n ← ceil_div (Z.of_nat (length test_decisions)) chunk_size;
  let '(cs, bandits1) :=
    foldl (offline_chunk chunk_size test_decisions test_contexts)
          (mkChunkState st None, bandits) (range 0 n) in
  Some (chunk_state cs, bandits1).

(** The body of the final [for name, mab in self.bandits]. *)
Definition offline_score (test_decisions : list Arm) (test_rewards : list Z)
    (st : State) (name : string) (mab : Mab) : State * Mab :=
  let nn := is_NeighborsSimulator (cls mab) in
  let st :=
    if negb (is_contextual mab)
    then update (set_expectations name (One (arm_to_expectation (policy mab)))) st
    else st in
  let st :=
    if nn && negb is_quick
    then update (set_neighborhood_size name (neighborhood_sizes (policy mab))) st
    else st in
  let predictions := bandit_to_predictions (results st) !!! name in
  let st := record_confusion name Offline test_decisions predictions st in
  let st := record_evaluation (fun res _ => Whole res) name Offline SMin
              test_decisions test_rewards predictions 0 nn st in
  let st := record_evaluation (fun res _ => Whole res) name Offline SMean
              test_decisions test_rewards predictions 0 nn st in
  let st := record_evaluation (fun res _ => Whole res) name Offline SMax
              test_decisions test_rewards predictions 0 nn st in
  (st, mab).

Definition _offline_test_bandits (chunk_size : Z)
    (test_decisions : list Arm) (test_rewards : list Z)
    (test_contexts : option (list Ctx))
    (st : State) (bandits : list (string * Mab))
  : option (State * list (string * Mab)) :=
  '(st1, bandits1) ← offline_chunks chunk_size test_decisions test_contexts st bandits;
  Some (for_bandits (offline_score test_decisions test_rewards) st1 bandits1).

(** *** Online replay: [_online_test_bandits_chunks] and [_online_test_bandits] *)

(** The state of the loops inside a batch: the chunk state and the two local
    dictionaries [batch_predictions] and [batch_expectations]. *)
Record BatchState : Type := mkBatchState {
  batch_chunk : ChunkState;
  batch_predictions : gmap string (list (ret Arm));
  batch_expectations : gmap string (list Expn)
}.

(** The body of [for name, mab in self.bandits] inside a chunk of a batch. *)
Definition online_predict (batch_size start stop chunk_start chunk_stop : Z)
    (chunk_decisions : list Arm) (chunk_contexts : option (list Ctx))
    (bs : BatchState) (name : string) (mab : Mab) : BatchState * Mab :=
  let '(bp, be) :=
    if decide (name ∈ dom (batch_predictions bs))
    then (batch_predictions bs, batch_expectations bs)
    else (<[name := []]> (batch_predictions bs), <[name := []]> (batch_expectations bs)) in
  let cs := batch_chunk bs in
  let '(predictions, expectations, cs1, p) :=
    if is_contextual mab then
      let '(r, expectations, cs1, p) :=
        if is_Radius_or_KNearest_Simulator (cls mab) then
          let '(cs1, p1) := share_distances name chunk_contexts cs (policy mab) in
          let '(r, st2, p2) := call_predict name chunk_contexts (chunk_state cs1) p1 in
          (r, Many (slice (row_arm_to_expectation p2)
                      (start + chunk_start) (start + chunk_stop)),
           mkChunkState st2 (distances cs1), p2)
        else
          let '(r, st1, p1) :=
            call_predict name chunk_contexts (chunk_state cs) (policy mab) in
          let '(expectations, st2, p2) :=
            if is_LSHSimulator (cls mab) then
              (Many (slice (row_arm_to_expectation p1) start stop), st1, p1)
            else call_predict_expectations name chunk_contexts st1 p1 in
          (r, expectations, mkChunkState st2 (distances cs), p2)
      in
      (if decide (batch_size = 1) then [r] else as_items r, expectations, cs1, p)
    else
      let '(rs, st1, p1) :=
        predict_times (length chunk_decisions) name (chunk_state cs) (policy mab) in
      (rs, One (arm_to_expectation p1), mkChunkState st1 (distances cs), p1)
  in
  (mkBatchState cs1
     (<[name := bp !!! name ++ predictions]> bp)
     (<[name := be !!! name ++ as_list expectations]> be),
   with_policy mab p).

(** The body of [for j in range(...)]: the chunk [chunk_start:chunk_stop] of
    the batch.  The source assigns [chunk_start] once, before the loop. *)
Definition online_chunk (batch_size chunk_size start stop chunk_start : Z)
    (batch_decisions : list Arm) (batch_contexts : option (list Ctx))
    (acc : BatchState * list (string * Mab)) (j : Z)
  : BatchState * list (string * Mab) :=
  let '(bs, bandits) := acc in
  let bs := mkBatchState (mkChunkState (chunk_state (batch_chunk bs)) None)
              (batch_predictions bs) (batch_expectations bs) in
  let chunk_stop := Z.min (chunk_start + chunk_size) batch_size in
  let chunk_contexts := (fun c => slice c chunk_start chunk_stop) <$> batch_contexts in
  let chunk_decisions := slice batch_decisions chunk_start chunk_stop in
  for_bandits
    (online_predict batch_size start stop chunk_start chunk_stop
       chunk_decisions chunk_contexts)
    bs bandits.

(** The body of the second [for name, mab in self.bandits] of a batch: the
    batch is scored, then the policy is updated with it.  The chunk loop has
    created [batch_predictions[name]] when it ran at least once, which it
    does for a positive batch size and a positive chunk size. *)
Definition online_score (i start : Z)
    (batch_decisions : list Arm) (batch_rewards : list Z)
    (batch_contexts : option (list Ctx))
    (bs : BatchState) (name : string) (mab : Mab) : BatchState * Mab :=
  let be :=
    if negb (is_contextual mab)
    then <[name := [arm_to_expectation (policy mab)]]> (batch_expectations bs)
    else batch_expectations bs in
  let nn := is_NeighborsSimulator (cls mab) in
  let st := chunk_state (batch_chunk bs) in
  let st := update (append_predictions name (batch_predictions bs !!! name)) st in
  let st := update (append_expectations name (be !!! name)) st in
  let st :=
    if is_Radius_or_LSH_Simulator (cls mab) && negb is_quick
    then update (set_neighborhood_size name (neighborhood_sizes (policy mab))) st
    else st in
  let st :=
    if is_NeighborsSimulator (cls mab) && negb is_quick
    then update (set_neighborhoods name (neighborhood_arm_to_stat (policy mab))) st
    else st in
  let st := _get_partial_evaluation name (Batch i) batch_decisions
              (batch_predictions bs !!! name) batch_rewards start nn st in
  let contexts := if is_contextual mab then batch_contexts else None in
  let p := partial_fit (policy mab) batch_decisions batch_rewards contexts in
  let st := emit (EvPartialFit name batch_decisions batch_rewards contexts) st in
  (mkBatchState (mkChunkState st (distances (batch_chunk bs)))
     (batch_predictions bs) be,
   with_policy mab p).

(** The state of the loop over the batches: the simulator state, the bandits
    and the local variable [start]. *)
Record OnlineState : Type := mkOnlineState {
  online_state : State;
  online_bandits : list (string * Mab);
  online_start : Z
}.

(** The body of [for i in range(...)]; [None] is the [ZeroDivisionError] of a
    chunk size 0. *)
Definition online_batch (batch_size chunk_size : Z)
    (test_decisions : list Arm) (test_rewards : list Z)
    (test_contexts : option (list Ctx))
    (acc : option OnlineState) (i : Z) : option OnlineState :=
  os ← acc;
  let start := online_start os in
  let stop := Z.min (start + batch_size) (Z.of_nat (length test_decisions) + 1) in
  let batch_contexts := (fun c => slice c start stop) <$> test_contexts in
  let batch_decisions := slice test_decisions start stop in
  let batch_rewards := slice test_rewards start stop in
  let chunk_start := 0 in
  n ← ceil_div batch_size chunk_size;
  let '(bs1, bandits1) :=
    foldl (online_chunk batch_size chunk_size start stop chunk_start
             batch_decisions batch_contexts)
          (mkBatchState (mkChunkState (online_state os) None) ∅ ∅, online_bandits os)
          (range 0 n) in
  let '(bs2, bandits2) :=
    for_bandits (online_score i start batch_decisions batch_rewards batch_contexts)
      bs1 bandits1 in
  Some (mkOnlineState (chunk_state (batch_chunk bs2)) bandits2 (start + batch_size)).

Definition _online_test_bandits_chunks (batch_size chunk_size : Z)
    (test_decisions : list Arm) (test_rewards : list Z)
    (test_contexts : option (list Ctx))
    (st : State) (bandits : list (string * Mab))
  : option (State * list (string * Mab)) :=
  n ← ceil_div (Z.of_nat (length test_decisions)) batch_size;
  os ← foldl (online_batch batch_size chunk_size test_decisions test_rewards test_contexts)
             (Some (mkOnlineState st bandits 0)) (range 0 n);
  Some (online_state os, online_bandits os).

(** The body of the final loop of [_online_test_bandits]. *)
Definition online_total (test_decisions : list Arm) (test_rewards : list Z)
    (st : State) (name : string) (mab : Mab) : State * Mab :=
  let nn := is_NeighborsSimulator (cls mab) in
  let st := _get_partial_evaluation name Total test_decisions
              (bandit_to_predictions (results st) !!! name) test_rewards 0 nn st in
  let st :=
    if is_NeighborsSimulator (cls mab) && negb is_quick
    then update (set_neighborhoods name (neighborhood_arm_to_stat (policy mab)))
           (update (set_neighborhood_size name (neighborhood_sizes (policy mab))) st)
    else st in
  (st, mab).

Definition _online_test_bandits (batch_size chunk_size : Z)
    (test_decisions : list Arm) (test_rewards : list Z)
    (test_contexts : option (list Ctx))
    (st : State) (bandits : list (string * Mab))
  : option (State * list (string * Mab)) :=
  '(st1, bandits1) ← _online_test_bandits_chunks batch_size chunk_size
                       test_decisions test_rewards test_contexts st bandits;
  Some (for_bandits (online_total test_decisions test_rewards) st1 bandits1).

(** *** Training: [_train_bandits] *)

(** The fresh entries of a bandit in the eight tables. *)
Definition init_tables (name : string) (r : Results) : Results :=
  mkResults
    (<[name := []]> (bandit_to_predictions r))
    (<[name := Many []]> (bandit_to_expectations r))
    (<[name := []]> (bandit_to_neighborhood_size r))
    (<[name := []]> (bandit_to_arm_to_stats_neighborhoods r))
    (<[name := []]> (bandit_to_confusion_matrices r))
    (<[name := Keyed []]> (bandit_to_arm_to_stats_min r))
    (<[name := Keyed []]> (bandit_to_arm_to_stats_avg r))
    (<[name := Keyed []]> (bandit_to_arm_to_stats_max r)).

(** The simulator variant that replaces an implementation, if any. *)
Definition simulated_class (c : MabClass) : MabClass :=
  match c with
  | PlainMab ImpRadius => RadiusSimulator
  | PlainMab ImpKNearest => KNearestSimulator
  | PlainMab ImpLSHNearest => LSHSimulator
  | c => c
  end.

(** Modelled from the spec: a simulator variant is a contextual policy (the
    glossary's neighbor-based policy); its constructor is in
    [mabwiser/simulator/mab.py], which is not among the sources. *)
Definition simulate (mab : Mab) : Mab :=
  match cls mab with
  | PlainMab ImpRadius | PlainMab ImpKNearest | PlainMab ImpLSHNearest =>
      mkMab (simulated_class (cls mab)) true (n_jobs mab) (arms mab)
        (simulator (simulated_class (cls mab)) is_quick (policy mab))
  | _ => mab
  end.

Definition train_bandit (train_decisions : list Arm) (train_rewards : list Z)
    (train_contexts : option (list Ctx))
    (st : State) (name : string) (mab : Mab) : State * Mab :=
  let st := update (init_tables name) st in
  let mab := simulate mab in
  let contexts := if is_contextual mab then train_contexts else None in
  let p := fit (policy mab) train_decisions train_rewards contexts in
  (emit (EvFit name train_decisions train_rewards contexts) st, with_policy mab p).

Definition _train_bandits (train_decisions : list Arm) (train_rewards : list Z)
    (train_contexts : option (list Ctx))
    (st : State) (bandits : list (string * Mab)) : State * list (string * Mab) :=
  for_bandits (train_bandit train_decisions train_rewards train_contexts) st bandits.

(** *** Reading a trace *)

(** The distance sharing a trace shows: who computed distances and who was
    handed them. *)
Inductive sharing : Type :=
| Computed (name : string) (d : Dist)
| Handed (name : string) (d : Dist).

Definition sharing_of (e : event) : option sharing :=
  match e with
  | EvCalculateDistances name _ d => Some (Computed name d)
  | EvSetDistances name d => Some (Handed name d)
  | _ => None
  end.

Definition sharing_events (tr : list event) : list sharing :=
  omap sharing_of tr.

(** The bandits that go through the distance cache: the contextual radius and
    k-nearest simulators. *)
Definition shares_distances (mab : Mab) : bool :=
  is_contextual mab && is_Radius_or_KNearest_Simulator (cls mab).

Definition cache_users (bandits : list (string * Mab)) : list string :=
  (filter (fun b => shares_distances b.2 = true) bandits).*1.

(** The neighbor-based bandits of the glossary: radius, k-nearest and
    approximate-hash. *)
Definition neighbor_based (bandits : list (string * Mab)) : list string :=
  (filter (fun b => is_NeighborsSimulator (cls b.2) = true) bandits).*1.

(** The sharing the specification words: every neighbor-based bandit after
    the first is handed the cached distances. *)
Definition handed_to_later_neighbors (tr : list event)
    (bandits : list (string * Mab)) : Prop :=
  forall name, name ∈ tail (neighbor_based bandits) ->
    exists d, Handed name d ∈ sharing_events tr.

(** The checkpoints a trace shows: a confusion matrix recorded, an evaluation
    recorded, a policy updated with a batch. *)
Inductive scored : Type :=
| Confused (name : string) (ck : checkpoint)
| Evaluated (name : string) (ck : checkpoint) (s : stat)
| Updated (name : string) (decisions : list Arm) (rewards : list Z)
          (contexts : option (list Ctx)).

Definition checkpoint_of (e : event) : option scored :=
  match e with
  | EvConfusion name ck _ _ _ => Some (Confused name ck)
  | EvEvaluation name ck s _ _ _ _ => Some (Evaluated name ck s)
  | EvPartialFit name decisions rewards contexts =>
      Some (Updated name decisions rewards contexts)
  | _ => None
  end.

Definition checkpoint_events (tr : list event) : list scored :=
  omap checkpoint_of tr.

(** The order the specification asks for.  A checkpoint of a policy is its
    confusion matrix, then its minimum, mean and maximum evaluations. *)
Definition scoring_of (name : string) (ck : checkpoint) : list scored :=
  [Confused name ck; Evaluated name ck SMin; Evaluated name ck SMean;
   Evaluated name ck SMax].

(** Batch [i]: every policy is scored, then updated with the batch. *)
Definition batch_schedule (i : Z) (decisions : list Arm) (rewards : list Z)
    (contexts : option (list Ctx)) (bandits : list (string * Mab)) : list scored :=
  bandits ≫= fun b =>
    scoring_of b.1 (Batch i)
    ++ [Updated b.1 decisions rewards (if is_contextual b.2 then contexts else None)].

Definition total_schedule (bandits : list (string * Mab)) : list scored :=
  bandits ≫= fun b => scoring_of b.1 Total.

(** The batches in order, each on its rows of the test set, then the totals. *)
Definition online_schedule (batch_size : Z)
    (test_decisions : list Arm) (test_rewards : list Z)
    (test_contexts : option (list Ctx)) (bandits : list (string * Mab)) : list scored :=
  let n := default 0 (ceil_div (Z.of_nat (length test_decisions)) batch_size) in
  (range 0 n ≫= fun i =>
     let start := i * batch_size in
     let stop := Z.min (start + batch_size) (Z.of_nat (length test_decisions) + 1) in
     batch_schedule i (slice test_decisions start stop) (slice test_rewards start stop)
       ((fun c => slice c start stop) <$> test_contexts) bandits)
  ++ total_schedule bandits.


(** Events of [predict] and [predict_expectations]. *)
Definition is_prediction (e : event) : Prop :=
  match e with
  | EvPredict _ _ _ | EvPredictExpectations _ _ _ => True
  | _ => False
  end.

(** A loop body that shares distances the way [share_distances] does: a cache
    user computes on an empty cache and is handed the cached value otherwise,
    and nobody else touches the cache. *)
Definition step_shares {S : Type} (proj : S -> ChunkState)
    (body : S -> string -> Mab -> S * Mab) : Prop :=
  forall s name mab s' mab',
    body s name mab = (s', mab') ->
    exists new,
      trace (chunk_state (proj s')) = trace (chunk_state (proj s)) ++ new
      /\ if shares_distances mab
         then match distances (proj s) with
              | None => exists d, distances (proj s') = Some d
                                  /\ sharing_events new = [Computed name d]
              | Some d => distances (proj s') = Some d
                          /\ sharing_events new = [Handed name d]
              end
         else distances (proj s') = distances (proj s) /\ sharing_events new = [].

(** Events of the calls the prediction of a chunk makes. *)
Definition is_policy_call (e : event) : Prop :=
  match e with
  | EvCalculateDistances _ _ _ | EvSetDistances _ _
  | EvPredict _ _ _ | EvPredictExpectations _ _ _ => True
  | _ => False
  end.

(** Events that are not a scoring labelled ["total"]. *)
Definition not_total (e : event) : Prop :=
  match e with
  | EvConfusion _ Total _ _ _ | EvEvaluation _ Total _ _ _ _ _ => False
  | _ => True
  end.

(** What the loops never change in a bandit: its name, its class and its
    [is_contextual] flag. *)
Definition shape (bandits : list (string * Mab)) : list (string * MabClass * bool) :=
  (fun b => (b.1, cls b.2, is_contextual b.2)) <$> bandits.

(** The two tables of neighborhood bookkeeping. *)
Definition neighborhood_tables (st : State)
  : gmap string (list Z) * gmap string (list NStat) :=
  (bandit_to_neighborhood_size (results st),
   bandit_to_arm_to_stats_neighborhoods (results st)).

Definition expectations_of (st : State) : gmap string (ret Expn) :=
  bandit_to_expectations (results st).

(** A bandit as [_train_bandits] leaves it: wrapped, then fitted. *)
Definition trained (train_decisions : list Arm) (train_rewards : list Z)
    (train_contexts : option (list Ctx)) (mab : Mab) : Mab :=
  let wrapped := simulate mab in
  with_policy wrapped
    (fit (policy wrapped) train_decisions train_rewards
       (if is_contextual wrapped then train_contexts else None)).

(** A name that only context-free bandits carry. *)
Definition context_free_name (name : string) (bandits : list (string * Mab)) : Prop :=
  forall c contextual, (name, c, contextual) ∈ shape bandits -> contextual = false.

(** The entries the replay reads: a bandit has its lists in the list tables
    and its dictionaries in the tables of evaluations. *)
Definition has_entries (name : string) (r : Results) : Prop :=
  is_Some (bandit_to_predictions r !! name)
  /\ (exists l, bandit_to_expectations r !! name = Some (Many l))
  /\ is_Some (bandit_to_neighborhood_size r !! name)
  /\ is_Some (bandit_to_arm_to_stats_neighborhoods r !! name)
  /\ is_Some (bandit_to_confusion_matrices r !! name)
  /\ (exists items, bandit_to_arm_to_stats_min r !! name = Some (Keyed items))
  /\ (exists items, bandit_to_arm_to_stats_avg r !! name = Some (Keyed items))
  /\ (exists items, bandit_to_arm_to_stats_max r !! name = Some (Keyed items)).

(** The state in which [run] starts a replay: every bandit has its entries,
    so no read of a table fails. *)
Definition tables_ready (bandits : list (string * Mab)) (st : State) : Prop :=
  forall name, name ∈ bandits.*1 -> has_entries name (results st).

End WithCollaborators.
End Replay.

(** ** The simulator object: [_validate_args], [__init__] and [run] *)
Module Simulation.
Export Replay.

(** The exceptions of the constructor. *)
Inductive exn : Type :=
| TypeError (msg : string)
| ValueError (msg : string)
| IndexError (msg : string).

(** [check_true(condition, exception)] of [mabwiser.utilities.validators]. *)
Definition check_true (condition : bool) (e : exn) : exn + unit :=
  if condition then inr tt else inl e.

(** A sequence of checks: the first one that raises decides. *)
Fixpoint first_error (checks : list (exn + unit)) : exn + unit :=
  match checks with
  | [] => inr tt
  | inl e :: _ => inl e
  | inr _ :: rest => first_error rest
  end.

(** An argument that is a list, array or series, or something else. *)
Inductive pyarray (A : Type) : Type :=
| ArrayLike (items : list A)
| NotArrayLike.
Arguments ArrayLike {A} items.
Arguments NotArrayLike {A}.

Section WithCollaborators.

Context {Arm : Type} `{Countable Arm}.
Context {Ctx Dist Expn NStat Cfm EvalRes M F : Type}.

Local Abbreviation Mab := (@Mab Arm M).
Local Abbreviation TStats := (gmap Arm (@Stats.ArmStats F)).

(** The arguments as Python hands them over, before any check: a value that
    may or may not be a list of pairs, a name that may or may not be a string,
    an object that may or may not be a [MAB] or [BaseMAB], an array-like or
    something else, a 2-D context matrix or something else. *)
Inductive pyname : Type :=
| NameStr (s : string)
| NameOther.

Inductive pymab : Type :=
| IsMab (mab : Mab)
| NotMab.

Inductive pybandits : Type :=
| BanditList (pairs : list (pyname * pymab))
| NotList.

Inductive pycontexts : Type :=
| Matrix (rows : list Ctx)
| NotMatrix.

Definition is_str (n : pyname) : bool :=
  match n with NameStr _ => true | NameOther => false end.

Definition is_mab (m : pymab) : bool :=
  match m with IsMab _ => true | NotMab => false end.

(** The loop over the pairs of the bandit list. *)
Fixpoint check_bandits (pairs : list (pyname * pymab)) : exn + unit :=
  match pairs with
  | [] => inr tt
  | (name, mab) :: rest =>
      first_error
        [ check_true (is_str name)
            (TypeError "All bandits must be identified by strings.");
          check_true (is_mab mab)
            (TypeError "All bandits must be MAB objects or inherit from BaseMab.");
          check_bandits rest ]
  end.

(** Modelled from the spec: [check_fit_input], [validate_2d] and [check_len]
    of [mabwiser.utilities.validators], which is not among the sources:
    decisions and rewards are type-checked, contexts must be 2-D, and lengths
    must match.  Their messages are not known; the texts below stand for
    them. *)
Definition check_fit_input (decisions : pyarray Arm) (rewards : pyarray Z) : exn + unit :=
  match decisions, rewards with
  | ArrayLike _, ArrayLike _ => inr tt
  | _, _ => inl (TypeError "decisions and rewards must be array-like")
  end.

Definition validate_2d (contexts : pycontexts) : exn + unit :=
  match contexts with
  | Matrix _ => inr tt
  | NotMatrix => inl (TypeError "contexts must be 2-D")
  end.

Definition check_len (n m : nat) (what : string) : exn + unit :=
  check_true (bool_decide (n = m)) (ValueError what).

Definition array_items {A : Type} (a : pyarray A) : list A :=
  match a with
  | ArrayLike l => l
  | NotArrayLike => []
  end.

Definition context_rows (c : pycontexts) : list Ctx :=
  match c with
  | Matrix rows => rows
  | NotMatrix => []
  end.

(** [math.ceil(len(decisions) * test_size)]. *)
Definition test_set_bound (n : Z) (test_size : Q) : Z :=
  Qceiling (inject_Z n * test_size).

Definition batch_size_error : exn :=
  ValueError "Batch size cannot be larger than the test set.".

Definition _validate_args (bandits : pybandits)
    (decisions : pyarray Arm) (rewards : pyarray Z) (contexts : option pycontexts)
    (test_size : Q) (batch_size : Z) : exn + unit :=
  match bandits with
  | NotList => inl (TypeError "Bandits must be provided in a list.")
  | BanditList pairs =>
      first_error
        [ check_bandits pairs;
          check_fit_input decisions rewards;
          match contexts with
          | Some c =>
              first_error
                [ validate_2d c;
                  check_len (length (array_items decisions)) (length (context_rows c))
                    "decisions and contexts must have the same length" ]
          | None => inr tt
          end;
          check_len (length (array_items decisions)) (length (array_items rewards))
            "decisions and rewards must have the same length";
          if 0 <? batch_size
          then check_true
                 (batch_size <=?
                    test_set_bound (Z.of_nat (length (array_items decisions))) test_size)
                 batch_size_error
          else inr tt ]
  end.

(** Replacing the strings that name the bandits. *)
Definition rename_with (f : string -> string) (name : pyname) : pyname :=
  match name with
  | NameStr s => NameStr (f s)
  | NameOther => NameOther
  end.


(** *** The object and its constructor *)

Context {MA : @ModelAdapter Arm Ctx Dist Expn NStat M}.
Context {SC : @Scoring Arm NStat Cfm TStats EvalRes}.

(** Library routines the simulator calls: the float reductions of
    [get_stats], [effective_jobs] of [mabwiser.utilities.general] and
    sklearn's shuffled split. *)
Variable np_mean : list Z -> F.
Variable np_std : list Z -> F.
Variable effective_jobs : Z -> Z -> Z.
Variable train_test_split : nat -> Q -> Z -> list nat * list nat.

(** The fields of [SimulatorConfig] the simulator reads (the evaluator is in
    [Scoring]). *)
Record Config : Type := mkConfig {
  batch_size : Z;
  test_size : Q;
  is_ordered : bool;
  is_quick : bool;
  seed : Z
}.

(** A scaler: [fit_transform] returns the scaled train contexts and, fitted,
    the [transform] to apply to the test contexts. *)
Definition Scaler : Type := list Ctx -> list Ctx * (list Ctx -> list Ctx).

Record Simulator : Type := mkSimulator {
  config : Config;
  bandits : list (string * Mab);
  decisions : list Arm;
  rewards : list Z;
  contexts : option (list Ctx);
  scaler : option Scaler;
  _online : bool;
  _chunk_size : Z;
  sim_arms : list Arm;
  max_n_jobs : Z;
  arm_to_stats_total : TStats;
  arm_to_stats_train : TStats;
  arm_to_stats_test : TStats;
  state : State (Arm:=Arm) (Ctx:=Ctx) (Dist:=Dist) (Expn:=Expn) (NStat:=NStat)
                (Cfm:=Cfm) (EvalRes:=EvalRes);
  test_indices : list Z
}.

(** The bandit list once it has passed the checks. *)
Definition typed_bandits (bandits : pybandits) : list (string * Mab) :=
  match bandits with
  | NotList => []
  | BanditList pairs =>
      omap (fun pair =>
              match pair with
              | (NameStr name, IsMab mab) => Some (name, mab)
              | _ => None
              end) pairs
  end.

Definition __init__ (bandits : pybandits)
    (decisions : pyarray Arm) (rewards : pyarray Z)
    (config : Config) (scaler : option Scaler) (contexts : option pycontexts)
  : exn + Simulator :=
  match _validate_args bandits decisions rewards contexts
          (test_size config) (batch_size config) with
  | inl e => inl e
  | inr _ =>
      let bandits := typed_bandits bandits in
      let decisions := array_items decisions in
      match bandits with
      | [] => inl (IndexError "list index out of range")
      | (iter_name, iter_mab) :: rest =>
          let jobs (pair : string * Mab) :=
            effective_jobs
              (test_set_bound (Z.of_nat (length decisions)) (test_size config))
              (n_jobs pair.2) in
          inr {| config := config;
                 bandits := bandits;
                 decisions := decisions;
                 rewards := array_items rewards;
                 contexts := context_rows <$> contexts;
                 scaler := scaler;
                 _online := 0 <? batch_size config;
                 _chunk_size := 100;
                 sim_arms := arms iter_mab;
                 max_n_jobs := foldr Z.max (jobs (iter_name, iter_mab)) (jobs <$> rest);
                 arm_to_stats_total := ∅;
                 arm_to_stats_train := ∅;
                 arm_to_stats_test := ∅;
                 state := mkState empty_results [];
                 test_indices := [] |}
      end
  end.

(** *** [run] *)

(** [None] is an exception raised on the way. *)
Definition run (sim : Simulator) : option Simulator :=
  let cfg := config sim in
  total ← Stats.get_arm_stats np_mean np_std (sim_arms sim) (decisions sim) (rewards sim);
  let split :=
    Split._run_train_test_split train_test_split (is_ordered cfg) (test_size cfg)
      (seed cfg) (max_n_jobs sim) (decisions sim) (rewards sim) (contexts sim) in
  '(train_contexts, test_contexts) ←
    match scaler sim with
    | None => Some (Split.train_contexts split, Split.test_contexts split)
    | Some scale =>
        match Split.train_contexts split, Split.test_contexts split with
        | Some train, Some test =>
            let '(scaled, transform) := scale train in
            Some (Some scaled, Some (transform test))
        | _, _ => None
        end
    end;
  train ← Stats.get_arm_stats np_mean np_std (sim_arms sim)
            (Split.train_decisions split) (Split.train_rewards split);
  test ← Stats.get_arm_stats np_mean np_std (sim_arms sim)
           (Split.test_decisions split) (Split.test_rewards split);
  let '(st1, bandits1) :=
    _train_bandits (is_quick cfg) (Split.train_decisions split)
      (Split.train_rewards split) train_contexts (state sim) (bandits sim) in
  '(st2, bandits2) ←
    (if _online sim
     then _online_test_bandits (is_quick cfg) (sim_arms sim) train
            (batch_size cfg) (Split.chunk_size split)
            (Split.test_decisions split) (Split.test_rewards split) test_contexts
            st1 bandits1
     else _offline_test_bandits (is_quick cfg) (sim_arms sim) train
            (Split.chunk_size split)
            (Split.test_decisions split) (Split.test_rewards split) test_contexts
            st1 bandits1);
  Some {| config := cfg;
          bandits := bandits2;
          decisions := decisions sim;
          rewards := rewards sim;
          contexts := contexts sim;
          scaler := scaler sim;
          _online := _online sim;
          _chunk_size := Split.chunk_size split;
          sim_arms := sim_arms sim;
          max_n_jobs := max_n_jobs sim;
          arm_to_stats_total := total;
          arm_to_stats_train := train;
          arm_to_stats_test := test;
          state := st2;
          test_indices := Split.test_indices split |}.

End WithCollaborators.
End Simulation.

(** ** Concrete collaborators, used to run the simulator on examples *)
Module Examples.
Export Simulation.

(** Arms and contexts are numbers.  The state of a policy counts the
    predictions it has made.  A contextual call answers with the contexts
    themselves, so a prediction names the row it was made for; a context-free
    call answers arm 0. *)
Definition echo_predict (p : nat) (contexts : option (list Z)) : ret Z * nat :=
  match contexts with
  | Some [c] => (One c, S p)
  | Some rows => (Many rows, S p)
  | None => (One 0, S p)
  end.

Global Instance echo_adapter : @ModelAdapter Z Z (list Z) Z Z nat := {|
  fit := fun p _ _ _ => p;
  partial_fit := fun p _ _ _ => p;
  predict := echo_predict;
  predict_expectations := fun p contexts => (Many (default [] contexts), p);
  calculate_distances := fun p contexts => (default [] contexts, p);
  set_distances := fun p _ => p;
  row_arm_to_expectation := fun _ => [];
  arm_to_expectation := fun p => Z.of_nat p;
  neighborhood_sizes := fun p => [Z.of_nat p];
  neighborhood_arm_to_stat := fun p => [Z.of_nat p];
  simulator := fun _ _ p => p
|}.

(** The confusion matrix is replaced by the number of predictions it is
    given, the evaluator by the start index it is given. *)
Global Instance count_scoring {TStats : Type} : @Scoring Z Z nat TStats Z := {|
  confusion_matrix := fun _ predictions => length predictions;
  evaluator := fun _ _ _ _ _ _ start_index _ => start_index
|}.

Definition echo_mab (c : MabClass) (contextual : bool) : @Mab Z nat :=
  mkMab c contextual 1 [0; 1] 0%nat.

Definition start_state : @State Z Z (list Z) Z Z nat Z :=
  mkState empty_results [].

(** [a, a + 1, ..., a + n - 1]. *)
Fixpoint zseq (a : Z) (n : nat) : list Z :=
  match n with
  | O => []
  | S n' => a :: zseq (a + 1) n'
  end.

(** The contexts of the [predict] calls of a trace, in order. *)
Definition predicted_contexts
    (tr : list (@event Z Z (list Z) Z nat Z)) : list (option (list Z)) :=
  omap (fun e => match e with
                 | EvPredict _ contexts _ => Some contexts
                 | _ => None
                 end) tr.

(** One contextual policy that is not neighbor-based, trained on nothing. *)
Definition echo_bandits : list (string * @Mab Z nat) :=
  [("echo", echo_mab (PlainMab ImpOther) true)].

Definition trained_state : @State Z Z (list Z) Z Z nat Z :=
  (_train_bandits false [] [] None start_state echo_bandits).1.

(** The online replay of a test set whose contexts (and decisions and
    rewards) are the row numbers [0 .. n-1], in one batch of [n] rows. *)
Definition online_rows (n : nat) (chunk_size : Z)
  : option (@State Z Z (list Z) Z Z nat Z * list (string * @Mab Z nat)) :=
  let rows := zseq 0 n in
  _online_test_bandits_chunks false [0; 1] tt (Z.of_nat n) chunk_size
    rows rows (Some rows) trained_state echo_bandits.

Definition predictions_of
    (r : option (@State Z Z (list Z) Z Z nat Z * list (string * @Mab Z nat)))
  : option (list (ret Z)) :=
  r ≫= fun x => bandit_to_predictions (results x.1) !! "echo".

(** The reductions of [get_stats] on exact rationals: the mean, and the
    variance (the square of what [std] returns, which need not be rational). *)
Definition exact_mean (l : list Z) : Q :=
  inject_Z (foldr Z.add 0 l) / inject_Z (Z.of_nat (length l)).

Definition exact_variance (l : list Z) : Q :=
  let m := exact_mean l in
  foldr Qplus 0%Q ((fun x => (inject_Z x - m) * (inject_Z x - m))%Q <$> l)
  / inject_Z (Z.of_nat (length l)).

(** The log of the class documentation, with a third arm that never occurs. *)
Definition doc_arms : list string := ["Arm1"; "Arm2"; "Arm3"].
Definition doc_decisions : list string := ["Arm1"; "Arm1"; "Arm2"; "Arm1"].
Definition doc_rewards : list Z := [20; 17; 25; 9].

(** Arguments of the constructor: two bandits, four rows, half of them for
    the test set. *)
Definition two_bandits (name1 name2 : string) : @pybandits Z nat :=
  BanditList [ (NameStr name1, IsMab (echo_mab (PlainMab ImpOther) true));
               (NameStr name2, IsMab (echo_mab (PlainMab ImpOther) false)) ].

Definition half_config (batch_size : Z) : Config :=
  mkConfig batch_size (1 # 2) true false 0.

Definition construct (bandits : @pybandits Z nat) (batch_size : Z)
  : exn + @Simulator Z _ _ Z (list Z) Z Z nat Z nat Q :=
  __init__ (fun rows jobs => jobs) bandits
    (ArrayLike [0; 1; 0; 1]) (ArrayLike [1; 0; 1; 1])
    (half_config batch_size) None (Some (Matrix [10; 11; 12; 13])).

(** The state after the training of the bandits on an empty log. *)
Definition trained_with (bandits : list (string * @Mab Z nat))
  : @State Z Z (list Z) Z Z nat Z :=
  (_train_bandits false [] [] None start_state bandits).1.

(** A chunk of two rows for a radius, a k-nearest and an approximate-hash
    simulator, in two orders. *)
Definition radius_knearest : list (string * @Mab Z nat) :=
  [("radius", echo_mab RadiusSimulator true);
   ("knearest", echo_mab KNearestSimulator true)].

Definition radius_lsh : list (string * @Mab Z nat) :=
  [("radius", echo_mab RadiusSimulator true);
   ("lsh", echo_mab LSHSimulator true)].

Definition first_chunk (bandits : list (string * @Mab Z nat))
  : @ChunkState Z Z (list Z) Z Z nat Z * list (string * @Mab Z nat) :=
  offline_chunk false 2 [0; 1] (Some [10; 11])
    (mkChunkState (trained_with bandits) None, bandits) 0.

(** A test set of five rows replayed online in batches of two rows by a
    contextual and a context-free policy. *)
Definition mixed_bandits : list (string * @Mab Z nat) :=
  [("contextual", echo_mab (PlainMab ImpOther) true);
   ("free", echo_mab (PlainMab ImpOther) false)].

Definition five_rows : list Z := [10; 11; 12; 13; 14].

(** A simulator over six rows for a radius policy and a context-free policy,
    and its offline run. *)
Definition radius_and_free : @pybandits Z nat :=
  BanditList [ (NameStr "radius", IsMab (echo_mab (PlainMab ImpRadius) true));
               (NameStr "free", IsMab (echo_mab (PlainMab ImpOther) false)) ].

Definition six_rows (quick : bool)
  : exn + @Simulator Z _ _ Z (list Z) Z Z nat Z nat Q :=
  __init__ (fun rows jobs => jobs) radius_and_free
    (ArrayLike [0; 1; 0; 1; 0; 1]) (ArrayLike [1; 0; 1; 1; 0; 1])
    (mkConfig 0 (1 # 2) true quick 0) None
    (Some (Matrix [10; 11; 12; 13; 14; 15])).

Definition run_example (sim : @Simulator Z _ _ Z (list Z) Z Z nat Z nat Q)
  : option (@Simulator Z _ _ Z (list Z) Z Z nat Z nat Q) :=
  run exact_mean exact_variance (fun _ _ _ => ([], [])) sim.

Definition run_six_rows (quick : bool)
  : option (@Simulator Z _ _ Z (list Z) Z Z nat Z nat Q) :=
  match six_rows quick with
  | inr sim => run_example sim
  | inl _ => None
  end.

End Examples.

(** ** Reading a replay: the calls and the tables of one bandit *)
Module Calls.
Export Replay.
Section WithTypes.

Context {Arm Ctx Dist Expn Cfm EvalRes : Type}.

Local Abbreviation event := (@event Arm Ctx Dist Expn Cfm EvalRes).

(** The bandit an event is about. *)
Definition event_name (e : event) : string :=
  match e with
  | EvFit name _ _ _ | EvCalculateDistances name _ _ | EvSetDistances name _
  | EvPredict name _ _ | EvPredictExpectations name _ _
  | EvConfusion name _ _ _ _ | EvEvaluation name _ _ _ _ _ _
  | EvPartialFit name _ _ _ => name
  end.

(** The events of the bandit [name] that [read] picks, in order. *)
Definition calls_of {X : Type} (read : event -> option X) (name : string)
    (tr : list event) : list X :=
  omap (fun e => if decide (event_name e = name) then read e else None) tr.

(** The contexts of a [predict] call ([None] for [mab.predict()]), and the
    arguments of a [partial_fit] call. *)
Definition predict_arg (e : event) : option (option (list Ctx)) :=
  match e with
  | EvPredict _ contexts _ => Some contexts
  | _ => None
  end.


Definition predict_calls (name : string) (tr : list event)
  : list (option (list Ctx)) :=
  calls_of predict_arg name tr.


(** The rows of the contexts a list of [predict] calls was handed, end to
    end; a call without contexts hands over no row. *)
Definition predicted_rows (calls : list (option (list Ctx))) : list Ctx :=
  calls ≫= default [].

End WithTypes.

(** *** The entries of one bandit *)
Section WithResults.

Context {Arm Expn NStat Cfm EvalRes : Type}.

(** The entries of a bandit in the eight result tables. *)
Definition entries (name : string) (r : @Results Arm Expn NStat Cfm EvalRes) :=
  (bandit_to_predictions r !! name,
   bandit_to_expectations r !! name,
   bandit_to_neighborhood_size r !! name,
   bandit_to_arm_to_stats_neighborhoods r !! name,
   bandit_to_confusion_matrices r !! name,
   bandit_to_arm_to_stats_min r !! name,
   bandit_to_arm_to_stats_avg r !! name,
   bandit_to_arm_to_stats_max r !! name).

(** The entries [_train_bandits] creates. *)
Definition fresh_entries :=
  (Some (@nil (ret Arm)), Some (@Many Expn []), Some (@nil Z), Some (@nil NStat),
   Some (@nil Cfm), Some (@Keyed EvalRes []), Some (@Keyed EvalRes []),
   Some (@Keyed EvalRes [])).

End WithResults.

(** *** Schedules of calls *)

(** The calls of the bandits that carry the name [name], from what a bandit
    of a class and with an [is_contextual] flag calls. *)
Definition select {X : Type} (name : string) (sh : list (string * MabClass * bool))
    (sched : MabClass -> bool -> list X) : list X :=
  sh ≫= fun x => if decide (x.1.1 = name) then sched x.1.2 x.2 else [].

(** The [predict] calls of chunk [idx] of the offline replay on one bandit:
    one call with the contexts of the chunk, or one call per row. *)
Definition chunk_calls {Arm Ctx : Type} (chunk_size : Z) (test_decisions : list Arm)
    (test_contexts : option (list Ctx)) (idx : Z) (_ : MabClass) (contextual : bool)
  : list (option (list Ctx)) :=
  let start := idx * chunk_size in
  let stop := Z.min ((idx + 1) * chunk_size) (Z.of_nat (length test_decisions)) in
  if contextual then [(fun c => slice c start stop) <$> test_contexts]
  else replicate (length (slice test_decisions start stop)) None.


(** *** What the scoring tables hold for one bandit *)
Section WithScores.

Context {Arm Expn NStat Cfm EvalRes : Type}.

(** The keys of a dictionary after [d[k] = v]: a new key goes last. *)
Definition key_add (k : checkpoint) (keys : list checkpoint) : list checkpoint :=
  if decide (k ∈ keys) then keys else keys ++ [k].

(** The keys of an entry of [bandit_to_arm_to_stats_min] (or [avg], [max])
    that is a dictionary keyed by checkpoint. *)
Definition score_keys (entry : option (@evaluations EvalRes))
  : option (list checkpoint) :=
  match entry with
  | Some (Keyed items) => Some items.*1
  | _ => None
  end.

(** For one bandit: the number of its confusion matrices and the keys of its
    three dictionaries of evaluations. *)
Definition scoring_summary (name : string) (r : @Results Arm Expn NStat Cfm EvalRes)
  : option nat * option (list checkpoint) * option (list checkpoint)
    * option (list checkpoint) :=
  (length <$> bandit_to_confusion_matrices r !! name,
   score_keys (bandit_to_arm_to_stats_min r !! name),
   score_keys (bandit_to_arm_to_stats_avg r !! name),
   score_keys (bandit_to_arm_to_stats_max r !! name)).

(** The summary after one more checkpoint [ck] has been scored. *)
Definition scored_at (ck : checkpoint)
    (v : option nat * option (list checkpoint) * option (list checkpoint)
         * option (list checkpoint))
  : option nat * option (list checkpoint) * option (list checkpoint)
    * option (list checkpoint) :=
  let '(c, kmin, kavg, kmax) := v in
  (Some (S (default 0%nat c)), Some (key_add ck (default [] kmin)),
   Some (key_add ck (default [] kavg)), Some (key_add ck (default [] kmax))).

End WithScores.

(** The state right after training: every bandit has the entries
    [_train_bandits] creates. *)
Definition fresh_tables {Arm Ctx Dist Expn NStat Cfm EvalRes M : Type}
    (bandits : list (string * @Mab Arm M))
    (st : @State Arm Ctx Dist Expn NStat Cfm EvalRes) : Prop :=
  forall name, name ∈ bandits.*1 -> entries name (results st) = fresh_entries.

(** For one bandit: its entries in the four scoring tables. *)
Definition scoring_tables_at {Arm Expn NStat Cfm EvalRes : Type}
    (name : string) (r : @Results Arm Expn NStat Cfm EvalRes) :=
  (bandit_to_confusion_matrices r !! name,
   bandit_to_arm_to_stats_min r !! name,
   bandit_to_arm_to_stats_avg r !! name,
   bandit_to_arm_to_stats_max r !! name).

(** The entries the final loop of the offline replay computes for a bandit,
    from the state it finds: the confusion matrix is appended, the three
    evaluations replace what was there. *)
Definition offline_scores {Arm Ctx Dist Expn NStat Cfm TStats EvalRes M : Type}
    {SC : @Scoring Arm NStat Cfm TStats EvalRes}
    (is_quick : bool) (sim_arms : list Arm) (arm_to_stats_train : TStats)
    (test_decisions : list Arm) (test_rewards : list Z)
    (name : string) (mab : @Mab Arm M)
    (st : @State Arm Ctx Dist Expn NStat Cfm EvalRes) :=
  let predictions := bandit_to_predictions (results st) !!! name in
  let '(ref, flag) :=
    scoring_reference is_quick arm_to_stats_train name
      (is_NeighborsSimulator (cls mab)) st in
  let score s :=
    Whole (evaluator sim_arms test_decisions test_rewards predictions ref s 0 flag) in
  (Some (bandit_to_confusion_matrices (results st) !!! name
         ++ [confusion_matrix test_decisions predictions]),
   Some (score SMin), Some (score SMean), Some (score SMax)).

(** The predictions of a bandit after some loops: what it had, then the new
    items, as many as rows for a context-free bandit. *)
Definition grown {Arm : Type} (rows : nat) (contextual : bool)
    (before after : option (list (ret Arm))) : Prop :=
  exists items, after = Some (default [] before ++ items)
                /\ (contextual = false -> length items = rows).




End Calls.

(** ** The checks of [plot] *)
Module Plot.
Export Simulation.

(** An argument that is a string, or a Boolean, or something else. *)
Inductive pystr : Type :=
| Str (s : string)
| NotStr.

Inductive pybool : Type :=
| Bool (b : bool)
| NotBool.

(** What [plot] raises: an exception of the constructor's kinds, or an
    [AssertionError]. *)
Inductive raised : Type :=
| Exn (e : exn)
| AssertionError (msg : string).

Section WithCollaborators.

Context {Arm : Type} `{Countable Arm}.
Context {Ctx Dist Expn NStat Cfm EvalRes M F : Type}.

Definition not_run_error : raised :=
  AssertionError
    "Descriptive statistics for predictions missing. Complete simulation must be run before calling this method.".

(** The four checks [plot] starts with, in their order.  What [plot] draws
    after them is read from the results of the evaluator and handed to the
    plotting library; it is not part of this development. *)
Definition plot_checks (metric : pystr) (is_per_arm : pybool)
    (sim : @Simulator Arm _ _ Ctx Dist Expn NStat Cfm EvalRes M F)
  : raised + unit :=
  match metric with
  | NotStr => inl (Exn (TypeError "Metric must be a string."))
  | Str m =>
      if negb (bool_decide (m ∈ ["avg"; "min"; "max"]))
      then inl (Exn (ValueError "Metric must be one of avg, min or max."))
      else
        match is_per_arm with
        | NotBool => inl (Exn (TypeError "is_per_arm must be True or False."))
        | Bool _ =>
            (* bool(self.bandit_to_arm_to_stats_min): the dictionary is not empty *)
            if bool_decide (bandit_to_arm_to_stats_min (results (state sim)) = ∅)
            then inl not_run_error
            else inr tt
        end
  end.

End WithCollaborators.
End Plot.

(** ** Further inputs *)
Module Cases.
Export Examples Calls.

(** The six rows of [six_rows] with no row left for the test set. *)
Definition no_test_rows
  : exn + @Simulator Z _ _ Z (list Z) Z Z nat Z nat Q :=
  __init__ (fun rows jobs => jobs) radius_and_free
    (ArrayLike [0; 1; 0; 1; 0; 1]) (ArrayLike [1; 0; 1; 1; 0; 1])
    (mkConfig 0 0 true false 0) None
    (Some (Matrix [10; 11; 12; 13; 14; 15])).

End Cases.

(** * Theorems *)

(** ** Facts about the Python primitives *)
Module PyFacts.
Import Py.

Lemma clamp_index_inside n i : 0 <= i <= n -> clamp_index n i = i.
Proof.
  intros Hi. unfold clamp_index.
  destruct (Z.ltb_spec i 0); lia.
Qed.

Lemma slice_inside {A : Type} (l : list A) (a b : Z) :
  0 <= a <= b -> b <= Z.of_nat (length l) ->
  slice l a b = take (Z.to_nat (b - a)) (drop (Z.to_nat a) l).
Proof.
  intros Hab Hb. unfold slice.
  rewrite !clamp_index_inside by lia. reflexivity.
Qed.

Lemma int_floor (x : Q) : (0 <= x)%Q -> int x = Qfloor x.
Proof.
  destruct x as [n d]. unfold Qle, int, Qfloor. simpl. intros Hn.
  apply Z.quot_div_nonneg; lia.
Qed.

End PyFacts.

(** ** Facts about [get_arm_stats] *)
Module StatsFacts.
Import Stats.
Section WithArms.

Context {Arm : Type} `{Countable Arm}.
Context {F : Type}.
Variable np_mean : list Z -> F.
Variable np_std : list Z -> F.
Variable isnan : F -> bool.

(** Selecting by position agrees with filtering the rows, whatever prefix of
    the arrays has already been skipped. *)
Lemma take_indices_where (pre : list Z) (decisions : list Arm) (rewards : list Z) arm :
  length decisions = length rewards ->
  take_indices (pre ++ rewards) (where_from (length pre) decisions arm)
  = Some (rewards_of decisions rewards arm).
Proof.
  revert pre rewards.
  induction decisions as [|d ds IH]; intros pre [|r rs] Hlen;
    simpl in Hlen; try discriminate; [reflexivity|].
  injection Hlen as Hlen.
  specialize (IH (pre ++ [r]) rs Hlen).
  rewrite <- app_assoc, length_app, Nat.add_1_r in IH. simpl in IH.
  unfold rewards_of. simpl zip. rewrite filter_cons. simpl where_from.
  destruct (decide (d = arm)) as [->|Hne].
  - rewrite decide_True by reflexivity. simpl.
    rewrite lookup_app_r by lia. rewrite Nat.sub_diag. simpl.
    rewrite IH. reflexivity.
  - rewrite decide_False by (simpl; exact Hne). exact IH.
Qed.

Lemma length_where_from i (decisions : list Arm) arm :
  length (where_from i decisions arm) = occurrences decisions arm.
Proof.
  revert i. unfold occurrences.
  induction decisions as [|d ds IH]; intros i; simpl; [reflexivity|].
  rewrite filter_cons. destruct (decide (d = arm)); simpl; rewrite IH; reflexivity.
Qed.

Lemma length_rewards_of (decisions : list Arm) (rewards : list Z) arm :
  length decisions = length rewards ->
  length (rewards_of decisions rewards arm) = occurrences decisions arm.
Proof.
  revert rewards. unfold rewards_of, occurrences.
  induction decisions as [|d ds IH]; intros [|r rs] Hlen;
    simpl in Hlen; try discriminate; [reflexivity|].
  injection Hlen as Hlen. simpl zip. rewrite !filter_cons. simpl.
  destruct (decide (d = arm)); simpl; rewrite IH by exact Hlen; reflexivity.
Qed.

(** One arm: the entry the loop body computes. *)
Lemma arm_stats_spec (decisions : list Arm) (rewards : list Z) arm :
  length decisions = length rewards ->
  exists s, arm_stats np_mean np_std decisions rewards arm = Some s
    /\ count s = Z.of_nat (occurrences decisions arm)
    /\ sum s = foldr Z.add 0 (rewards_of decisions rewards arm)
    /\ (occurrences decisions arm = 0%nat -> s = zero_stats).
Proof.
  intros Hlen. unfold arm_stats, np_where.
  rewrite length_where_from.
  pose proof (take_indices_where [] decisions rewards arm Hlen) as Htake.
  simpl in Htake. rewrite Htake. simpl.
  pose proof (length_rewards_of decisions rewards arm Hlen) as Hcount.
  case_bool_decide as Hpos.
  - destruct (rewards_of decisions rewards arm) as [|r rs] eqn:Hsel.
    + simpl in Hcount. lia.
    + simpl. eexists. split; [reflexivity|]. simpl.
      repeat split; [simpl in Hcount; lia | lia].
  - exists zero_stats. assert (occurrences decisions arm = 0%nat) as Hz by lia.
    rewrite Hz in *. destruct (rewards_of decisions rewards arm); [|discriminate].
    repeat split; reflexivity.
Qed.

(** The loop over the arms keeps the entries of other arms and never fails on
    arrays of equal length. *)
Lemma get_arm_stats_fold (arms : list Arm) (decisions : list Arm) (rewards : list Z)
    (init : gmap Arm (ArmStats (F:=F))) :
  length decisions = length rewards ->
  exists stats,
    foldl (fun acc arm =>
             stats ← acc;
             s ← arm_stats np_mean np_std decisions rewards arm;
             Some (<[arm := s]> stats)) (Some init) arms = Some stats
    /\ forall arm,
         stats !! arm =
         if decide (arm ∈ arms)
         then arm_stats np_mean np_std decisions rewards arm
         else init !! arm.
Proof.
  intros Hlen. revert init.
  induction arms as [|a arms IH]; intros init; cbn [foldl].
  - exists init. split; [reflexivity|]. intros arm.
    destruct (decide (arm ∈ [])) as [Hin|_]; [|reflexivity].
    apply elem_of_nil in Hin. contradiction.
  - destruct (arm_stats_spec decisions rewards a Hlen) as (s & Hs & _).
    rewrite Hs. cbn [mbind option_bind].
    destruct (IH (<[a := s]> init)) as (stats & Hfold & Hlook).
    exists stats. split; [exact Hfold|]. intros arm. rewrite Hlook.
    destruct (decide (arm ∈ arms)) as [Hin|Hnin].
    + rewrite decide_True by (right; exact Hin). reflexivity.
    + destruct (decide (arm = a)) as [->|Hne].
      * rewrite decide_True by left. rewrite lookup_insert_eq. symmetry. exact Hs.
      * rewrite decide_False by (intros Hc; apply elem_of_cons in Hc; tauto).
        rewrite lookup_insert_ne by congruence. reflexivity.
Qed.


End WithArms.

End StatsFacts.

(** ** Facts about the ordered split *)
Module SplitFacts.
Import Py PyFacts Split.
Section WithData.

Context {Arm Ctx : Type}.
Variable train_test_split : nat -> Q -> Z -> list nat * list nat.






End WithData.

End SplitFacts.

(** ** Facts about the validation of the constructor's arguments *)
Module ValidateFacts.
Import Simulation.
Section WithCollaborators.

Context {Arm : Type} `{Countable Arm}.
Context {Ctx Dist Expn NStat Cfm EvalRes M F : Type}.
Context {MA : @ModelAdapter Arm Ctx Dist Expn NStat M}.
Context {SC : @Scoring Arm NStat Cfm (gmap Arm (@Stats.ArmStats F)) EvalRes}.
Variable effective_jobs : Z -> Z -> Z.

Local Abbreviation pybandits := (@pybandits Arm M).
Local Abbreviation pycontexts := (@pycontexts Ctx).





(** Renaming the bandits: the names are replaced, the objects stay. *)
Lemma check_bandits_rename (f : string -> string) (pairs : list (@pyname * @pymab Arm M)) :
  check_bandits (prod_map (rename_with f) id <$> pairs) = check_bandits pairs.
Proof.
  induction pairs as [|[name mab] rest IH]; [reflexivity|].
  cbn. rewrite IH. destruct name; reflexivity.
Qed.

(** The checks of the bandit list pass exactly when every name is a string
    and every object is a bandit. *)
Lemma check_bandits_passes (pairs : list (@pyname * @pymab Arm M)) :
  check_bandits pairs = inr tt
  <-> Forall (fun pair => is_str pair.1 = true /\ is_mab pair.2 = true) pairs.
Proof.
  induction pairs as [|[name mab] rest IH]; cbn.
  - split; [constructor|reflexivity].
  - rewrite Forall_cons. cbn [fst snd].
    destruct (is_str name); cbn; [|split; [discriminate|intros [[? _] _]; discriminate]].
    destruct (is_mab mab); cbn; [|split; [discriminate|intros [[_ ?] _]; discriminate]].
    destruct (check_bandits rest) as [e|[]].
    + split; [discriminate|]. intros [_ Hall]. apply IH in Hall. discriminate.
    + split; [|reflexivity]. intros _. split; [split; reflexivity|].
      apply IH. reflexivity.
Qed.

(** C8, amended. The validation looks at the bandit list only to see that it
    is a list, that every name is a string and that every object is a bandit:
    the checks of the list pass exactly in that case, and the outcome of the
    whole validation is the same whatever the strings are, so a list in which
    every bandit carries one and the same name is accepted exactly when the
    list with the original names is. *)
Theorem validation_ignores_names (f : string -> string)
    (pairs : list (@pyname * @pymab Arm M))
    (decisions : pyarray Arm) (rewards : pyarray Z) (contexts : option pycontexts)
    (test_size : Q) (batch_size : Z) :
  _validate_args (BanditList (prod_map (rename_with f) id <$> pairs))
    decisions rewards contexts test_size batch_size
  = _validate_args (BanditList pairs) decisions rewards contexts test_size batch_size
  /\ (check_bandits pairs = inr tt
      <-> Forall (fun pair => is_str pair.1 = true /\ is_mab pair.2 = true) pairs).
Proof.
  split.
  - unfold _validate_args. cbn [first_error].
    rewrite check_bandits_rename. reflexivity.
  - apply check_bandits_passes.
Qed.

End WithCollaborators.

(** C8, as stated, fails: two bandits that share the name ["a"] pass the
    validation and the simulator is constructed with both of them. *)
Lemma duplicate_names_constructed :
  exists sim,
    Examples.construct (Examples.two_bandits "a" "a") 2 = inr sim
    /\ (bandits sim).*1 = ["a"; "a"].
Proof.
  vm_compute. eexists. split; reflexivity.
Qed.

End ValidateFacts.

(** ** The online chunk loop on a test set of 1000 rows *)
Module OnlineChunkFacts.
Import Examples.

(** C1. A log with contexts whose ordered split leaves 1000000 train rows
    and 1000 test rows gets the chunk size 125; replayed online in one batch
    of 1000 rows, the 8 chunks of the batch all span the rows [0, 125): every
    [predict] call receives the contexts of rows 0 to 124, and rows 125 to 999
    are handed to no call. *)
Theorem online_chunks_all_start_at_zero :
  Split.select_chunk_size 1000 1000000 true 1 = 125
  /\ exists st bandits,
       online_rows 1000 125 = Some (st, bandits)
       /\ predicted_contexts (trace st) = replicate 8 (Some (zseq 0 125)).
Proof.
  split; [vm_compute; reflexivity|].
  destruct (online_rows 1000 125) as [[st bandits]|] eqn:Hrun;
    [|vm_compute in Hrun; discriminate].
  exists st, bandits. split; [reflexivity|].
  assert (predicted_contexts (trace st)
          = match online_rows 1000 125 with
            | Some (st', _) => predicted_contexts (trace st')
            | None => []
            end) as -> by (rewrite Hrun; reflexivity).
  vm_compute. reflexivity.
Qed.

(** C2. On the same test set the predictions of the chunked online replay
    (chunk size 125) are eight copies of the predictions for rows 0 to 124,
    while the pass with a single chunk (chunk size 1000) predicts rows 0 to
    999 in order. *)
Theorem online_chunking_changes_predictions :
  predictions_of (online_rows 1000 125)
    = Some (concat (replicate 8 (One <$> zseq 0 125)))
  /\ predictions_of (online_rows 1000 1000) = Some (One <$> zseq 0 1000)
  /\ predictions_of (online_rows 1000 125) <> predictions_of (online_rows 1000 1000).
Proof.
  assert (predictions_of (online_rows 1000 125)
          = Some (concat (replicate 8 (One <$> zseq 0 125)))) as Hchunked
    by (vm_compute; reflexivity).
  assert (predictions_of (online_rows 1000 1000) = Some (One <$> zseq 0 1000))
    as Hsingle by (vm_compute; reflexivity).
  split; [exact Hchunked|]. split; [exact Hsingle|].
  rewrite Hchunked, Hsingle. intros Heq.
  apply (f_equal (fun o => o ≫= fun l => l !! 125%nat)) in Heq.
  vm_compute in Heq. discriminate.
Qed.

End OnlineChunkFacts.

(** ** Facts about the calls into a policy *)
Module CallFacts.
Import Replay.
Section WithCollaborators.

Context {Arm Ctx Dist Expn NStat Cfm TStats EvalRes M : Type}.
Context {MA : @ModelAdapter Arm Ctx Dist Expn NStat M}.
Context {SC : @Scoring Arm NStat Cfm TStats EvalRes}.
Variable is_quick : bool.
Variable sim_arms : list Arm.
Variable arm_to_stats_train : TStats.

Local Abbreviation Mab := (@Mab Arm M).
Local Abbreviation event := (@event Arm Ctx Dist Expn Cfm EvalRes).
Local Abbreviation State := (@State Arm Ctx Dist Expn NStat Cfm EvalRes).
Local Abbreviation ChunkState := (@ChunkState Arm Ctx Dist Expn NStat Cfm EvalRes).
Local Abbreviation BatchState := (@BatchState Arm Ctx Dist Expn NStat Cfm EvalRes).

(** *** What the calls into a policy leave in the trace *)

Lemma sharing_events_app (tr1 tr2 : list event) :
  sharing_events (tr1 ++ tr2) = sharing_events tr1 ++ sharing_events tr2.
Proof. apply omap_app. Qed.

Lemma checkpoint_events_app (tr1 tr2 : list event) :
  checkpoint_events (tr1 ++ tr2) = checkpoint_events tr1 ++ checkpoint_events tr2.
Proof. apply omap_app. Qed.

Lemma predictions_no_sharing (tr : list event) :
  Forall is_prediction tr -> sharing_events tr = [].
Proof.
  induction 1 as [|e tr He _ IH]; [reflexivity|].
  destruct e; try contradiction; exact IH.
Qed.

Lemma predictions_no_checkpoint (tr : list event) :
  Forall is_prediction tr -> checkpoint_events tr = [].
Proof.
  induction 1 as [|e tr He _ IH]; [reflexivity|].
  destruct e; try contradiction; exact IH.
Qed.

Lemma call_predict_spec name contexts (st : State) (p : M) :
  exists r p1,
    call_predict name contexts st p = (r, emit (EvPredict name contexts r) st, p1)
    /\ predict p contexts = (r, p1).
Proof.
  unfold call_predict. destruct (predict p contexts) as [r p1].
  exists r, p1. split; reflexivity.
Qed.

Lemma predict_times_spec n name (st : State) (p : M) :
  exists rs new p1,
    predict_times n name st p = (rs, mkState (results st) (trace st ++ new), p1)
    /\ Forall is_prediction new /\ length rs = n.
Proof.
  revert st p. induction n as [|n IH]; intros st p.
  - exists [], [], p. cbn. rewrite app_nil_r. destruct st. repeat split. constructor.
  - cbn [predict_times]. unfold call_predict.
    destruct (predict p None) as [r p1].
    destruct (IH (emit (EvPredict name None r) st) p1) as (rs & new & p2 & Heq & Hall & Hlen).
    rewrite Heq. exists (r :: rs), (EvPredict name None r :: new), p2.
    cbn. rewrite <- app_assoc. repeat split.
    + constructor; [exact I|exact Hall].
    + rewrite Hlen. reflexivity.
Qed.

Lemma call_predict_expectations_spec name contexts (st : State) (p : M) :
  exists r p1,
    call_predict_expectations name contexts st p
    = (r, emit (EvPredictExpectations name contexts r) st, p1).
Proof.
  unfold call_predict_expectations. destruct (predict_expectations p contexts) as [r p1].
  exists r, p1. reflexivity.
Qed.

Lemma share_distances_spec name contexts (cs : ChunkState) (p : M) :
  exists d e p1,
    share_distances name contexts cs p
    = (mkChunkState (emit e (chunk_state cs)) (Some d), p1)
    /\ match distances cs with
       | None => e = EvCalculateDistances name contexts d
       | Some d0 => d = d0 /\ e = EvSetDistances name d0
       end.
Proof.
  unfold share_distances. destruct (distances cs) as [d0|].
  - exists d0, (EvSetDistances name d0), (set_distances p d0). split; [reflexivity|].
    split; reflexivity.
  - destruct (calculate_distances p contexts) as [d p1].
    exists d, (EvCalculateDistances name contexts d), p1. split; reflexivity.
Qed.

(** *** The tables after training *)

Lemma init_tables_entries name n (r : @Results Arm Expn NStat Cfm EvalRes) :
  name = n \/ has_entries name r -> has_entries name (init_tables n r).
Proof.
  intros Hname. unfold has_entries, init_tables.
  cbn [bandit_to_predictions bandit_to_expectations bandit_to_neighborhood_size
       bandit_to_arm_to_stats_neighborhoods bandit_to_confusion_matrices
       bandit_to_arm_to_stats_min bandit_to_arm_to_stats_avg
       bandit_to_arm_to_stats_max].
  destruct (decide (n = name)) as [->|Hne].
  - rewrite !lookup_insert_eq. repeat split; eauto.
  - destruct Hname as [->|Hhas]; [contradiction|].
    rewrite !lookup_insert_ne by exact Hne. exact Hhas.
Qed.

Lemma train_bandits_entries train_decisions train_rewards train_contexts
    (bandits : list (string * Mab)) :
  forall (st st1 : State) bandits1,
    _train_bandits is_quick train_decisions train_rewards train_contexts st bandits
    = (st1, bandits1) ->
    bandits1.*1 = bandits.*1
    /\ forall name, name ∈ bandits.*1 \/ has_entries name (results st) ->
                    has_entries name (results st1).
Proof.
  unfold _train_bandits.
  induction bandits as [|[n m] rest IH]; intros st st1 bandits1 Hrun.
  - cbn in Hrun. injection Hrun as <- <-. split; [reflexivity|].
    intros name [Hin|Hhas]; [|exact Hhas]. cbn in Hin. inversion Hin.
  - cbn [for_bandits] in Hrun.
    destruct (train_bandit _ _ _ _ st n m) as [st0 m0] eqn:Hstep.
    destruct (for_bandits _ st0 rest) as [st2 rest2] eqn:Hrest.
    injection Hrun as <- <-.
    destruct (IH _ _ _ Hrest) as [Hnames Hkeep].
    unfold train_bandit in Hstep. cbv zeta in Hstep. injection Hstep as <- <-.
    split; [cbn [fmap list_fmap fst]; f_equal; exact Hnames|].
    intros name Hname. apply Hkeep.
    cbn [emit update results]. cbn [fmap list_fmap fst] in Hname.
    destruct Hname as [Hin|Hhas].
    + apply elem_of_cons in Hin as [->|Hin]; [right|left; exact Hin].
      apply init_tables_entries. left. reflexivity.
    + right. apply init_tables_entries. right. exact Hhas.
Qed.

(** After [_train_bandits] every bandit has its entries in the tables. *)
Lemma trained_tables_ready train_decisions train_rewards train_contexts
    (st : State) (bandits : list (string * Mab)) :
  tables_ready
    (_train_bandits is_quick train_decisions train_rewards train_contexts st bandits).2
    (_train_bandits is_quick train_decisions train_rewards train_contexts st bandits).1.
Proof.
  destruct (_train_bandits _ _ _ _ st bandits) as [st1 bandits1] eqn:Hrun.
  destruct (train_bandits_entries _ _ _ _ _ _ _ Hrun) as [Hnames Hkeep].
  intros name Hin. apply Hkeep. left. rewrite <- Hnames. exact Hin.
Qed.

End WithCollaborators.

(** The calls of a step, replaced by what they return. *)
Ltac run_calls :=
  repeat match goal with
  | |- context [share_distances ?n ?c ?cs ?p] =>
      let d := fresh "d" in let e := fresh "e" in let p1 := fresh "p" in
      let Heq := fresh "Hshare" in let He := fresh "Hevent" in
      destruct (share_distances_spec n c cs p) as (d & e & p1 & Heq & He);
      rewrite Heq; clear Heq
  | |- context [call_predict ?n ?c ?st ?p] =>
      let r := fresh "r" in let p1 := fresh "p" in let Heq := fresh "Hcall" in
      destruct (call_predict_spec n c st p) as (r & p1 & Heq & _);
      rewrite Heq; clear Heq
  | |- context [call_predict_expectations ?n ?c ?st ?p] =>
      let r := fresh "r" in let p1 := fresh "p" in let Heq := fresh "Hcall" in
      destruct (call_predict_expectations_spec n c st p) as (r & p1 & Heq);
      rewrite Heq; clear Heq
  | |- context [predict_times ?k ?n ?st ?p] =>
      let rs := fresh "rs" in let new := fresh "new" in let p1 := fresh "p" in
      let Heq := fresh "Hcall" in let Hall := fresh "Hall" in let Hlen := fresh "Hlen" in
      destruct (predict_times_spec k n st p) as (rs & new & p1 & Heq & Hall & Hlen);
      rewrite Heq; clear Heq
  end.

End CallFacts.

(** ** Distance sharing inside a chunk *)
Module SharingFacts.
Import Replay CallFacts.
Section WithCollaborators.

Context {Arm Ctx Dist Expn NStat Cfm TStats EvalRes M : Type}.
Context {MA : @ModelAdapter Arm Ctx Dist Expn NStat M}.
Context {SC : @Scoring Arm NStat Cfm TStats EvalRes}.
Variable is_quick : bool.
Variable sim_arms : list Arm.
Variable arm_to_stats_train : TStats.

Local Abbreviation Mab := (@Mab Arm M).
Local Abbreviation event := (@event Arm Ctx Dist Expn Cfm EvalRes).
Local Abbreviation State := (@State Arm Ctx Dist Expn NStat Cfm EvalRes).
Local Abbreviation ChunkState := (@ChunkState Arm Ctx Dist Expn NStat Cfm EvalRes).
Local Abbreviation BatchState := (@BatchState Arm Ctx Dist Expn NStat Cfm EvalRes).

Lemma offline_predict_sharing start stop chunk_decision chunk_contexts
    (cs cs' : ChunkState) name (mab mab' : Mab) :
  offline_predict is_quick start stop chunk_decision chunk_contexts cs name mab
  = (cs', mab') ->
  exists new,
    trace (chunk_state cs') = trace (chunk_state cs) ++ new
    /\ if shares_distances mab
       then match distances cs with
            | None => exists d, distances cs' = Some d
                                /\ sharing_events new = [Computed name d]
            | Some d => distances cs' = Some d /\ sharing_events new = [Handed name d]
            end
       else distances cs' = distances cs /\ sharing_events new = [].
Proof.
  unfold offline_predict, shares_distances.
  destruct (is_contextual mab); cbn [andb].
  - destruct (is_Radius_or_KNearest_Simulator (cls mab)).
    + run_calls. cbn. intros [= <- <-].
      destruct (is_NeighborsSimulator (cls mab) && negb is_quick); cbn;
        rewrite <- app_assoc; (eexists; split; [reflexivity|]);
        (destruct (distances cs) as [d0|]; [destruct Hevent as [-> ->]|subst e]);
        cbn; eauto.
    + run_calls.
      destruct (is_LSHSimulator (cls mab)); [|destruct (imp_is_Neighbors (cls mab))];
        run_calls; cbn; intros [= <- <-];
        destruct (is_NeighborsSimulator (cls mab) && negb is_quick); cbn;
        rewrite <- ?app_assoc; (eexists; split; [reflexivity|]); split; reflexivity.
  - run_calls. cbn. intros [= <- <-].
    destruct (is_NeighborsSimulator (cls mab) && negb is_quick); cbn;
      (eexists; split; [reflexivity|]); split;
      try reflexivity; apply predictions_no_sharing; exact Hall.
Qed.

Lemma online_predict_sharing batch_size start stop chunk_start chunk_stop
    chunk_decisions chunk_contexts
    (bs bs' : BatchState) name (mab mab' : Mab) :
  online_predict batch_size start stop chunk_start chunk_stop
    chunk_decisions chunk_contexts bs name mab = (bs', mab') ->
  exists new,
    trace (chunk_state (batch_chunk bs')) = trace (chunk_state (batch_chunk bs)) ++ new
    /\ if shares_distances mab
       then match distances (batch_chunk bs) with
            | None => exists d, distances (batch_chunk bs') = Some d
                                /\ sharing_events new = [Computed name d]
            | Some d => distances (batch_chunk bs') = Some d
                        /\ sharing_events new = [Handed name d]
            end
       else distances (batch_chunk bs') = distances (batch_chunk bs)
            /\ sharing_events new = [].
Proof.
  unfold online_predict, shares_distances.
  destruct (decide (name ∈ dom (batch_predictions bs))) as [_|_];
    destruct (is_contextual mab); cbn [andb].
  1, 3: destruct (is_Radius_or_KNearest_Simulator (cls mab)).
  1, 3: run_calls; cbn; intros [= <- <-]; cbn; rewrite <- app_assoc;
    (eexists; split; [reflexivity|]);
    destruct (distances (batch_chunk bs)) as [d0|];
    [destruct Hevent as [-> ->]|subst e]; cbn; eauto.
  1, 2: run_calls; destruct (is_LSHSimulator (cls mab)); run_calls; cbn;
    intros [= <- <-]; cbn; rewrite <- ?app_assoc;
    (eexists; split; [reflexivity|]); split; reflexivity.
  1, 2: run_calls; cbn; intros [= <- <-]; cbn;
    (eexists; split; [reflexivity|]); split;
    try reflexivity; apply predictions_no_sharing; exact Hall.
Qed.

(** The sharing of a loop over the bandits, from the cache it starts with. *)
Lemma for_bandits_sharing {S : Type} (proj : S -> ChunkState)
    (body : S -> string -> Mab -> S * Mab) :
  step_shares proj body ->
  forall (bandits : list (string * Mab)) (s s' : S) bandits',
    for_bandits body s bandits = (s', bandits') ->
    exists new,
      trace (chunk_state (proj s')) = trace (chunk_state (proj s)) ++ new
      /\ match distances (proj s) with
         | Some d =>
             sharing_events new = (fun n => Handed n d) <$> cache_users bandits
             /\ distances (proj s') = Some d
         | None =>
             match cache_users bandits with
             | [] => sharing_events new = [] /\ distances (proj s') = None
             | first :: others =>
                 exists d,
                   sharing_events new
                   = Computed first d :: ((fun n => Handed n d) <$> others)
                   /\ distances (proj s') = Some d
             end
         end.
Proof.
  intros Hstep bandits.
  induction bandits as [|[name mab] rest IH]; intros s s' bandits' Hrun.
  - cbn in Hrun. injection Hrun as <- <-. exists []. rewrite app_nil_r.
    split; [reflexivity|]. destruct (distances (proj s)); split; reflexivity.
  - cbn [for_bandits] in Hrun.
    destruct (body s name mab) as [s1 mab1] eqn:Hbody.
    destruct (for_bandits body s1 rest) as [s2 rest2] eqn:Hrest.
    injection Hrun as <- <-.
    destruct (Hstep _ _ _ _ _ Hbody) as (new1 & Htr1 & Hshare1).
    destruct (IH _ _ _ Hrest) as (new2 & Htr2 & Hshare2).
    exists (new1 ++ new2). rewrite Htr2, Htr1, <- app_assoc.
    split; [reflexivity|]. rewrite sharing_events_app.
    unfold cache_users in *. rewrite filter_cons. cbn [snd].
    destruct (shares_distances mab) eqn:Huses.
    + rewrite decide_True by reflexivity. cbn [fmap list_fmap fst].
      destruct (distances (proj s)) as [d0|].
      * destruct Hshare1 as [Hd1 ->]. rewrite Hd1 in Hshare2.
        destruct Hshare2 as [-> Hd2]. split; [reflexivity|exact Hd2].
      * destruct Hshare1 as (d & Hd1 & ->). rewrite Hd1 in Hshare2.
        destruct Hshare2 as [-> Hd2]. exists d. split; [reflexivity|exact Hd2].
    + rewrite decide_False by discriminate.
      destruct Hshare1 as [Hd1 ->]. rewrite Hd1 in Hshare2. exact Hshare2.
Qed.

(** C4, amended. In a chunk of the offline replay (run where every bandit has
    its entries in the tables, as after training) and of the online replay,
    whatever the cache held before, [calculate_distances] is called by at
    most one policy, the first contextual radius or k-nearest simulator of the
    bandit list, and every later contextual radius or k-nearest simulator is
    handed that very result through [set_distances]; no other policy computes
    or receives distances. *)
Theorem distances_shared_within_chunk :
  (forall chunk_size test_decisions test_contexts
          (cs cs' : ChunkState) (bandits bandits' : list (string * Mab)) idx,
     tables_ready bandits (chunk_state cs) ->
     offline_chunk is_quick chunk_size test_decisions test_contexts (cs, bandits) idx
     = (cs', bandits') ->
     exists new,
       trace (chunk_state cs') = trace (chunk_state cs) ++ new
       /\ match cache_users bandits with
          | [] => sharing_events new = []
          | first :: others =>
              exists d, sharing_events new
                        = Computed first d :: ((fun n => Handed n d) <$> others)
          end)
  /\ (forall batch_size chunk_size start stop chunk_start batch_decisions batch_contexts
             (bs bs' : BatchState) (bandits bandits' : list (string * Mab)) j,
        online_chunk batch_size chunk_size start stop chunk_start
          batch_decisions batch_contexts (bs, bandits) j = (bs', bandits') ->
        exists new,
          trace (chunk_state (batch_chunk bs'))
          = trace (chunk_state (batch_chunk bs)) ++ new
          /\ match cache_users bandits with
             | [] => sharing_events new = []
             | first :: others =>
                 exists d, sharing_events new
                           = Computed first d :: ((fun n => Handed n d) <$> others)
             end).
Proof.
  split.
  - intros chunk_size test_decisions test_contexts cs cs' bandits bandits' idx _ Hrun.
    unfold offline_chunk in Hrun.
    apply (for_bandits_sharing (fun cs => cs)) in Hrun.
    + cbn in Hrun. destruct Hrun as (new & Htr & Hshare). exists new.
      split; [exact Htr|]. destruct (cache_users bandits).
      * apply Hshare.
      * destruct Hshare as (d & Hs & _). exists d. exact Hs.
    + intros s name mab s' mab' Hbody.
      exact (offline_predict_sharing _ _ _ _ _ _ _ _ _ Hbody).
  - intros batch_size chunk_size start stop chunk_start batch_decisions batch_contexts
           bs bs' bandits bandits' j Hrun.
    unfold online_chunk in Hrun.
    apply (for_bandits_sharing batch_chunk) in Hrun.
    + cbn in Hrun. destruct Hrun as (new & Htr & Hshare). exists new.
      split; [exact Htr|]. destruct (cache_users bandits).
      * apply Hshare.
      * destruct Hshare as (d & Hs & _). exists d. exact Hs.
    + intros s name mab s' mab' Hbody.
      exact (online_predict_sharing _ _ _ _ _ _ _ _ _ _ _ _ Hbody).
Qed.

End WithCollaborators.
(** A radius and a k-nearest simulator on one chunk. *)
Lemma radius_then_knearest_share :
  exists d,
    sharing_events (trace (chunk_state (Examples.first_chunk Examples.radius_knearest).1))
    = [Computed "radius" d; Handed "knearest" d].
Proof.
  destruct (proj1 (distances_shared_within_chunk false) 2 [0; 1] (Some [10; 11])
              (mkChunkState (Examples.trained_with Examples.radius_knearest) None)
              (Examples.first_chunk Examples.radius_knearest).1
              Examples.radius_knearest
              (Examples.first_chunk Examples.radius_knearest).2 0)
    as (new & Htr & Hshare).
  { exact (trained_tables_ready false [] [] None Examples.start_state
             Examples.radius_knearest). }
  { unfold Examples.first_chunk. apply surjective_pairing. }
  cbn in Hshare. destruct Hshare as [d Hs].
  exists d. rewrite Htr. exact Hs.
Defined.

(** C4, as stated, fails: an approximate-hash simulator that follows a radius
    simulator on a chunk is neighbor-based, and it is not handed the cached
    distances. *)
Lemma lsh_simulator_not_handed_distances :
  ~ handed_to_later_neighbors
      (trace (chunk_state (Examples.first_chunk Examples.radius_lsh).1))
      Examples.radius_lsh.
Proof.
  intros Hclaim. destruct (Hclaim "lsh") as [d Hin].
  - vm_compute. apply list_elem_of_here.
  - vm_compute in Hin. inversion Hin as [|? ? ? Htail]; inversion Htail.
Qed.

End SharingFacts.

(** ** The order of scoring and updating in the online replay *)
Module OrderFacts.
Import Replay CallFacts.
Section WithCollaborators.

Context {Arm Ctx Dist Expn NStat Cfm TStats EvalRes M : Type}.
Context {MA : @ModelAdapter Arm Ctx Dist Expn NStat M}.
Context {SC : @Scoring Arm NStat Cfm TStats EvalRes}.
Variable is_quick : bool.
Variable sim_arms : list Arm.
Variable arm_to_stats_train : TStats.

Local Abbreviation Mab := (@Mab Arm M).
Local Abbreviation event := (@event Arm Ctx Dist Expn Cfm EvalRes).
Local Abbreviation State := (@State Arm Ctx Dist Expn NStat Cfm EvalRes).
Local Abbreviation ChunkState := (@ChunkState Arm Ctx Dist Expn NStat Cfm EvalRes).
Local Abbreviation BatchState := (@BatchState Arm Ctx Dist Expn NStat Cfm EvalRes).
Local Abbreviation OnlineState := (@OnlineState Arm Ctx Dist Expn NStat Cfm EvalRes M).

Lemma policy_calls_no_checkpoint (tr : list event) :
  Forall is_policy_call tr -> checkpoint_events tr = [].
Proof.
  induction 1 as [|e tr He _ IH]; [reflexivity|].
  destruct e; try contradiction; exact IH.
Qed.

Lemma policy_calls_not_total (tr : list event) :
  Forall is_policy_call tr -> Forall not_total tr.
Proof.
  intros Hall. eapply Forall_impl; [exact Hall|]. intros e He. destruct e; try contradiction; exact I.
Qed.

Lemma predictions_are_calls (tr : list event) :
  Forall is_prediction tr -> Forall is_policy_call tr.
Proof.
  intros Hall. eapply Forall_impl; [exact Hall|]. intros e He. destruct e; try contradiction; exact I.
Qed.


(** *** Loops over the bandits *)

Lemma shape_cons name (mab : Mab) rest :
  shape ((name, mab) :: rest) = (name, cls mab, is_contextual mab) :: shape rest.
Proof. reflexivity. Qed.

(** A loop whose body appends, for each bandit, events with a known
    checkpoint reading keeps the shape of the bandits and appends the
    readings in the order of the list. *)
Lemma for_bandits_schedule {S : Type} (proj : S -> State) (Inv : S -> Prop)
    (Q : event -> Prop) (sched : string -> Mab -> list scored)
    (body : S -> string -> Mab -> S * Mab) :
  (forall s name mab s' mab',
     Inv s -> body s name mab = (s', mab') ->
     Inv s' /\ cls mab' = cls mab /\ is_contextual mab' = is_contextual mab
     /\ exists new,
          trace (proj s') = trace (proj s) ++ new
          /\ checkpoint_events new = sched name mab /\ Forall Q new) ->
  forall (bandits : list (string * Mab)) s s' bandits',
    Inv s -> for_bandits body s bandits = (s', bandits') ->
    Inv s' /\ shape bandits' = shape bandits
    /\ exists new,
         trace (proj s') = trace (proj s) ++ new
         /\ checkpoint_events new = (bandits ≫= fun b => sched b.1 b.2)
         /\ Forall Q new.
Proof.
  intros Hstep bandits.
  induction bandits as [|[name mab] rest IH]; intros s s' bandits' Hinv Hrun.
  - cbn in Hrun. injection Hrun as <- <-. split; [exact Hinv|]. split; [reflexivity|].
    exists []. rewrite app_nil_r. repeat split. constructor.
  - cbn [for_bandits] in Hrun.
    destruct (body s name mab) as [s1 mab1] eqn:Hbody.
    destruct (for_bandits body s1 rest) as [s2 rest2] eqn:Hrest.
    injection Hrun as <- <-.
    destruct (Hstep _ _ _ _ _ Hinv Hbody)
      as (Hinv1 & Hcls & Hctx & new1 & Htr1 & Hck1 & HQ1).
    destruct (IH _ _ _ Hinv1 Hrest) as (Hinv2 & Hshape & new2 & Htr2 & Hck2 & HQ2).
    split; [exact Hinv2|]. split.
    + rewrite !shape_cons, Hshape, Hcls, Hctx. reflexivity.
    + exists (new1 ++ new2). rewrite Htr2, Htr1, <- app_assoc.
      split; [reflexivity|]. split.
      * rewrite checkpoint_events_app, Hck1, Hck2, bind_cons. reflexivity.
      * apply Forall_app. split; assumption.
Qed.

Lemma bind_nil_const {A B : Type} (l : list A) :
  (l ≫= fun _ => @nil B) = [].
Proof. induction l as [|x l IH]; [reflexivity|exact IH]. Qed.

(** The schedules read only the shape of the bandits. *)
Lemma batch_schedule_shape i decisions rewards (contexts : option (list Ctx)) (bandits bandits' : list (string * Mab)) :
  shape bandits = shape bandits' ->
  batch_schedule i decisions rewards contexts bandits
  = batch_schedule i decisions rewards contexts bandits'.
Proof.
  revert bandits'. unfold batch_schedule.
  induction bandits as [|[n m] rest IH]; intros [|[n' m'] rest'] Hshape;
    try discriminate; [reflexivity|].
  rewrite !shape_cons in Hshape. injection Hshape as -> _ Hctx Hrest.
  rewrite !bind_cons. cbn [fst snd]. rewrite Hctx. f_equal. exact (IH rest' Hrest).
Qed.


(** *** What a scoring leaves in the trace *)

Lemma record_evaluation_spec store name ck s decisions rewards predictions
    start_index nn (st : State) :
  exists res,
    record_evaluation is_quick sim_arms arm_to_stats_train store name ck s
      decisions rewards predictions start_index nn st
    = mkState
        (set_stats s name (store res (stats_table s (results st) !!! name)) (results st))
        (trace st ++ [EvEvaluation name ck s decisions predictions start_index res]).
Proof.
  unfold record_evaluation, scoring_reference.
  destruct (nn && negb is_quick); eexists; reflexivity.
Qed.

Lemma get_partial_evaluation_spec name ck decisions predictions rewards
    start_index nn (st : State) :
  exists cfm r1 r2 r3,
    trace (_get_partial_evaluation is_quick sim_arms arm_to_stats_train name ck
             decisions predictions rewards start_index nn st)
    = trace st ++ [EvConfusion name ck decisions predictions cfm;
                   EvEvaluation name ck SMin decisions predictions start_index r1;
                   EvEvaluation name ck SMean decisions predictions start_index r2;
                   EvEvaluation name ck SMax decisions predictions start_index r3]
    /\ bandit_to_predictions
         (results (_get_partial_evaluation is_quick sim_arms arm_to_stats_train name ck
                     decisions predictions rewards start_index nn st))
       = bandit_to_predictions (results st).
Proof.
  unfold _get_partial_evaluation. cbv zeta.
  set (st0 := record_confusion name ck decisions predictions st).
  destruct (record_evaluation_spec (set_key ck) name ck SMin decisions rewards
              predictions start_index nn st0) as [r1 ->].
  match goal with |- context [record_evaluation _ _ _ _ _ _ SMean _ _ _ _ _ ?s] =>
    destruct (record_evaluation_spec (set_key ck) name ck SMean decisions rewards
                predictions start_index nn s) as [r2 ->] end.
  match goal with |- context [record_evaluation _ _ _ _ _ _ SMax _ _ _ _ _ ?s] =>
    destruct (record_evaluation_spec (set_key ck) name ck SMax decisions rewards
                predictions start_index nn s) as [r3 ->] end.
  exists (confusion_matrix decisions predictions), r1, r2, r3.
  subst st0. cbn. rewrite <- !app_assoc. split; reflexivity.
Qed.

(** *** The two loops of a batch *)

Lemma online_predict_calls batch_size start stop chunk_start chunk_stop
    chunk_decisions chunk_contexts (bs bs' : BatchState) name (mab mab' : Mab) :
  online_predict batch_size start stop chunk_start chunk_stop
    chunk_decisions chunk_contexts bs name mab = (bs', mab') ->
  cls mab' = cls mab /\ is_contextual mab' = is_contextual mab
  /\ results (chunk_state (batch_chunk bs')) = results (chunk_state (batch_chunk bs))
  /\ exists new,
       trace (chunk_state (batch_chunk bs')) = trace (chunk_state (batch_chunk bs)) ++ new
       /\ Forall is_policy_call new.
Proof.
  unfold online_predict.
  destruct (decide (name ∈ dom (batch_predictions bs))) as [_|_];
    destruct (is_contextual mab) eqn:Hctx.
  1, 3: destruct (is_Radius_or_KNearest_Simulator (cls mab)).
  1, 3: run_calls; cbn; intros [= <- <-]; cbn; rewrite <- app_assoc;
    repeat split; try exact Hctx; eexists; (split; [reflexivity|]);
    destruct (distances (batch_chunk bs)) as [d0|];
    [destruct Hevent as [-> ->]|subst e]; repeat constructor.
  1, 2: run_calls; destruct (is_LSHSimulator (cls mab)); run_calls; cbn;
    intros [= <- <-]; cbn; rewrite <- ?app_assoc;
    repeat split; try exact Hctx; eexists; (split; [reflexivity|]);
    repeat constructor.
  1, 2: run_calls; cbn; intros [= <- <-]; cbn;
    repeat split; try exact Hctx; eexists; (split; [reflexivity|]);
    apply predictions_are_calls; exact Hall.
Qed.

Lemma online_score_spec i start batch_decisions batch_rewards batch_contexts
    (bs bs' : BatchState) name (mab mab' : Mab) :
  online_score is_quick sim_arms arm_to_stats_train i start
    batch_decisions batch_rewards batch_contexts bs name mab = (bs', mab') ->
  cls mab' = cls mab /\ is_contextual mab' = is_contextual mab
  /\ exists new,
       trace (chunk_state (batch_chunk bs')) = trace (chunk_state (batch_chunk bs)) ++ new
       /\ checkpoint_events new
          = scoring_of name (Batch i)
            ++ [Updated name batch_decisions batch_rewards
                  (if is_contextual mab then batch_contexts else None)]
       /\ Forall not_total new.
Proof.
  unfold online_score. cbv zeta. intros [= <- <-].
  split; [reflexivity|]. split; [reflexivity|].
  cbn [batch_chunk chunk_state trace emit].
  destruct (is_Radius_or_LSH_Simulator (cls mab) && negb is_quick),
           (is_NeighborsSimulator (cls mab) && negb is_quick);
    match goal with
    | |- context [_get_partial_evaluation _ _ _ ?n ?ck ?d ?p ?r ?si ?nn ?s] =>
        destruct (get_partial_evaluation_spec n ck d p r si nn s)
          as (cfm & r1 & r2 & r3 & Htr & _)
    end;
    rewrite Htr; cbn [update trace]; rewrite <- app_assoc;
    (eexists; split; [reflexivity|]); (split; [reflexivity|]);
    repeat constructor.
Qed.

Lemma online_chunks_calls batch_size chunk_size start stop chunk_start
    batch_decisions batch_contexts (js : list Z) :
  forall (bs bs' : BatchState) (bandits bandits' : list (string * Mab)),
    foldl (online_chunk batch_size chunk_size start stop chunk_start
             batch_decisions batch_contexts) (bs, bandits) js = (bs', bandits') ->
    shape bandits' = shape bandits
    /\ exists new,
         trace (chunk_state (batch_chunk bs'))
         = trace (chunk_state (batch_chunk bs)) ++ new
         /\ Forall is_policy_call new.
Proof.
  induction js as [|j js IH]; intros bs bs' bandits bandits' Hrun.
  - cbn in Hrun. injection Hrun as <- <-. split; [reflexivity|].
    exists []. rewrite app_nil_r. split; [reflexivity|constructor].
  - cbn [foldl] in Hrun.
    destruct (online_chunk batch_size chunk_size start stop chunk_start
                batch_decisions batch_contexts (bs, bandits) j)
      as [bs1 bandits1] eqn:Hchunk.
    unfold online_chunk in Hchunk.
    apply (for_bandits_schedule (fun b => chunk_state (batch_chunk b))
             (fun _ => True) is_policy_call (fun _ _ => [])) in Hchunk;
      [|intros s name mab s' mab' _ Hbody;
        destruct (online_predict_calls _ _ _ _ _ _ _ _ _ _ _ _ Hbody)
          as (Hcls & Hctx & _ & new & Htr & Hcalls);
        split; [exact I|]; split; [exact Hcls|]; split; [exact Hctx|];
        exists new; split; [exact Htr|]; split;
        [apply policy_calls_no_checkpoint; exact Hcalls|exact Hcalls]
       |exact I].
    destruct Hchunk as (_ & Hshape1 & new1 & Htr1 & _ & Hcalls1).
    cbn in Htr1.
    destruct (IH _ _ _ _ Hrun) as (Hshape2 & new2 & Htr2 & Hcalls2).
    split; [rewrite Hshape2; exact Hshape1|].
    exists (new1 ++ new2). rewrite Htr2, Htr1, <- app_assoc.
    split; [reflexivity|]. apply Forall_app. split; assumption.
Qed.

(** One batch: the chunks are predicted, then every policy is scored and
    updated, in the order of the bandit list. *)
Lemma online_batch_spec batch_size chunk_size test_decisions test_rewards
    test_contexts (os : OnlineState) (i n : Z) :
  ceil_div batch_size chunk_size = Some n ->
  exists os',
    online_batch is_quick sim_arms arm_to_stats_train batch_size chunk_size
      test_decisions test_rewards test_contexts (Some os) i = Some os'
    /\ online_start os' = online_start os + batch_size
    /\ shape (online_bandits os') = shape (online_bandits os)
    /\ exists new,
         trace (online_state os') = trace (online_state os) ++ new
         /\ checkpoint_events new
            = (let start := online_start os in
               let stop := Z.min (start + batch_size)
                             (Z.of_nat (length test_decisions) + 1) in
               batch_schedule i (slice test_decisions start stop)
                 (slice test_rewards start stop)
                 ((fun c => slice c start stop) <$> test_contexts)
                 (online_bandits os))
         /\ Forall not_total new.
Proof.
  intros Hn. unfold online_batch. cbn [mbind option_bind]. rewrite Hn.
  cbn [mbind option_bind]. cbv zeta.
  set (start := online_start os).
  set (stop := Z.min (start + batch_size) (Z.of_nat (length test_decisions) + 1)).
  destruct (foldl _ _ (range 0 n)) as [bs1 bandits1] eqn:Hchunks.
  destruct (for_bandits _ bs1 bandits1) as [bs2 bandits2] eqn:Hscore.
  apply online_chunks_calls in Hchunks.
  destruct Hchunks as (Hshape1 & new1 & Htr1 & Hcalls1). cbn in Htr1.
  apply (for_bandits_schedule (fun b => chunk_state (batch_chunk b))
           (fun _ => True) not_total
           (fun name mab =>
              scoring_of name (Batch i)
              ++ [Updated name (slice test_decisions start stop)
                    (slice test_rewards start stop)
                    (if is_contextual mab
                     then (fun c => slice c start stop) <$> test_contexts
                     else None)])) in Hscore;
    [|intros s name mab s' mab' _ Hbody;
      destruct (online_score_spec _ _ _ _ _ _ _ _ _ _ Hbody)
        as (Hcls & Hctx & Hnew);
      split; [exact I|]; split; [exact Hcls|]; split; [exact Hctx|]; exact Hnew
     |exact I].
  destruct Hscore as (_ & Hshape2 & new2 & Htr2 & Hck2 & Hnt2).
  eexists. split; [reflexivity|]. cbn [online_start online_bandits online_state].
  split; [reflexivity|]. split; [rewrite Hshape2; exact Hshape1|].
  exists (new1 ++ new2). rewrite Htr2, Htr1, <- app_assoc.
  split; [reflexivity|]. split.
  - rewrite checkpoint_events_app, (policy_calls_no_checkpoint _ Hcalls1), Hck2.
    cbn [app]. apply (batch_schedule_shape i). exact Hshape1.
  - apply Forall_app. split; [apply policy_calls_not_total; exact Hcalls1|exact Hnt2].
Qed.

(** *** The loop over the batches *)

Lemma range_first (a : Z) (m : nat) :
  range a (a + Z.of_nat (S m)) = a :: range (a + 1) (a + 1 + Z.of_nat m).
Proof.
  unfold range.
  replace (Z.to_nat (a + Z.of_nat (S m) - a)) with (S m) by lia.
  replace (Z.to_nat (a + 1 + Z.of_nat m - (a + 1))) with m by lia.
  cbn [seq map]. f_equal; [lia|].
  rewrite <- seq_shift, map_map. apply map_ext. intros k. lia.
Qed.

Lemma range_length_form (a b : Z) :
  range a b = range a (a + Z.of_nat (Z.to_nat (b - a))).
Proof.
  unfold range. f_equal. f_equal. lia.
Qed.

Lemma bind_ext_in {A B : Type} (f g : A -> list B) (l : list A) :
  (forall x, f x = g x) -> l ≫= f = l ≫= g.
Proof.
  intros Hfg. induction l as [|x l IH]; [reflexivity|].
  rewrite !bind_cons, Hfg, IH. reflexivity.
Qed.

Lemma online_batches_spec batch_size chunk_size test_decisions test_rewards
    test_contexts (n : Z) :
  ceil_div batch_size chunk_size = Some n ->
  forall (m : nat) (a : Z) (os : OnlineState),
    online_start os = a * batch_size ->
    exists os',
      foldl (online_batch is_quick sim_arms arm_to_stats_train batch_size chunk_size
               test_decisions test_rewards test_contexts)
            (Some os) (range a (a + Z.of_nat m)) = Some os'
      /\ shape (online_bandits os') = shape (online_bandits os)
      /\ exists new,
           trace (online_state os') = trace (online_state os) ++ new
           /\ checkpoint_events new
              = (range a (a + Z.of_nat m) ≫= fun i =>
                   let start := i * batch_size in
                   let stop := Z.min (start + batch_size)
                                 (Z.of_nat (length test_decisions) + 1) in
                   batch_schedule i (slice test_decisions start stop)
                     (slice test_rewards start stop)
                     ((fun c => slice c start stop) <$> test_contexts)
                     (online_bandits os))
           /\ Forall not_total new.
Proof.
  intros Hn. induction m as [|m IH]; intros a os Hstart.
  - replace (a + Z.of_nat 0) with a by lia.
    assert (range a a = []) as -> by (unfold range; rewrite Z.sub_diag; reflexivity).
    exists os. split; [reflexivity|]. split; [reflexivity|].
    exists []. rewrite app_nil_r. repeat split. constructor.
  - rewrite range_first. cbn [foldl].
    destruct (online_batch_spec batch_size chunk_size test_decisions test_rewards
                test_contexts os a n Hn)
      as (os1 & Hbatch & Hstart1 & Hshape1 & new1 & Htr1 & Hck1 & Hnt1).
    rewrite Hbatch.
    destruct (IH (a + 1) os1) as (os2 & Hfold & Hshape2 & new2 & Htr2 & Hck2 & Hnt2);
      [rewrite Hstart1, Hstart; lia|].
    exists os2. split; [exact Hfold|]. split; [rewrite Hshape2; exact Hshape1|].
    exists (new1 ++ new2). rewrite Htr2, Htr1, <- app_assoc.
    split; [reflexivity|]. split.
    + rewrite checkpoint_events_app, Hck1, Hck2, bind_cons. rewrite Hstart.
      f_equal. apply bind_ext_in. intros i. cbv zeta.
      apply batch_schedule_shape. exact Hshape1.
    + apply Forall_app. split; assumption.
Qed.

(** *** The totals *)



End WithCollaborators.

(** The schedule of the last batch of that replay and of its totals: the
    batch holds the one row left, each policy is scored and then updated with
    it, the context-free policy without contexts. *)
Lemma schedule_of_five_rows :
  drop 20 (online_schedule 2 Examples.five_rows Examples.five_rows
             (Some Examples.five_rows) Examples.mixed_bandits)
  = [ Confused "contextual" (Batch 2); Evaluated "contextual" (Batch 2) SMin;
      Evaluated "contextual" (Batch 2) SMean; Evaluated "contextual" (Batch 2) SMax;
      Updated "contextual" [14] [14] (Some [14]);
      Confused "free" (Batch 2); Evaluated "free" (Batch 2) SMin;
      Evaluated "free" (Batch 2) SMean; Evaluated "free" (Batch 2) SMax;
      Updated "free" [14] [14] None;
      Confused "contextual" Total; Evaluated "contextual" Total SMin;
      Evaluated "contextual" Total SMean; Evaluated "contextual" Total SMax;
      Confused "free" Total; Evaluated "free" Total SMin;
      Evaluated "free" Total SMean; Evaluated "free" Total SMax ].
Proof. vm_compute. reflexivity. Qed.

End OrderFacts.

(** ** What the replay writes to the result tables *)
Module TableFacts.
Import Replay CallFacts OrderFacts.
Section WithCollaborators.

Context {Arm Ctx Dist Expn NStat Cfm TStats EvalRes M : Type}.
Context {MA : @ModelAdapter Arm Ctx Dist Expn NStat M}.
Context {SC : @Scoring Arm NStat Cfm TStats EvalRes}.
Variable is_quick : bool.
Variable sim_arms : list Arm.
Variable arm_to_stats_train : TStats.

Local Abbreviation Mab := (@Mab Arm M).
Local Abbreviation event := (@event Arm Ctx Dist Expn Cfm EvalRes).
Local Abbreviation State := (@State Arm Ctx Dist Expn NStat Cfm EvalRes).
Local Abbreviation ChunkState := (@ChunkState Arm Ctx Dist Expn NStat Cfm EvalRes).
Local Abbreviation BatchState := (@BatchState Arm Ctx Dist Expn NStat Cfm EvalRes).
Local Abbreviation OnlineState := (@OnlineState Arm Ctx Dist Expn NStat Cfm EvalRes M).

(** *** Loops that keep a reading of the state *)

Lemma for_bandits_keeps {S X : Type} (f : S -> X)
    (body : S -> string -> Mab -> S * Mab) :
  (forall s name mab s' mab', body s name mab = (s', mab') -> f s' = f s) ->
  forall (bandits : list (string * Mab)) s s' bandits',
    for_bandits body s bandits = (s', bandits') -> f s' = f s.
Proof.
  intros Hstep bandits.
  induction bandits as [|[name mab] rest IH]; intros s s' bandits' Hrun.
  - cbn in Hrun. injection Hrun as <- <-. reflexivity.
  - cbn [for_bandits] in Hrun.
    destruct (body s name mab) as [s1 mab1] eqn:Hbody.
    destruct (for_bandits body s1 rest) as [s2 rest2] eqn:Hrest.
    injection Hrun as <- <-.
    rewrite (IH _ _ _ Hrest). exact (Hstep _ _ _ _ _ Hbody).
Qed.

Lemma foldl_keeps {S A X : Type} (f : S -> X) (step : S -> A -> S) (l : list A) :
  (forall s a, f (step s a) = f s) -> forall s, f (foldl step s l) = f s.
Proof.
  intros Hstep. induction l as [|a l IH]; intros s; [reflexivity|].
  cbn [foldl]. rewrite IH. apply Hstep.
Qed.

(** *** Scoring never writes neighborhood data or expectations *)

Lemma get_partial_evaluation_tables name ck decisions predictions rewards
    start_index nn (st : State) :
  neighborhood_tables
    (_get_partial_evaluation is_quick sim_arms arm_to_stats_train name ck
       decisions predictions rewards start_index nn st)
  = neighborhood_tables st.
Proof.
  unfold _get_partial_evaluation. cbv zeta.
  set (st0 := record_confusion name ck decisions predictions st).
  destruct (record_evaluation_spec is_quick sim_arms arm_to_stats_train
              (set_key ck) name ck SMin decisions rewards
              predictions start_index nn st0) as [r1 ->].
  match goal with |- context [record_evaluation _ _ _ _ _ _ SMean _ _ _ _ _ ?s] =>
    destruct (record_evaluation_spec is_quick sim_arms arm_to_stats_train
                (set_key ck) name ck SMean decisions rewards
                predictions start_index nn s) as [r2 ->] end.
  match goal with |- context [record_evaluation _ _ _ _ _ _ SMax _ _ _ _ _ ?s] =>
    destruct (record_evaluation_spec is_quick sim_arms arm_to_stats_train
                (set_key ck) name ck SMax decisions rewards
                predictions start_index nn s) as [r3 ->] end.
  reflexivity.
Qed.

(** *** A quick replay leaves the neighborhood tables alone *)

Lemma quick_guard (b : bool) : is_quick = true -> b && negb is_quick = false.
Proof. intros ->. apply andb_false_r. Qed.

Lemma offline_predict_quick start stop chunk_decision chunk_contexts
    (cs cs' : ChunkState) name (mab mab' : Mab) :
  is_quick = true ->
  offline_predict is_quick start stop chunk_decision chunk_contexts cs name mab
  = (cs', mab') ->
  neighborhood_tables (chunk_state cs') = neighborhood_tables (chunk_state cs).
Proof.
  intros Hquick. unfold offline_predict. rewrite (quick_guard _ Hquick).
  destruct (is_contextual mab).
  - destruct (is_Radius_or_KNearest_Simulator (cls mab)).
    + run_calls. cbn. intros [= <- <-]. reflexivity.
    + run_calls.
      destruct (is_LSHSimulator (cls mab)); [|destruct (imp_is_Neighbors (cls mab))];
        run_calls; cbn; intros [= <- <-]; reflexivity.
  - run_calls. cbn. intros [= <- <-]. reflexivity.
Qed.

Lemma offline_score_quick test_decisions test_rewards
    (st st' : State) name (mab mab' : Mab) :
  is_quick = true ->
  offline_score is_quick sim_arms arm_to_stats_train test_decisions test_rewards
    st name mab = (st', mab') ->
  neighborhood_tables st' = neighborhood_tables st.
Proof.
  intros Hquick. unfold offline_score. cbv zeta. rewrite (quick_guard _ Hquick).
  intros [= <- <-].
  repeat match goal with
  | |- context [record_evaluation _ _ _ ?store ?n ?ck ?s ?d ?r ?p ?si ?nn ?st0] =>
      let res := fresh "res" in
      destruct (record_evaluation_spec is_quick sim_arms arm_to_stats_train
                  store n ck s d r p si nn st0) as [res ->]
  end.
  destruct (negb (is_contextual mab)); reflexivity.
Qed.

Lemma online_score_quick i start batch_decisions batch_rewards batch_contexts
    (bs bs' : BatchState) name (mab mab' : Mab) :
  is_quick = true ->
  online_score is_quick sim_arms arm_to_stats_train i start
    batch_decisions batch_rewards batch_contexts bs name mab = (bs', mab') ->
  neighborhood_tables (chunk_state (batch_chunk bs'))
  = neighborhood_tables (chunk_state (batch_chunk bs)).
Proof.
  intros Hquick. unfold online_score. cbv zeta. rewrite !(quick_guard _ Hquick).
  intros [= <- <-]. cbn [batch_chunk chunk_state].
  unfold neighborhood_tables at 1. cbn [emit results].
  match goal with
  | |- context [_get_partial_evaluation _ _ _ ?n ?ck ?d ?p ?r ?si ?nn ?s] =>
      pose proof (get_partial_evaluation_tables n ck d p r si nn s) as Hsame
  end.
  unfold neighborhood_tables at 1 in Hsame. rewrite Hsame. reflexivity.
Qed.

Lemma online_total_quick test_decisions test_rewards
    (st st' : State) name (mab mab' : Mab) :
  is_quick = true ->
  online_total is_quick sim_arms arm_to_stats_train test_decisions test_rewards
    st name mab = (st', mab') ->
  neighborhood_tables st' = neighborhood_tables st.
Proof.
  intros Hquick. unfold online_total. cbv zeta. rewrite (quick_guard _ Hquick).
  intros [= <- <-]. apply get_partial_evaluation_tables.
Qed.

Lemma offline_chunks_quick chunk_size test_decisions test_contexts (idxs : list Z)
    (cs : ChunkState) (bandits : list (string * Mab)) :
  is_quick = true ->
  neighborhood_tables (chunk_state
     (foldl (offline_chunk is_quick chunk_size test_decisions test_contexts)
            (cs, bandits) idxs).1)
  = neighborhood_tables (chunk_state cs).
Proof.
  intros Hquick.
  change (neighborhood_tables (chunk_state cs))
    with ((fun acc : ChunkState * list (string * Mab) =>
             neighborhood_tables (chunk_state acc.1)) (cs, bandits)).
  apply (foldl_keeps (fun acc : ChunkState * list (string * Mab) =>
                        neighborhood_tables (chunk_state acc.1))).
  intros [c l] idx. unfold offline_chunk.
  destruct (for_bandits _ _ l) as [c2 l2] eqn:Hloop.
  apply (for_bandits_keeps (fun c : ChunkState => neighborhood_tables (chunk_state c)))
    in Hloop; [exact Hloop|].
  intros s name mab s' mab' Hbody.
  exact (offline_predict_quick _ _ _ _ _ _ _ _ _ Hquick Hbody).
Qed.

Lemma offline_replay_quick chunk_size test_decisions test_rewards test_contexts
    (st st' : State) (bandits bandits' : list (string * Mab)) :
  is_quick = true ->
  _offline_test_bandits is_quick sim_arms arm_to_stats_train chunk_size
    test_decisions test_rewards test_contexts st bandits = Some (st', bandits') ->
  neighborhood_tables st' = neighborhood_tables st.
Proof.
  intros Hquick. unfold _offline_test_bandits, offline_chunks.
  destruct (ceil_div _ chunk_size) as [n|]; [|discriminate].
  cbn [mbind option_bind].
  pose proof (offline_chunks_quick chunk_size test_decisions test_contexts
                (range 0 n) (mkChunkState st None) bandits Hquick) as Hchunks.
  destruct (foldl _ _ (range 0 n)) as [cs1 bandits1].
  cbn [mbind option_bind]. intros [= Hscore].
  apply (for_bandits_keeps neighborhood_tables) in Hscore;
    [|intros s name mab s' mab' Hbody;
      exact (offline_score_quick _ _ _ _ _ _ _ Hquick Hbody)].
  rewrite Hscore. exact Hchunks.
Qed.

Lemma online_chunks_results batch_size chunk_size start stop chunk_start
    batch_decisions batch_contexts (js : list Z)
    (bs : BatchState) (bandits : list (string * Mab)) :
  results (chunk_state (batch_chunk
     (foldl (online_chunk batch_size chunk_size start stop chunk_start
               batch_decisions batch_contexts) (bs, bandits) js).1))
  = results (chunk_state (batch_chunk bs)).
Proof.
  change (results (chunk_state (batch_chunk bs)))
    with ((fun acc : BatchState * list (string * Mab) =>
             results (chunk_state (batch_chunk acc.1))) (bs, bandits)).
  apply (foldl_keeps (fun acc : BatchState * list (string * Mab) =>
                        results (chunk_state (batch_chunk acc.1)))).
  intros [b l] j. unfold online_chunk.
  destruct (for_bandits _ _ l) as [b2 l2] eqn:Hloop.
  apply (for_bandits_keeps
           (fun b : BatchState => results (chunk_state (batch_chunk b)))) in Hloop;
    [exact Hloop|].
  intros s name mab s' mab' Hbody.
  exact (proj1 (proj2 (proj2 (online_predict_calls _ _ _ _ _ _ _ _ _ _ _ _ Hbody)))).
Qed.

Lemma online_batch_quick batch_size chunk_size test_decisions test_rewards
    test_contexts (os os' : OnlineState) (i : Z) :
  is_quick = true ->
  online_batch is_quick sim_arms arm_to_stats_train batch_size chunk_size
    test_decisions test_rewards test_contexts (Some os) i = Some os' ->
  neighborhood_tables (online_state os') = neighborhood_tables (online_state os).
Proof.
  intros Hquick. unfold online_batch. cbn [mbind option_bind].
  destruct (ceil_div batch_size chunk_size) as [n|]; [|discriminate].
  cbn [mbind option_bind]. cbv zeta.
  match goal with |- context [foldl ?f (?b0, ?l0) (range 0 n)] =>
    pose proof (online_chunks_results batch_size chunk_size (online_start os)
                  (Z.min (online_start os + batch_size)
                     (Z.of_nat (length test_decisions) + 1)) 0
                  (slice test_decisions (online_start os)
                     (Z.min (online_start os + batch_size)
                        (Z.of_nat (length test_decisions) + 1)))
                  ((fun c => slice c (online_start os)
                     (Z.min (online_start os + batch_size)
                        (Z.of_nat (length test_decisions) + 1))) <$> test_contexts)
                  (range 0 n) b0 l0) as Hres;
    destruct (foldl f (b0, l0) (range 0 n)) as [bs1 bandits1]
  end.
  cbn in Hres.
  destruct (for_bandits _ bs1 bandits1) as [bs2 bandits2] eqn:Hscore.
  intros [= <-]. cbn [online_state].
  apply (for_bandits_keeps
           (fun b : BatchState => neighborhood_tables (chunk_state (batch_chunk b))))
    in Hscore;
    [|intros s name mab s' mab' Hbody;
      exact (online_score_quick _ _ _ _ _ _ _ _ _ _ Hquick Hbody)].
  rewrite Hscore. unfold neighborhood_tables. rewrite Hres. reflexivity.
Qed.

Lemma online_batches_quick batch_size chunk_size test_decisions test_rewards
    test_contexts (idxs : list Z) :
  is_quick = true ->
  forall (os os' : OnlineState),
    foldl (online_batch is_quick sim_arms arm_to_stats_train batch_size chunk_size
             test_decisions test_rewards test_contexts) (Some os) idxs = Some os' ->
    neighborhood_tables (online_state os') = neighborhood_tables (online_state os).
Proof.
  intros Hquick. induction idxs as [|i idxs IH]; intros os os' Hrun.
  - cbn in Hrun. injection Hrun as <-. reflexivity.
  - cbn [foldl] in Hrun.
    destruct (online_batch is_quick sim_arms arm_to_stats_train batch_size chunk_size
                test_decisions test_rewards test_contexts (Some os) i)
      as [os1|] eqn:Hbatch.
    + rewrite (IH _ _ Hrun). exact (online_batch_quick _ _ _ _ _ _ _ _ Hquick Hbatch).
    + exfalso. clear -Hrun. induction idxs as [|j idxs IHidxs]; [discriminate|].
      apply IHidxs. exact Hrun.
Qed.

Lemma online_replay_quick batch_size chunk_size test_decisions test_rewards
    test_contexts (st st' : State) (bandits bandits' : list (string * Mab)) :
  is_quick = true ->
  _online_test_bandits is_quick sim_arms arm_to_stats_train batch_size chunk_size
    test_decisions test_rewards test_contexts st bandits = Some (st', bandits') ->
  neighborhood_tables st' = neighborhood_tables st.
Proof.
  intros Hquick. unfold _online_test_bandits, _online_test_bandits_chunks.
  destruct (ceil_div _ batch_size) as [n|]; [|discriminate].
  cbn [mbind option_bind].
  destruct (foldl _ _ (range 0 n)) as [os|] eqn:Hbatches; [|discriminate].
  cbn [mbind option_bind]. intros [= Htotal].
  apply online_batches_quick in Hbatches; [|exact Hquick].
  apply (for_bandits_keeps neighborhood_tables) in Htotal;
    [|intros s name mab s' mab' Hbody;
      exact (online_total_quick _ _ _ _ _ _ _ Hquick Hbody)].
  rewrite Htotal, Hbatches. reflexivity.
Qed.

(** *** Training *)

Lemma train_bandits_spec train_decisions train_rewards train_contexts
    (bandits : list (string * Mab)) :
  forall (st st1 : State) bandits1,
    _train_bandits is_quick train_decisions train_rewards train_contexts st bandits
    = (st1, bandits1) ->
    bandits1 = (fun b => (b.1, trained is_quick train_decisions train_rewards
                                 train_contexts b.2)) <$> bandits
    /\ forall name,
         bandit_to_neighborhood_size (results st1) !! name
         = (if decide (name ∈ bandits.*1) then Some []
            else bandit_to_neighborhood_size (results st) !! name)
         /\ bandit_to_arm_to_stats_neighborhoods (results st1) !! name
            = (if decide (name ∈ bandits.*1) then Some []
               else bandit_to_arm_to_stats_neighborhoods (results st) !! name).
Proof.
  unfold _train_bandits.
  induction bandits as [|[n m] rest IH]; intros st st1 bandits1 Hrun.
  - cbn in Hrun. injection Hrun as <- <-. split; [reflexivity|].
    intros name. rewrite decide_False by apply not_elem_of_nil. split; reflexivity.
  - cbn [for_bandits] in Hrun.
    destruct (train_bandit _ _ _ _ st n m) as [st0 m0] eqn:Hstep.
    destruct (for_bandits _ st0 rest) as [st2 rest2] eqn:Hrest.
    injection Hrun as <- <-.
    destruct (IH _ _ _ Hrest) as [-> Htables].
    unfold train_bandit in Hstep. cbv zeta in Hstep. injection Hstep as <- <-.
    split; [reflexivity|].
    intros name. destruct (Htables name) as [Hs Hn]. rewrite Hs, Hn. clear Hs Hn.
    cbn [fmap list_fmap fst emit update results init_tables
         bandit_to_neighborhood_size bandit_to_arm_to_stats_neighborhoods].
    destruct (decide (name ∈ rest.*1)) as [Hin|Hnot];
      destruct (decide (name ∈ n :: rest.*1)) as [Hin'|Hnot'].
    + split; reflexivity.
    + exfalso. apply Hnot'. right. exact Hin.
    + assert (name = n) as -> by (apply elem_of_cons in Hin'; tauto).
      rewrite !lookup_insert_eq. split; reflexivity.
    + assert (n <> name) as Hne by (intros ->; apply Hnot'; left).
      rewrite !lookup_insert_ne by exact Hne. split; reflexivity.
Qed.

(** The wrapper of a radius, k-nearest or approximate-hash implementation is
    the simulator variant of its kind, built with the [is_quick] flag. *)
Lemma simulate_neighbor_implementation (mab : Mab) :
  cls mab = PlainMab ImpRadius \/ cls mab = PlainMab ImpKNearest
  \/ cls mab = PlainMab ImpLSHNearest ->
  cls (simulate is_quick mab) = simulated_class (cls mab)
  /\ is_NeighborsSimulator (cls (simulate is_quick mab)) = true
  /\ policy (simulate is_quick mab)
     = simulator (simulated_class (cls mab)) is_quick (policy mab).
Proof.
  unfold simulate. intros [Hc|[Hc|Hc]]; rewrite Hc; repeat split.
Qed.

(** *** Expectations in the offline replay *)

Lemma offline_predict_expectations start stop chunk_decision chunk_contexts
    (cs cs' : ChunkState) name (mab mab' : Mab) :
  offline_predict is_quick start stop chunk_decision chunk_contexts cs name mab
  = (cs', mab') ->
  cls mab' = cls mab /\ is_contextual mab' = is_contextual mab
  /\ forall n, n <> name \/ is_contextual mab = false ->
       expectations_of (chunk_state cs') !! n = expectations_of (chunk_state cs) !! n.
Proof.
  unfold offline_predict, expectations_of.
  destruct (is_contextual mab) eqn:Hctx.
  - destruct (is_Radius_or_KNearest_Simulator (cls mab)).
    + run_calls. cbn. intros [= <- <-].
      split; [reflexivity|]. split; [exact Hctx|].
      intros n [Hne|Hc]; [|discriminate].
      destruct (is_NeighborsSimulator (cls mab) && negb is_quick); cbn;
        rewrite lookup_insert_ne by congruence; reflexivity.
    + run_calls.
      destruct (is_LSHSimulator (cls mab)); [|destruct (imp_is_Neighbors (cls mab))];
        run_calls; cbn; intros [= <- <-];
        (split; [reflexivity|]); (split; [exact Hctx|]);
        intros n [Hne|Hc]; try discriminate;
        destruct (is_NeighborsSimulator (cls mab) && negb is_quick); cbn;
        rewrite lookup_insert_ne by congruence; reflexivity.
  - run_calls. cbn. intros [= <- <-].
    split; [reflexivity|]. split; [exact Hctx|].
    intros n _.
    destruct (is_NeighborsSimulator (cls mab) && negb is_quick); reflexivity.
Qed.

Lemma context_free_name_cons name n (mab : Mab) rest :
  context_free_name name ((n, mab) :: rest) ->
  (n <> name \/ is_contextual mab = false) /\ context_free_name name rest.
Proof.
  unfold context_free_name. rewrite shape_cons. intros Hfree. split.
  - destruct (decide (n = name)) as [->|Hne]; [right|left; exact Hne].
    apply (Hfree (cls mab)). left.
  - intros c contextual Hin. apply (Hfree c). right. exact Hin.
Qed.

Lemma offline_bandits_shape (bandits : list (string * Mab)) :
  forall (cs cs' : ChunkState) bandits' start stop chunk_decision chunk_contexts,
    for_bandits (offline_predict is_quick start stop chunk_decision chunk_contexts)
      cs bandits = (cs', bandits') ->
    shape bandits' = shape bandits.
Proof.
  induction bandits as [|[n m] rest IH];
    intros cs cs' bandits' start stop chunk_decision chunk_contexts Hrun.
  - cbn in Hrun. injection Hrun as <- <-. reflexivity.
  - cbn [for_bandits] in Hrun.
    destruct (offline_predict _ _ _ _ _ cs n m) as [cs1 m1] eqn:Hstep.
    destruct (for_bandits _ cs1 rest) as [cs2 rest2] eqn:Hrest.
    injection Hrun as <- <-.
    destruct (offline_predict_expectations _ _ _ _ _ _ _ _ _ Hstep) as (Hcls & Hctx & _).
    rewrite !shape_cons, (IH _ _ _ _ _ _ _ Hrest), Hcls, Hctx. reflexivity.
Qed.

Lemma offline_bandits_expectations name (bandits : list (string * Mab)) :
  forall (cs cs' : ChunkState) bandits' start stop chunk_decision chunk_contexts,
    for_bandits (offline_predict is_quick start stop chunk_decision chunk_contexts)
      cs bandits = (cs', bandits') ->
    context_free_name name bandits ->
    expectations_of (chunk_state cs') !! name
    = expectations_of (chunk_state cs) !! name.
Proof.
  induction bandits as [|[n m] rest IH];
    intros cs cs' bandits' start stop chunk_decision chunk_contexts Hrun Hfree.
  - cbn in Hrun. injection Hrun as <- <-. reflexivity.
  - cbn [for_bandits] in Hrun.
    destruct (offline_predict _ _ _ _ _ cs n m) as [cs1 m1] eqn:Hstep.
    destruct (for_bandits _ cs1 rest) as [cs2 rest2] eqn:Hrest.
    injection Hrun as <- <-.
    apply context_free_name_cons in Hfree as [Hhere Hfree].
    destruct (offline_predict_expectations _ _ _ _ _ _ _ _ _ Hstep) as (_ & _ & Hsame).
    rewrite (IH _ _ _ _ _ _ _ Hrest Hfree). apply Hsame.
    destruct Hhere as [Hne|Hc]; [left; congruence|right; exact Hc].
Qed.

Lemma offline_chunks_shape chunk_size test_decisions test_contexts (idxs : list Z) :
  forall (cs cs' : ChunkState) (bandits bandits' : list (string * Mab)),
    foldl (offline_chunk is_quick chunk_size test_decisions test_contexts)
      (cs, bandits) idxs = (cs', bandits') ->
    shape bandits' = shape bandits.
Proof.
  induction idxs as [|idx idxs IH]; intros cs cs' bandits bandits' Hrun.
  - cbn in Hrun. injection Hrun as <- <-. reflexivity.
  - cbn [foldl] in Hrun.
    destruct (offline_chunk is_quick chunk_size test_decisions test_contexts
                (cs, bandits) idx) as [cs1 bandits1] eqn:Hchunk.
    unfold offline_chunk in Hchunk. apply offline_bandits_shape in Hchunk.
    rewrite (IH _ _ _ _ Hrun). exact Hchunk.
Qed.

Lemma offline_chunks_expectations chunk_size test_decisions test_contexts name
    (idxs : list Z) :
  forall (cs cs' : ChunkState) (bandits bandits' : list (string * Mab)),
    foldl (offline_chunk is_quick chunk_size test_decisions test_contexts)
      (cs, bandits) idxs = (cs', bandits') ->
    context_free_name name bandits ->
    expectations_of (chunk_state cs') !! name
    = expectations_of (chunk_state cs) !! name.
Proof.
  induction idxs as [|idx idxs IH]; intros cs cs' bandits bandits' Hrun Hfree.
  - cbn in Hrun. injection Hrun as <- <-. reflexivity.
  - cbn [foldl] in Hrun.
    destruct (offline_chunk is_quick chunk_size test_decisions test_contexts
                (cs, bandits) idx) as [cs1 bandits1] eqn:Hchunk.
    unfold offline_chunk in Hchunk.
    pose proof (offline_bandits_shape _ _ _ _ _ _ _ _ Hchunk) as Hshape.
    apply (offline_bandits_expectations name) in Hchunk; [|exact Hfree].
    cbn in Hchunk. rewrite (IH _ _ _ _ Hrun); [exact Hchunk|].
    unfold context_free_name in *. rewrite Hshape. exact Hfree.
Qed.

(** With distinct names, the name of a context-free bandit is carried by
    context-free bandits only. *)
Lemma distinct_names_context_free name (mab : Mab) (bandits : list (string * Mab)) :
  NoDup bandits.*1 -> (name, cls mab, false) ∈ shape bandits ->
  context_free_name name bandits.
Proof.
  unfold context_free_name.
  induction bandits as [|[n m] rest IH]; intros Hnodup Hin c contextual Hother.
  - apply elem_of_nil in Hin. contradiction.
  - cbn in Hnodup. apply NoDup_cons in Hnodup as [Hfresh Hnodup].
    assert (forall k c0 b0, (k, c0, b0) ∈ shape rest -> k ∈ rest.*1) as Hnames.
    { clear. intros k c0 b0 Hk. unfold shape in Hk.
      apply list_elem_of_fmap in Hk as ([k' m'] & Heq & Hk).
      cbn in Heq. simplify_eq.
      apply list_elem_of_fmap. exists (k', m'). split; [reflexivity|exact Hk]. }
    rewrite shape_cons in Hin, Hother.
    apply elem_of_cons in Hin as [Hin|Hin];
      apply elem_of_cons in Hother as [Hother|Hother]; simplify_eq.
    + congruence.
    + exfalso. apply Hfresh. exact (Hnames _ _ _ Hother).
    + exfalso. apply Hfresh. exact (Hnames _ _ _ Hin).
    + exact (IH Hnodup Hin c contextual Hother).
Qed.

Lemma offline_score_expectations test_decisions test_rewards
    (st st' : State) name (mab mab' : Mab) :
  offline_score is_quick sim_arms arm_to_stats_train test_decisions test_rewards
    st name mab = (st', mab') ->
  mab' = mab
  /\ expectations_of st'
     = (if is_contextual mab then expectations_of st
        else <[name := One (arm_to_expectation (policy mab))]> (expectations_of st)).
Proof.
  unfold offline_score. cbv zeta. intros [= <- <-]. split; [reflexivity|].
  repeat match goal with
  | |- context [record_evaluation _ _ _ ?store ?n ?ck ?s ?d ?r ?p ?si ?nn ?st0] =>
      let res := fresh "res" in
      destruct (record_evaluation_spec is_quick sim_arms arm_to_stats_train
                  store n ck s d r p si nn st0) as [res ->]
  end.
  destruct (is_contextual mab);
    destruct (is_NeighborsSimulator (cls mab) && negb is_quick); reflexivity.
Qed.

Lemma offline_scores_expectations test_decisions test_rewards
    (bandits : list (string * Mab)) :
  forall (st st' : State) bandits',
    for_bandits (offline_score is_quick sim_arms arm_to_stats_train
                   test_decisions test_rewards) st bandits = (st', bandits') ->
    bandits' = bandits
    /\ (forall n, n ∉ bandits.*1 -> expectations_of st' !! n = expectations_of st !! n)
    /\ (NoDup bandits.*1 ->
        forall name mab, (name, mab) ∈ bandits -> is_contextual mab = false ->
          expectations_of st' !! name = Some (One (arm_to_expectation (policy mab)))).
Proof.
  induction bandits as [|[n m] rest IH]; intros st st' bandits' Hrun.
  - cbn in Hrun. injection Hrun as <- <-. split; [reflexivity|]. split; [reflexivity|].
    intros _ name mab Hin. apply elem_of_nil in Hin. contradiction.
  - cbn [for_bandits] in Hrun.
    destruct (offline_score _ _ _ _ _ st n m) as [st1 m1] eqn:Hstep.
    destruct (for_bandits _ st1 rest) as [st2 rest2] eqn:Hrest.
    injection Hrun as <- <-.
    destruct (offline_score_expectations _ _ _ _ _ _ _ Hstep) as [-> Hexp1].
    destruct (IH _ _ _ Hrest) as (-> & Hother & Hfree).
    split; [reflexivity|]. split.
    + intros k Hk. cbn in Hk. apply not_elem_of_cons in Hk as [Hne Hk].
      rewrite (Hother k Hk), Hexp1.
      destruct (is_contextual m); [reflexivity|].
      rewrite lookup_insert_ne by congruence. reflexivity.
    + intros Hnodup name mab Hin Hctx. cbn in Hnodup.
      apply NoDup_cons in Hnodup as [Hfresh Hnodup].
      apply elem_of_cons in Hin as [[= -> ->]|Hin].
      * rewrite (Hother n Hfresh), Hexp1, Hctx. apply lookup_insert_eq.
      * exact (Hfree Hnodup name mab Hin Hctx).
Qed.

(** C10. In the offline replay, with bandits that carry distinct names and
    have their entries in the tables (as after training), the chunk loop leaves the entry of every context-free policy in
    [bandit_to_expectations] as it was, and the final loop puts the single
    arm-to-expectation mapping of the policy, as it is after all chunks, in
    its place. *)
Theorem context_free_expectations_are_one_mapping
    (chunk_size : Z) (test_decisions : list Arm) (test_rewards : list Z)
    (test_contexts : option (list Ctx))
    (st : State) (bandits : list (string * Mab)) :
  chunk_size <> 0 -> NoDup bandits.*1 -> tables_ready bandits st ->
  exists st1 st2 bandits1,
    offline_chunks is_quick chunk_size test_decisions test_contexts st bandits
    = Some (st1, bandits1)
    /\ _offline_test_bandits is_quick sim_arms arm_to_stats_train chunk_size
         test_decisions test_rewards test_contexts st bandits = Some (st2, bandits1)
    /\ shape bandits1 = shape bandits
    /\ forall name mab,
         (name, mab) ∈ bandits1 -> is_contextual mab = false ->
         expectations_of st1 !! name = expectations_of st !! name
         /\ expectations_of st2 !! name
            = Some (One (arm_to_expectation (policy mab))).
Proof.
  intros Hchunk Hnodup _.
  unfold _offline_test_bandits, offline_chunks.
  assert (exists n, ceil_div (Z.of_nat (length test_decisions)) chunk_size = Some n)
    as [n ->].
  { unfold ceil_div. destruct (Z.eqb_spec chunk_size 0); [contradiction|eauto]. }
  cbn [mbind option_bind].
  destruct (foldl _ _ (range 0 n)) as [cs1 bandits1] eqn:Hchunks.
  cbn [mbind option_bind].
  destruct (for_bandits _ (chunk_state cs1) bandits1) as [st2 bandits2] eqn:Hscore.
  destruct (offline_scores_expectations _ _ _ _ _ _ Hscore) as (-> & _ & Hfinal).
  pose proof (offline_chunks_shape _ _ _ _ _ _ _ _ Hchunks) as Hshape.
  assert (NoDup bandits1.*1) as Hnodup1.
  { replace (bandits1.*1) with (bandits.*1); [exact Hnodup|].
    apply (f_equal (fmap (fun x : string * MabClass * bool => x.1.1))) in Hshape.
    unfold shape in Hshape. rewrite <- !list_fmap_compose in Hshape.
    symmetry. exact Hshape. }
  exists (chunk_state cs1), st2, bandits1.
  split; [reflexivity|]. split; [reflexivity|]. split; [exact Hshape|].
  intros name mab Hin Hctx. split.
  - apply (offline_chunks_expectations _ _ _ name _ _ _ _ _ Hchunks).
    apply (distinct_names_context_free name mab); [exact Hnodup|].
    rewrite <- Hshape, <- Hctx. unfold shape.
    apply list_elem_of_fmap. exists (name, mab). split; [reflexivity|exact Hin].
  - exact (Hfinal Hnodup1 name mab Hin Hctx).
Qed.

End WithCollaborators.
(** The offline replay of five rows in chunks of two by a contextual and a
    context-free policy. *)
Lemma five_rows_offline :
  exists st1 st2 bandits1,
    offline_chunks false 2 Examples.five_rows (Some Examples.five_rows)
      (Examples.trained_with Examples.mixed_bandits) Examples.mixed_bandits
    = Some (st1, bandits1)
    /\ _offline_test_bandits false [0; 1] tt 2
         Examples.five_rows Examples.five_rows (Some Examples.five_rows)
         (Examples.trained_with Examples.mixed_bandits) Examples.mixed_bandits
       = Some (st2, bandits1)
    /\ shape bandits1 = shape Examples.mixed_bandits
    /\ forall name mab,
         (name, mab) ∈ bandits1 -> is_contextual mab = false ->
         expectations_of st1 !! name
         = expectations_of (Examples.trained_with Examples.mixed_bandits) !! name
         /\ expectations_of st2 !! name
            = Some (One (arm_to_expectation (policy mab))).
Proof.
  apply (context_free_expectations_are_one_mapping false [0; 1] tt 2).
  - discriminate.
  - apply NoDup_cons. split; [|apply NoDup_singleton].
    intros Hin. apply list_elem_of_singleton in Hin. discriminate.
  - exact (trained_tables_ready false [] [] None Examples.start_state
             Examples.mixed_bandits).
Defined.

(** In that replay the context-free policy has predicted five times when the
    final loop copies its mapping. *)
Lemma five_rows_offline_entries :
  (fun r => (expectations_of r.1 !! "free", expectations_of r.1 !! "contextual"))
    <$> _offline_test_bandits false [0; 1] tt 2
          Examples.five_rows Examples.five_rows (Some Examples.five_rows)
          (Examples.trained_with Examples.mixed_bandits) Examples.mixed_bandits
  = Some (Some (One 5), Some (Many [10; 11; 12; 13; 14])).
Proof. vm_compute. reflexivity. Qed.

End TableFacts.

(** ** A run of the simulator *)
Module RunFacts.
Import Simulation TableFacts.
Section WithCollaborators.

Context {Arm : Type} `{Countable Arm}.
Context {Ctx Dist Expn NStat Cfm EvalRes M F : Type}.
Context {MA : @ModelAdapter Arm Ctx Dist Expn NStat M}.
Context {SC : @Scoring Arm NStat Cfm (gmap Arm (@Stats.ArmStats F)) EvalRes}.
Variable np_mean : list Z -> F.
Variable np_std : list Z -> F.
Variable train_test_split : nat -> Q -> Z -> list nat * list nat.

Local Abbreviation Mab := (@Mab Arm M).
Local Abbreviation State := (@State Arm Ctx Dist Expn NStat Cfm EvalRes).
Local Abbreviation Simulator :=
  (@Simulator Arm _ _ Ctx Dist Expn NStat Cfm EvalRes M F).

(** C9. [_train_bandits] replaces every policy whose implementation is a
    radius, k-nearest or approximate-hash neighbor policy by the simulator
    variant of its kind, built with the [is_quick] flag, and fits the
    replacement; and after a quick run the entries of all bandits in
    [bandit_to_neighborhood_size] and [bandit_to_arm_to_stats_neighborhoods]
    are the empty lists training created. *)
Theorem neighbor_policies_wrapped_quick_tables_empty :
  (forall quick train_decisions train_rewards train_contexts
          (st st1 : State) (bandits bandits1 : list (string * Mab)),
     _train_bandits quick train_decisions train_rewards train_contexts st bandits
     = (st1, bandits1) ->
     bandits1 = (fun b => (b.1, trained quick train_decisions train_rewards
                                  train_contexts b.2)) <$> bandits
     /\ forall mab : Mab,
          cls mab = PlainMab ImpRadius \/ cls mab = PlainMab ImpKNearest
          \/ cls mab = PlainMab ImpLSHNearest ->
          cls (simulate quick mab) = simulated_class (cls mab)
          /\ is_NeighborsSimulator (cls (simulate quick mab)) = true
          /\ policy (simulate quick mab)
             = simulator (simulated_class (cls mab)) quick (policy mab))
  /\ (forall sim sim' : Simulator,
        is_quick (config sim) = true ->
        run np_mean np_std train_test_split sim = Some sim' ->
        forall name, name ∈ (bandits sim).*1 ->
          bandit_to_neighborhood_size (results (state sim')) !! name = Some []
          /\ bandit_to_arm_to_stats_neighborhoods (results (state sim')) !! name
             = Some []).
Proof.
  split.
  - intros quick train_decisions train_rewards train_contexts st st1 bandits bandits1
           Htrain.
    split.
    + exact (proj1 (train_bandits_spec quick _ _ _ _ _ _ _ Htrain)).
    + intros mab. apply simulate_neighbor_implementation.
  - intros sim sim' Hquick Hrun name Hname.
    unfold run in Hrun. cbv zeta in Hrun.
    destruct (Stats.get_arm_stats np_mean np_std (sim_arms sim) (decisions sim)
                (rewards sim)) as [total|];
      cbn [mbind option_bind] in Hrun; [|discriminate].
    match type of Hrun with
    | context [match scaler sim with _ => _ end] =>
        destruct (match scaler sim with
                  | Some scale => _
                  | None => _
                  end) as [[train_contexts test_contexts]|];
          cbn [mbind option_bind] in Hrun; [|discriminate]
    end.
    destruct (Stats.get_arm_stats np_mean np_std (sim_arms sim)
                (Split.train_decisions _) (Split.train_rewards _)) as [train|];
      cbn [mbind option_bind] in Hrun; [|discriminate].
    destruct (Stats.get_arm_stats np_mean np_std (sim_arms sim)
                (Split.test_decisions _) (Split.test_rewards _)) as [test|];
      cbn [mbind option_bind] in Hrun; [|discriminate].
    destruct (_train_bandits _ _ _ _ (state sim) (bandits sim))
      as [st1 bandits1] eqn:Htrain.
    destruct (train_bandits_spec _ _ _ _ _ _ _ _ Htrain) as [_ Htables].
    destruct (Htables name) as [Hsizes Hstats].
    rewrite decide_True in Hsizes by exact Hname.
    rewrite decide_True in Hstats by exact Hname.
    match type of Hrun with
    | context [if _online sim then ?a else ?b] =>
        destruct (if _online sim then a else b) as [[st2 bandits2]|] eqn:Hreplay;
          cbn [mbind option_bind] in Hrun; [|discriminate]
    end.
    injection Hrun as <-. cbn [state].
    assert (neighborhood_tables st2 = neighborhood_tables st1) as Hsame.
    { destruct (_online sim).
      - exact (online_replay_quick _ _ _ _ _ _ _ _ _ _ _ _ Hquick Hreplay).
      - exact (offline_replay_quick _ _ _ _ _ _ _ _ _ _ _ Hquick Hreplay). }
    unfold neighborhood_tables in Hsame. injection Hsame as -> ->.
    split; assumption.
Qed.

End WithCollaborators.
(** A quick offline run over six rows with a radius policy. *)
Lemma quick_run_of_six_rows :
  exists sim sim',
    Examples.six_rows true = inr sim
    /\ Examples.run_example sim = Some sim'
    /\ cls <$> (bandits sim').*2 = [RadiusSimulator; PlainMab ImpOther]
    /\ forall name, name ∈ (bandits sim).*1 ->
         bandit_to_neighborhood_size (results (state sim')) !! name = Some []
         /\ bandit_to_arm_to_stats_neighborhoods (results (state sim')) !! name
            = Some [].
Proof.
  eexists. eexists.
  split; [vm_compute; reflexivity|].
  split; [vm_compute; reflexivity|].
  split; [vm_compute; reflexivity|].
  refine (proj2 (neighbor_policies_wrapped_quick_tables_empty
                   Examples.exact_mean Examples.exact_variance
                   (fun _ _ _ => ([], []))) _ _ _ _).
  - reflexivity.
  - vm_compute. reflexivity.
Defined.

(** The same run without the quick flag does record neighborhood data. *)
Lemma full_run_of_six_rows :
  (fun sim => (bandit_to_neighborhood_size (results (state sim)) !! "radius",
               bandit_to_arm_to_stats_neighborhoods (results (state sim)) !! "radius"))
    <$> Examples.run_six_rows false
  = Some (Some [1], Some [1]).
Proof. vm_compute. reflexivity. Qed.

End RunFacts.

(** ** The chunks of the offline replay *)
Module OfflineChunkFacts.
Import Replay PyFacts.

Lemma range_snoc (k : nat) :
  range 0 (Z.of_nat (S k)) = range 0 (Z.of_nat k) ++ [Z.of_nat k].
Proof.
  unfold range. rewrite !Z.sub_0_r, !Nat2Z.id, seq_S, map_app. reflexivity.
Qed.

Lemma take_then_more {A : Type} (l : list A) (a b : nat) :
  (a <= b)%nat -> take a l ++ take (b - a) (drop a l) = take b l.
Proof.
  intros Hab. rewrite take_drop_commute.
  replace (a + (b - a))%nat with b by lia.
  replace (take a l) with (take a (take b l)).
  - apply take_drop.
  - rewrite take_take. f_equal. lia.
Qed.

(** The number of chunks is the least [n] with [n * chunk_size] rows or
    more. *)
Lemma ceil_div_bounds (len chunk_size : Z) :
  0 < chunk_size ->
  exists n, ceil_div len chunk_size = Some n
            /\ len <= n * chunk_size < len + chunk_size.
Proof.
  intros Hpos. unfold ceil_div.
  destruct (Z.eqb_spec chunk_size 0); [lia|].
  eexists. split; [reflexivity|].
  pose proof (Z.div_mod (- len) chunk_size ltac:(lia)) as Hdiv.
  pose proof (Z.mod_pos_bound (- len) chunk_size Hpos) as Hmod.
  nia.
Qed.

(** The first [k] chunks of the offline loop, put end to end, are the first
    [k * chunk_size] rows. *)
Lemma offline_chunks_prefix {A : Type} (l : list A) (chunk_size : Z) (k : nat) :
  0 < chunk_size ->
  Z.of_nat k * chunk_size < Z.of_nat (length l) + chunk_size ->
  concat ((fun idx => slice l (idx * chunk_size)
                        (Z.min ((idx + 1) * chunk_size) (Z.of_nat (length l))))
            <$> range 0 (Z.of_nat k))
  = take (Z.to_nat (Z.min (Z.of_nat k * chunk_size) (Z.of_nat (length l)))) l.
Proof.
  intros Hpos. induction k as [|k IH]; intros Hk.
  - change (Z.of_nat 0 * chunk_size) with 0.
    rewrite Z.min_l by lia. reflexivity.
  - rewrite range_snoc, fmap_app, concat_app, IH by lia.
    cbn [fmap list_fmap concat]. rewrite app_nil_r.
    rewrite slice_inside by lia.
    rewrite (Z.min_l (Z.of_nat k * chunk_size)) by lia.
    replace (Z.to_nat (Z.min ((Z.of_nat k + 1) * chunk_size) (Z.of_nat (length l))
                       - Z.of_nat k * chunk_size))
      with (Z.to_nat (Z.min (Z.of_nat (S k) * chunk_size) (Z.of_nat (length l)))
            - Z.to_nat (Z.of_nat k * chunk_size))%nat by lia.
    apply take_then_more. lia.
Qed.

(** In the offline replay the chunks tile the test set: every chunk has at
    most [chunk_size] rows, a chunk starts where the one before stops, and
    put end to end the chunks are the test set. *)
Lemma offline_chunks_tile {A : Type} (l : list A) (chunk_size : Z) :
  0 < chunk_size ->
  exists spans,
    offline_spans chunk_size (Z.of_nat (length l)) = Some spans
    /\ Forall (fun span => 0 <= span.2 - span.1 <= chunk_size) spans
    /\ (forall i a b, spans !! i = Some a -> spans !! (S i) = Some b -> a.2 = b.1)
    /\ concat ((fun span => slice l span.1 span.2) <$> spans) = l.
Proof.
  intros Hpos. unfold offline_spans.
  destruct (ceil_div_bounds (Z.of_nat (length l)) chunk_size Hpos) as (n & -> & Hn).
  cbn [mbind option_bind]. eexists. split; [reflexivity|].
  assert (0 <= n) as Hn0 by nia.
  split; [|split].
  - apply Forall_fmap, Forall_forall. intros idx Hidx. cbn.
    unfold range in Hidx. apply list_elem_of_fmap in Hidx as (i & -> & Hi).
    apply elem_of_seq in Hi. nia.
  - intros i a b Ha Hb. unfold range in Ha, Hb.
    rewrite list_lookup_fmap in Ha, Hb. rewrite list_lookup_fmap in Ha, Hb.
    destruct (seq 0 (Z.to_nat (n - 0)) !! i) as [x|] eqn:Hx; [|discriminate].
    destruct (seq 0 (Z.to_nat (n - 0)) !! S i) as [y|] eqn:Hy; [|discriminate].
    apply lookup_seq in Hx as [-> Hx]. apply lookup_seq in Hy as [-> Hy].
    cbn in Ha, Hb. injection Ha as <-. injection Hb as <-. cbn. nia.
  - rewrite <- list_fmap_compose.
    replace n with (Z.of_nat (Z.to_nat n)) by lia.
    etransitivity; [apply (offline_chunks_prefix l chunk_size (Z.to_nat n) Hpos); lia|].
    apply take_ge. lia.
Qed.

(** On the 1000 rows on which the online replay repeats its first chunk, the
    offline replay with the same chunk size predicts every row once, in
    order. *)
Lemma offline_chunking_keeps_predictions :
  (fun r => bandit_to_predictions (results r.1) !! "echo")
    <$> _offline_test_bandits false [0; 1] tt 125
          (Examples.zseq 0 1000) (Examples.zseq 0 1000) (Some (Examples.zseq 0 1000))
          Examples.trained_state Examples.echo_bandits
  = Some (Some (One <$> Examples.zseq 0 1000)).
Proof. vm_compute. reflexivity. Qed.

End OfflineChunkFacts.

(** ** More about [get_arm_stats]: extremes, failures and keys *)
Module StatsEdgeFacts.
Import Stats StatsFacts.
Section WithArms.

Context {Arm : Type} `{Countable Arm}.
Context {F : Type}.
Variable np_mean : list Z -> F.
Variable np_std : list Z -> F.

Lemma foldr_min_spec (r : Z) (rest : list Z) :
  foldr Z.min r rest ∈ r :: rest
  /\ forall x, x ∈ r :: rest -> foldr Z.min r rest <= x.
Proof.
  induction rest as [|y rest [IHin IHle]]; cbn [foldr].
  - split; [left|]. intros x Hx. apply list_elem_of_singleton in Hx. lia.
  - split.
    + destruct (Z.min_spec y (foldr Z.min r rest)) as [[_ ->]|[_ ->]].
      * right. left.
      * apply elem_of_cons in IHin as [Heq|Hin]; [rewrite Heq; left|].
        right. right. exact Hin.
    + intros x Hx. apply elem_of_cons in Hx as [->|Hx].
      * specialize (IHle r ltac:(left)). lia.
      * apply elem_of_cons in Hx as [->|Hx]; [lia|].
        specialize (IHle x ltac:(right; exact Hx)). lia.
Qed.

Lemma foldr_max_spec (r : Z) (rest : list Z) :
  foldr Z.max r rest ∈ r :: rest
  /\ forall x, x ∈ r :: rest -> x <= foldr Z.max r rest.
Proof.
  induction rest as [|y rest [IHin IHle]]; cbn [foldr].
  - split; [left|]. intros x Hx. apply list_elem_of_singleton in Hx. lia.
  - split.
    + destruct (Z.max_spec y (foldr Z.max r rest)) as [[_ ->]|[_ ->]].
      * apply elem_of_cons in IHin as [Heq|Hin]; [rewrite Heq; left|].
        right. right. exact Hin.
      * right. left.
    + intros x Hx. apply elem_of_cons in Hx as [->|Hx].
      * specialize (IHle r ltac:(left)). lia.
      * apply elem_of_cons in Hx as [->|Hx]; [lia|].
        specialize (IHle x ltac:(right; exact Hx)). lia.
Qed.

(** The positions [np.where] returns are the rows that hold the arm. *)
Lemma elem_of_where_from (i0 : nat) (decisions : list Arm) arm (i : nat) :
  i ∈ where_from i0 decisions arm
  <-> (i0 <= i)%nat /\ decisions !! (i - i0)%nat = Some arm.
Proof.
  revert i0. induction decisions as [|d rest IH]; intros i0; cbn [where_from].
  - split; [intros Hin; inversion Hin|intros [_ Hl]; discriminate].
  - assert (i ∈ where_from (S i0) rest arm
            <-> (i0 < i)%nat /\ rest !! (i - S i0)%nat = Some arm) as Hrest.
    { rewrite IH. split; intros [? ?]; (split; [lia|assumption]). }
    destruct (decide (d = arm)) as [->|Hne].
    + rewrite elem_of_cons, Hrest. split.
      * intros [->|[Hlt Hl]].
        -- split; [lia|]. rewrite Nat.sub_diag. reflexivity.
        -- split; [lia|]. replace (i - i0)%nat with (S (i - S i0)) by lia. exact Hl.
      * intros [Hle Hl]. destruct (decide (i = i0)) as [->|Hd]; [left; reflexivity|].
        right. split; [lia|].
        replace (i - i0)%nat with (S (i - S i0)) in Hl by lia. exact Hl.
    + rewrite Hrest. split.
      * intros [Hlt Hl]. split; [lia|].
        replace (i - i0)%nat with (S (i - S i0)) by lia. exact Hl.
      * intros [Hle Hl]. destruct (decide (i = i0)) as [->|Hd].
        -- rewrite Nat.sub_diag in Hl. cbn in Hl. congruence.
        -- split; [lia|].
           replace (i - i0)%nat with (S (i - S i0)) in Hl by lia. exact Hl.
Qed.

Lemma take_indices_none (rewards : list Z) (indices : list nat) :
  take_indices rewards indices = None
  <-> exists i, i ∈ indices /\ (length rewards <= i)%nat.
Proof.
  induction indices as [|i rest IH]; cbn [take_indices].
  - split; [discriminate|]. intros (i & Hin & _). inversion Hin.
  - destruct (rewards !! i) as [r|] eqn:Hr.
    + destruct (take_indices rewards rest) as [rs|].
      * split; [discriminate|]. intros (j & Hin & Hj).
        apply elem_of_cons in Hin as [->|Hin].
        -- apply lookup_ge_None_2 in Hj. congruence.
        -- assert (@None (list Z) = None) as Hn by reflexivity.
           destruct IH as [_ IH]. discriminate IH. exists j. split; assumption.
      * split; [|reflexivity]. intros _.
        destruct IH as [IH _]. destruct (IH eq_refl) as (j & Hin & Hj).
        exists j. split; [right; exact Hin|exact Hj].
    + split; [|reflexivity]. intros _. exists i. split; [left|].
      apply lookup_ge_None_1. exact Hr.
Qed.

Lemma take_indices_length (rewards : list Z) (indices : list nat) rs :
  take_indices rewards indices = Some rs -> length rs = length indices.
Proof.
  revert rs. induction indices as [|i rest IH]; intros rs; cbn [take_indices].
  - intros [= <-]. reflexivity.
  - destruct (rewards !! i); [|discriminate].
    destruct (take_indices rewards rest) as [rs'|]; [|discriminate].
    intros [= <-]. cbn. f_equal. apply IH. reflexivity.
Qed.

(** One arm fails exactly when it is decided at a row that [rewards] does not
    have. *)
Lemma arm_stats_none (decisions : list Arm) (rewards : list Z) arm :
  arm_stats np_mean np_std decisions rewards arm = None
  <-> exists i, decisions !! i = Some arm /\ (length rewards <= i)%nat.
Proof.
  unfold arm_stats, np_where.
  assert ((exists i, i ∈ where_from 0 decisions arm /\ (length rewards <= i)%nat)
          <-> exists i, decisions !! i = Some arm /\ (length rewards <= i)%nat) as Hpos.
  { split; intros (i & Hi & Hlen); exists i; (split; [|exact Hlen]).
    - apply elem_of_where_from in Hi as [_ Hi]. rewrite Nat.sub_0_r in Hi. exact Hi.
    - apply elem_of_where_from. split; [lia|]. rewrite Nat.sub_0_r. exact Hi. }
  rewrite <- Hpos, <- take_indices_none.
  case_bool_decide as Hsome.
  - destruct (take_indices rewards (where_from 0 decisions arm)) as [rs|] eqn:Htake;
      cbn [mbind option_bind]; [|tauto].
    apply take_indices_length in Htake.
    destruct rs as [|r rs]; [cbn in Htake; lia|]. cbn. split; discriminate.
  - split; [discriminate|].
    destruct (where_from 0 decisions arm); [discriminate|cbn in Hsome; lia].
Qed.

Lemma get_arm_stats_foldl_none (arms : list Arm) (decisions : list Arm) (rewards : list Z) :
  foldl (fun acc arm =>
           stats ← acc;
           s ← arm_stats np_mean np_std decisions rewards arm;
           Some (<[arm := s]> stats)) (@None (gmap Arm (ArmStats (F:=F)))) arms = None.
Proof. induction arms as [|a arms IH]; [reflexivity|exact IH]. Qed.

Lemma get_arm_stats_foldl (arms : list Arm) (decisions : list Arm) (rewards : list Z)
    (init : gmap Arm (ArmStats (F:=F))) :
  match foldl (fun acc arm =>
                 stats ← acc;
                 s ← arm_stats np_mean np_std decisions rewards arm;
                 Some (<[arm := s]> stats)) (Some init) arms with
  | None => exists arm, arm ∈ arms /\ arm_stats np_mean np_std decisions rewards arm = None
  | Some stats =>
      (forall arm, arm ∈ arms -> arm_stats np_mean np_std decisions rewards arm <> None)
      /\ forall arm, stats !! arm
                     = if decide (arm ∈ arms)
                       then arm_stats np_mean np_std decisions rewards arm
                       else init !! arm
  end.
Proof.
  revert init. induction arms as [|a arms IH]; intros init; cbn [foldl].
  - split; [intros arm Hin; inversion Hin|]. intros arm.
    rewrite decide_False by apply not_elem_of_nil. reflexivity.
  - destruct (arm_stats np_mean np_std decisions rewards a) as [s|] eqn:Hs;
      cbn [mbind option_bind].
    + specialize (IH (<[a := s]> init)).
      destruct (foldl _ (Some (<[a := s]> init)) arms) as [stats|].
      * destruct IH as [Hok Hlook]. split.
        -- intros arm Hin. apply elem_of_cons in Hin as [->|Hin]; [congruence|].
           exact (Hok arm Hin).
        -- intros arm. rewrite Hlook.
           destruct (decide (arm ∈ arms)) as [Hin|Hnin].
           ++ rewrite decide_True by (right; exact Hin). reflexivity.
           ++ destruct (decide (arm = a)) as [->|Hne].
              ** rewrite decide_True by left. rewrite lookup_insert_eq. congruence.
              ** rewrite decide_False by (intros Hc; apply elem_of_cons in Hc; tauto).
                 rewrite lookup_insert_ne by congruence. reflexivity.
      * destruct IH as (arm & Hin & Hnone). exists arm. split; [right; exact Hin|exact Hnone].
    + rewrite get_arm_stats_foldl_none. exists a. split; [left|exact Hs].
Qed.

(** X1. On arrays of equal length, the record of an arm that occurs has as
    [min] and [max] the least and the greatest of the rewards at the rows of
    that arm (both are among these rewards and bound them), and as [mean] and
    [std] the float reductions of exactly these rewards. *)
Theorem get_arm_stats_extremes
    (arms : list Arm) (decisions : list Arm) (rewards : list Z) :
  length decisions = length rewards ->
  exists stats,
    get_arm_stats np_mean np_std arms decisions rewards = Some stats
    /\ forall arm, arm ∈ arms -> (0 < occurrences decisions arm)%nat ->
         exists s, stats !! arm = Some s
           /\ min s ∈ rewards_of decisions rewards arm
           /\ max s ∈ rewards_of decisions rewards arm
           /\ (forall r, r ∈ rewards_of decisions rewards arm -> min s <= r <= max s)
           /\ mean s = NFloat (np_mean (rewards_of decisions rewards arm))
           /\ std s = NFloat (np_std (rewards_of decisions rewards arm)).
Proof.
  intros Hlen. unfold get_arm_stats.
  destruct (get_arm_stats_fold np_mean np_std arms decisions rewards ∅ Hlen)
    as (stats & Hfold & Hlook).
  exists stats. split; [exact Hfold|].
  intros arm Hin Hocc. rewrite Hlook, decide_True by exact Hin.
  unfold arm_stats, np_where. rewrite length_where_from.
  rewrite bool_decide_eq_true_2 by exact Hocc.
  pose proof (take_indices_where [] decisions rewards arm Hlen) as Htake.
  cbn in Htake. rewrite Htake. cbn [mbind option_bind].
  pose proof (length_rewards_of decisions rewards arm Hlen) as Hcount.
  destruct (rewards_of decisions rewards arm) as [|r rs] eqn:Hsel;
    [cbn in Hcount; lia|].
  cbn [get_stats]. eexists. split; [reflexivity|]. cbn [min max mean std].
  destruct (foldr_min_spec r rs) as [Hmin_in Hmin_le].
  destruct (foldr_max_spec r rs) as [Hmax_in Hmax_le].
  split; [exact Hmin_in|]. split; [exact Hmax_in|].
  split; [|split; reflexivity].
  intros x Hx. split; [apply Hmin_le|apply Hmax_le]; exact Hx.
Qed.

(** X2. [get_arm_stats] raises (the [IndexError] of [rewards[indices]])
    exactly when some arm of the simulator is decided at a row that [rewards]
    does not have. *)
Theorem get_arm_stats_raises_iff
    (arms : list Arm) (decisions : list Arm) (rewards : list Z) :
  get_arm_stats np_mean np_std arms decisions rewards = None
  <-> exists arm i, arm ∈ arms /\ decisions !! i = Some arm
                    /\ (length rewards <= i)%nat.
Proof.
  unfold get_arm_stats.
  pose proof (get_arm_stats_foldl arms decisions rewards ∅) as Hfold.
  destruct (foldl _ (Some ∅) arms) as [stats|].
  - destruct Hfold as [Hok _]. split; [discriminate|].
    intros (arm & i & Hin & Hi & Hlen). exfalso. apply (Hok arm Hin).
    apply arm_stats_none. exists i. split; assumption.
  - destruct Hfold as (arm & Hin & Hnone). split; [|reflexivity]. intros _.
    apply arm_stats_none in Hnone as (i & Hi & Hlen).
    exists arm, i. repeat split; assumption.
Qed.

(** X3. The table [get_arm_stats] returns has an entry for the arms of the
    simulator and for nothing else: a decision that names another arm creates
    no entry, and an arm listed twice has one entry. *)
Theorem get_arm_stats_keys
    (arms : list Arm) (decisions : list Arm) (rewards : list Z)
    (stats : gmap Arm (ArmStats (F:=F))) :
  get_arm_stats np_mean np_std arms decisions rewards = Some stats ->
  forall arm, is_Some (stats !! arm) <-> arm ∈ arms.
Proof.
  unfold get_arm_stats. intros Hrun.
  pose proof (get_arm_stats_foldl arms decisions rewards ∅) as Hfold.
  rewrite Hrun in Hfold. destruct Hfold as [Hok Hlook].
  intros arm. rewrite Hlook.
  destruct (decide (arm ∈ arms)) as [Hin|Hnin].
  - split; [intros _; exact Hin|]. intros _.
    destruct (arm_stats np_mean np_std decisions rewards arm) eqn:Hs; [eauto|].
    exfalso. exact (Hok arm Hin Hs).
  - rewrite lookup_empty. split; [intros [x Hx]; discriminate|contradiction].
Qed.

End WithArms.

(** The documented log: [Arm1] has the rewards 20, 17 and 9. *)
Lemma get_arm_stats_extremes_documented_log :
  exists stats,
    get_arm_stats Examples.exact_mean Examples.exact_variance
      Examples.doc_arms Examples.doc_decisions Examples.doc_rewards = Some stats
    /\ forall arm, arm ∈ Examples.doc_arms ->
         (0 < occurrences Examples.doc_decisions arm)%nat ->
         exists s, stats !! arm = Some s
           /\ min s ∈ rewards_of Examples.doc_decisions Examples.doc_rewards arm
           /\ max s ∈ rewards_of Examples.doc_decisions Examples.doc_rewards arm
           /\ (forall r, r ∈ rewards_of Examples.doc_decisions Examples.doc_rewards arm ->
                         min s <= r <= max s)
           /\ mean s = NFloat (Examples.exact_mean
                                 (rewards_of Examples.doc_decisions Examples.doc_rewards arm))
           /\ std s = NFloat (Examples.exact_variance
                                (rewards_of Examples.doc_decisions Examples.doc_rewards arm)).
Proof.
  apply (get_arm_stats_extremes Examples.exact_mean Examples.exact_variance
           Examples.doc_arms Examples.doc_decisions Examples.doc_rewards).
  reflexivity.
Defined.

(** The documented log has the decisions of two arms, and its table has the
    third arm of the simulator as well. *)
Lemma get_arm_stats_keys_documented_log :
  exists stats,
    get_arm_stats Examples.exact_mean Examples.exact_variance
      Examples.doc_arms Examples.doc_decisions Examples.doc_rewards = Some stats
    /\ (is_Some (stats !! "Arm3") <-> "Arm3" ∈ Examples.doc_arms)
    /\ (is_Some (stats !! "Arm4") <-> "Arm4" ∈ Examples.doc_arms).
Proof.
  destruct (get_arm_stats Examples.exact_mean Examples.exact_variance
              Examples.doc_arms Examples.doc_decisions Examples.doc_rewards)
    as [stats|] eqn:Hrun; [|vm_compute in Hrun; discriminate].
  exists stats. split; [reflexivity|].
  split; exact (get_arm_stats_keys Examples.exact_mean Examples.exact_variance
                  Examples.doc_arms Examples.doc_decisions Examples.doc_rewards
                  stats Hrun _).
Defined.

End StatsEdgeFacts.

(** ** More about the split: what it keeps, and the chunk size *)
Module SplitEdgeFacts.
Import Py PyFacts Split SplitFacts.
Section WithData.

Context {Arm Ctx : Type}.
Variable train_test_split : nat -> Q -> Z -> list nat * list nat.

Lemma clamp_index_range (n i : Z) : 0 <= n -> 0 <= clamp_index n i <= n.
Proof. intros Hn. unfold clamp_index. destruct (Z.ltb_spec i 0); lia. Qed.

(** [l[:k] + l[k:] == l] for every integer [k]. *)
Lemma slice_to_from {A : Type} (l : list A) (k : Z) :
  slice_to l k ++ slice_from l k = l.
Proof.
  unfold slice_to, slice_from, slice.
  set (n := Z.of_nat (length l)).
  pose proof (clamp_index_range n k ltac:(lia)) as Hk.
  assert (clamp_index n 0 = 0) as -> by (unfold clamp_index; cbn; lia).
  assert (clamp_index n n = n) as ->
    by (unfold clamp_index; destruct (Z.ltb_spec n 0); lia).
  change (Z.to_nat 0) with 0%nat. rewrite drop_0, Z.sub_0_r.
  rewrite (take_ge (drop _ l)) by (rewrite length_drop; lia).
  apply take_drop.
Qed.

Lemma length_slice_to {A B : Type} (l : list A) (l' : list B) (k : Z) :
  length l = length l' -> length (slice_to l k) = length (slice_to l' k).
Proof.
  intros Hlen. unfold slice_to, slice. rewrite !length_take, !length_drop, Hlen.
  reflexivity.
Qed.

(** X4. The ordered split loses and repeats no row, whatever the test
    fraction is (also outside of [0, 1]): the train part followed by the test
    part is the log again, for the decisions, the rewards and the contexts;
    and the parts of arrays of equal length have equal lengths. *)
Theorem ordered_split_partitions
    (f : Q) (seed max_n_jobs : Z)
    (decisions : list Arm) (rewards : list Z) (contexts : option (list Ctx)) :
  let r := _run_train_test_split train_test_split true f seed max_n_jobs
             decisions rewards contexts in
  train_decisions r ++ test_decisions r = decisions
  /\ train_rewards r ++ test_rewards r = rewards
  /\ (match contexts, train_contexts r, test_contexts r with
      | Some c, Some train, Some test => train ++ test = c
      | None, None, None => True
      | _, _, _ => False
      end)
  /\ (length decisions = length rewards ->
      length (train_decisions r) = length (train_rewards r)
      /\ length (test_decisions r) = length (test_rewards r)).
Proof.
  intros r. subst r. unfold _run_train_test_split.
  cbn -[train_size select_chunk_size slice_to slice_from].
  split; [apply slice_to_from|]. split; [apply slice_to_from|]. split.
  - destruct contexts as [c|]; cbn; [apply slice_to_from|exact I].
  - intros Hlen.
    pose proof (length_slice_to decisions rewards
                  (train_size (Z.of_nat (length decisions)) f) Hlen) as Htrain.
    split; [exact Htrain|].
    pose proof (f_equal length (slice_to_from decisions
                  (train_size (Z.of_nat (length decisions)) f))) as Hd.
    pose proof (f_equal length (slice_to_from rewards
                  (train_size (Z.of_nat (length decisions)) f))) as Hr.
    rewrite length_app in Hd, Hr. lia.
Qed.

(** *** The chunk size *)

Lemma int_nonneg (x : Q) : (0 <= x)%Q -> 0 <= int x.
Proof.
  intros Hx. rewrite int_floor by exact Hx.
  change 0 with (Qfloor (inject_Z 0)). apply Qfloor_resp_le. exact Hx.
Qed.




End WithData.


End SplitEdgeFacts.

(** ** What the constructor guarantees *)
Module ConstructorFacts.
Import Simulation ValidateFacts.
Section WithCollaborators.

Context {Arm : Type} `{Countable Arm}.
Context {Ctx Dist Expn NStat Cfm EvalRes M F : Type}.
Context {MA : @ModelAdapter Arm Ctx Dist Expn NStat M}.
Context {SC : @Scoring Arm NStat Cfm (gmap Arm (@Stats.ArmStats F)) EvalRes}.
Variable effective_jobs : Z -> Z -> Z.

Local Abbreviation Mab := (@Mab Arm M).
Local Abbreviation pybandits := (@pybandits Arm M).
Local Abbreviation pycontexts := (@pycontexts Ctx).
Local Abbreviation Simulator :=
  (@Simulator Arm _ _ Ctx Dist Expn NStat Cfm EvalRes M F).





(** X7. An empty bandit list passes every check of the validation, and the
    constructor then raises [IndexError] at [self.bandits[0]]: with an empty
    list no simulator is ever constructed, and the [IndexError] is raised
    exactly when the other arguments are valid. *)
Theorem empty_bandit_list_raises
    (decisions : pyarray Arm) (rewards : pyarray Z)
    (config : Config) (scaler : option (@Scaler Ctx)) (contexts : option pycontexts) :
  (forall sim : Simulator,
     __init__ effective_jobs (BanditList [] : pybandits)
       decisions rewards config scaler contexts
     <> inr sim)
  /\ (__init__ (Dist:=Dist) (Expn:=Expn) (NStat:=NStat) (Cfm:=Cfm) (EvalRes:=EvalRes)
        (F:=F) effective_jobs (BanditList [] : pybandits)
        decisions rewards config scaler contexts
      = inl (IndexError "list index out of range")
      <-> _validate_args (BanditList [] : pybandits) decisions rewards contexts
            (test_size config) (batch_size config) = inr tt).
Proof.
  unfold __init__.
  destruct (_validate_args (BanditList [] : pybandits) decisions rewards contexts
              (test_size config) (batch_size config)) as [e|[]] eqn:Hval.
  - split; [discriminate|]. split; [|discriminate]. intros [= ->].
    unfold _validate_args in Hval. cbn [first_error check_bandits] in Hval.
    destruct decisions, rewards; cbn in Hval; try discriminate;
      destruct contexts as [[rows|]|]; cbn in Hval; try discriminate;
      unfold check_len, check_true in Hval; repeat case_bool_decide;
      cbn in Hval; try discriminate;
      destruct (0 <? batch_size config); try discriminate;
      destruct (batch_size config <=? _); discriminate.
  - cbn. split; [discriminate|]. split; reflexivity.
Qed.



End WithCollaborators.



End ConstructorFacts.

(** ** More about [run]: the three statistics tables, the bandits, an empty
    test set *)
Module RunEdgeFacts.
Import Simulation CallFacts OrderFacts TableFacts StatsFacts SplitEdgeFacts.
Section WithCollaborators.

Context {Arm : Type} `{Countable Arm}.
Context {Ctx Dist Expn NStat Cfm EvalRes M F : Type}.
Context {MA : @ModelAdapter Arm Ctx Dist Expn NStat M}.
Context {SC : @Scoring Arm NStat Cfm (gmap Arm (@Stats.ArmStats F)) EvalRes}.
Variable np_mean : list Z -> F.
Variable np_std : list Z -> F.
Variable train_test_split : nat -> Q -> Z -> list nat * list nat.

Local Abbreviation Mab := (@Mab Arm M).
Local Abbreviation State := (@State Arm Ctx Dist Expn NStat Cfm EvalRes).
Local Abbreviation OnlineState := (@OnlineState Arm Ctx Dist Expn NStat Cfm EvalRes M).
Local Abbreviation Simulator :=
  (@Simulator Arm _ _ Ctx Dist Expn NStat Cfm EvalRes M F).
Local Abbreviation split_of sim :=
  (Split._run_train_test_split train_test_split (is_ordered (config sim))
     (test_size (config sim)) (seed (config sim)) (max_n_jobs sim)
     (decisions sim) (rewards sim) (contexts sim)).

(** The steps of a run that returns. *)
Lemma run_inversion (sim sim' : Simulator) :
  run np_mean np_std train_test_split sim = Some sim' ->
  exists total train test train_contexts test_contexts st1 bandits1 st2 bandits2,
    Stats.get_arm_stats np_mean np_std (sim_arms sim) (decisions sim) (rewards sim)
    = Some total
    /\ Stats.get_arm_stats np_mean np_std (sim_arms sim)
         (Split.train_decisions (split_of sim)) (Split.train_rewards (split_of sim))
       = Some train
    /\ Stats.get_arm_stats np_mean np_std (sim_arms sim)
         (Split.test_decisions (split_of sim)) (Split.test_rewards (split_of sim))
       = Some test
    /\ _train_bandits (is_quick (config sim)) (Split.train_decisions (split_of sim))
         (Split.train_rewards (split_of sim)) train_contexts (state sim) (bandits sim)
       = (st1, bandits1)
    /\ (if _online sim
        then _online_test_bandits (is_quick (config sim)) (sim_arms sim) train
               (batch_size (config sim)) (Split.chunk_size (split_of sim))
               (Split.test_decisions (split_of sim)) (Split.test_rewards (split_of sim))
               test_contexts st1 bandits1
        else _offline_test_bandits (is_quick (config sim)) (sim_arms sim) train
               (Split.chunk_size (split_of sim))
               (Split.test_decisions (split_of sim)) (Split.test_rewards (split_of sim))
               test_contexts st1 bandits1) = Some (st2, bandits2)
    /\ arm_to_stats_total sim' = total
    /\ arm_to_stats_train sim' = train
    /\ arm_to_stats_test sim' = test
    /\ bandits sim' = bandits2
    /\ state sim' = st2.
Proof.
  intros Hrun. unfold run in Hrun. cbv zeta in Hrun.
  destruct (Stats.get_arm_stats np_mean np_std (sim_arms sim) (decisions sim)
              (rewards sim)) as [total|];
    cbn [mbind option_bind] in Hrun; [|discriminate].
  match type of Hrun with
  | context [match scaler sim with _ => _ end] =>
      destruct (match scaler sim with
                | Some scale => _
                | None => _
                end) as [[train_contexts test_contexts]|];
        cbn [mbind option_bind] in Hrun; [|discriminate]
  end.
  destruct (Stats.get_arm_stats np_mean np_std (sim_arms sim)
              (Split.train_decisions _) (Split.train_rewards _)) as [train|];
    cbn [mbind option_bind] in Hrun; [|discriminate].
  destruct (Stats.get_arm_stats np_mean np_std (sim_arms sim)
              (Split.test_decisions _) (Split.test_rewards _)) as [test|];
    cbn [mbind option_bind] in Hrun; [|discriminate].
  destruct (_train_bandits _ _ _ _ (state sim) (bandits sim))
    as [st1 bandits1] eqn:Htrain.
  match type of Hrun with
  | context [if _online sim then ?a else ?b] =>
      destruct (if _online sim then a else b) as [[st2 bandits2]|] eqn:Hreplay;
        cbn [mbind option_bind] in Hrun; [|discriminate]
  end.
  injection Hrun as <-.
  exists total, train, test, train_contexts, test_contexts, st1, bandits1, st2, bandits2.
  cbn [arm_to_stats_total arm_to_stats_train arm_to_stats_test bandits state].
  repeat split; try reflexivity; assumption.
Qed.

(** *** The statistics of the parts add up *)






(** *** The bandits of a run *)

Lemma for_bandits_shape {S : Type} (body : S -> string -> Mab -> S * Mab) :
  (forall s name mab s' mab',
     body s name mab = (s', mab') ->
     cls mab' = cls mab /\ is_contextual mab' = is_contextual mab) ->
  forall (bandits : list (string * Mab)) s s' bandits',
    for_bandits body s bandits = (s', bandits') -> shape bandits' = shape bandits.
Proof.
  intros Hstep bandits.
  induction bandits as [|[name mab] rest IH]; intros s s' bandits' Hrun.
  - cbn in Hrun. injection Hrun as <- <-. reflexivity.
  - cbn [for_bandits] in Hrun.
    destruct (body s name mab) as [s1 mab1] eqn:Hbody.
    destruct (for_bandits body s1 rest) as [s2 rest2] eqn:Hrest.
    injection Hrun as <- <-.
    destruct (Hstep _ _ _ _ _ Hbody) as [Hcls Hctx].
    rewrite !shape_cons, (IH _ _ _ Hrest), Hcls, Hctx. reflexivity.
Qed.

Lemma online_total_shape q arms stats (test_decisions : list Arm) test_rewards
    (s : State) name (mab : Mab) (s' : State) (mab' : Mab) :
  online_total q arms stats test_decisions test_rewards s name mab = (s', mab') ->
  cls mab' = cls mab /\ is_contextual mab' = is_contextual mab.
Proof.
  unfold online_total. cbv zeta. intros Heq.
  apply (f_equal snd) in Heq. cbn in Heq. subst mab'. split; reflexivity.
Qed.

Lemma offline_score_shape q arms stats (test_decisions : list Arm) test_rewards
    (s : State) name (mab : Mab) (s' : State) (mab' : Mab) :
  offline_score q arms stats test_decisions test_rewards s name mab = (s', mab') ->
  cls mab' = cls mab /\ is_contextual mab' = is_contextual mab.
Proof.
  unfold offline_score. cbv zeta. intros Heq.
  apply (f_equal snd) in Heq. cbn in Heq. subst mab'. split; reflexivity.
Qed.

Lemma online_batch_none q arms stats batch_size chunk_size
    (test_decisions : list Arm) test_rewards (test_contexts : option (list Ctx))
    (l : list Z) :
  foldl (online_batch q arms stats batch_size chunk_size
           test_decisions test_rewards test_contexts) None l = None.
Proof. induction l as [|i l IH]; [reflexivity|exact IH]. Qed.

Lemma online_replay_shape q arms stats batch_size chunk_size
    (test_decisions : list Arm) test_rewards (test_contexts : option (list Ctx))
    (st st' : State) (bandits bandits' : list (string * Mab)) :
  _online_test_bandits q arms stats batch_size chunk_size
    test_decisions test_rewards test_contexts st bandits = Some (st', bandits') ->
  shape bandits' = shape bandits.
Proof.
  unfold _online_test_bandits, _online_test_bandits_chunks.
  destruct (ceil_div (Z.of_nat (length test_decisions)) batch_size) as [b|];
    cbn [mbind option_bind]; [|discriminate].
  destruct (foldl _ _ (range 0 b)) as [os|] eqn:Hfold;
    cbn [mbind option_bind]; [|discriminate].
  intros [= Htotal].
  destruct (for_bandits _ (online_state os) (online_bandits os))
    as [st2 bandits2] eqn:Hloop.
  injection Htotal as <- <-.
  transitivity (shape (online_bandits os)).
  - apply (for_bandits_shape _ (online_total_shape q arms stats test_decisions test_rewards)
             _ _ _ _ Hloop).
  - destruct (ceil_div batch_size chunk_size) as [n|] eqn:Hn.
    + pose proof (online_batches_spec q arms stats batch_size chunk_size
                    test_decisions test_rewards test_contexts n Hn
                    (Z.to_nat (b - 0)) 0 (mkOnlineState st bandits 0) eq_refl)
        as (os' & Hfold' & Hshape & _).
      rewrite <- (range_length_form 0 b) in Hfold'.
      rewrite Hfold in Hfold'. injection Hfold' as <-. exact Hshape.
    + destruct (range 0 b) as [|i l]; cbn [foldl] in Hfold.
      * injection Hfold as <-. reflexivity.
      * unfold online_batch at 2 in Hfold. cbn [mbind option_bind] in Hfold.
        rewrite Hn in Hfold. cbn [mbind option_bind] in Hfold.
        rewrite online_batch_none in Hfold. discriminate.
Qed.

Lemma offline_replay_shape q arms stats chunk_size
    (test_decisions : list Arm) test_rewards (test_contexts : option (list Ctx))
    (st st' : State) (bandits bandits' : list (string * Mab)) :
  _offline_test_bandits q arms stats chunk_size
    test_decisions test_rewards test_contexts st bandits = Some (st', bandits') ->
  shape bandits' = shape bandits.
Proof.
  unfold _offline_test_bandits, offline_chunks.
  destruct (ceil_div (Z.of_nat (length test_decisions)) chunk_size) as [n|];
    cbn [mbind option_bind]; [|discriminate].
  destruct (foldl _ _ (range 0 n)) as [cs1 bandits1] eqn:Hchunks.
  cbn [mbind option_bind]. intros [= Hscore].
  destruct (for_bandits _ (chunk_state cs1) bandits1) as [st2 bandits2] eqn:Hloop.
  injection Hscore as <- <-.
  transitivity (shape bandits1).
  - apply (for_bandits_shape _ (offline_score_shape q arms stats test_decisions test_rewards)
             _ _ _ _ Hloop).
  - exact (offline_chunks_shape _ _ _ _ _ _ _ _ _ Hchunks).
Qed.

(** X10. A run keeps the bandits in their order and under their names; what
    it changes is decided by training alone: a bandit ends with the class and
    the [is_contextual] flag of the object [_train_bandits] puts in its
    place, whatever the replay does. *)
Theorem run_keeps_bandits (sim sim' : Simulator) :
  run np_mean np_std train_test_split sim = Some sim' ->
  (bandits sim').*1 = (bandits sim).*1
  /\ shape (bandits sim')
     = (fun b => (b.1, cls (simulate (is_quick (config sim)) b.2),
                  is_contextual (simulate (is_quick (config sim)) b.2)))
         <$> bandits sim.
Proof.
  intros Hrun.
  apply run_inversion in Hrun
    as (total & train & test & train_contexts & test_contexts & st1 & bandits1
        & st2 & bandits2 & _ & _ & _ & Htrain & Hreplay & _ & _ & _ & -> & _).
  apply train_bandits_spec in Htrain as [-> _].
  assert (shape bandits2
          = shape ((fun b : string * Mab =>
                      (b.1, trained (is_quick (config sim))
                              (Split.train_decisions (split_of sim))
                              (Split.train_rewards (split_of sim))
                              train_contexts b.2)) <$> bandits sim)) as Hshape.
  { destruct (_online sim).
    - exact (online_replay_shape _ _ _ _ _ _ _ _ _ _ _ _ Hreplay).
    - exact (offline_replay_shape _ _ _ _ _ _ _ _ _ _ _ Hreplay). }
  assert (shape ((fun b : string * Mab =>
                    (b.1, trained (is_quick (config sim))
                            (Split.train_decisions (split_of sim))
                            (Split.train_rewards (split_of sim))
                            train_contexts b.2)) <$> bandits sim)
          = (fun b => (b.1, cls (simulate (is_quick (config sim)) b.2),
                       is_contextual (simulate (is_quick (config sim)) b.2)))
              <$> bandits sim) as Htrained.
  { unfold shape. rewrite <- list_fmap_compose. apply list_fmap_ext.
    intros i [name mab] _. reflexivity. }
  rewrite Hshape, Htrained. split; [|reflexivity].
  apply (f_equal (fmap (fun x : string * MabClass * bool => x.1.1))) in Hshape.
  unfold shape in Hshape. rewrite <- !list_fmap_compose in Hshape.
  etransitivity; [exact Hshape|]. apply list_fmap_ext. intros i [name mab] _. reflexivity.
Qed.

(** *** An empty test set *)

(** X11. When the split leaves no row for the test set, the chunk size is 0
    and the offline replay raises (the [ZeroDivisionError] of
    [len(test_decisions) / self._chunk_size]) before any policy is asked to
    predict: an offline run then ends in that exception. *)
Theorem offline_run_raises_on_empty_test_set (sim : Simulator) :
  _online sim = false ->
  Split.test_decisions (split_of sim) = [] ->
  Split.chunk_size (split_of sim) = 0
  /\ (forall quick arms stats test_rewards test_contexts (st : State)
             (bandits : list (string * Mab)),
        _offline_test_bandits quick arms stats (Split.chunk_size (split_of sim))
          (Split.test_decisions (split_of sim)) test_rewards test_contexts st bandits
        = None)
  /\ run np_mean np_std train_test_split sim = None.
Proof.
  intros Hoffline Hempty.
  assert (Split.chunk_size (split_of sim) = 0) as Hchunk.
  { pose proof Hempty as Hempty'. revert Hempty'.
    unfold Split._run_train_test_split.
    destruct (is_ordered (config sim)); [|destruct (train_test_split _ _ _)];
      cbn -[Split.select_chunk_size]; intros ->; reflexivity. }
  split; [exact Hchunk|].
  assert (forall quick arms stats test_rewards test_contexts (st : State)
                 (bandits : list (string * Mab)),
            _offline_test_bandits quick arms stats (Split.chunk_size (split_of sim))
              (Split.test_decisions (split_of sim)) test_rewards test_contexts st bandits
            = None) as Hraise.
  { intros. rewrite Hchunk, Hempty. reflexivity. }
  split; [exact Hraise|].
  destruct (run np_mean np_std train_test_split sim) as [sim'|] eqn:Hrun; [|reflexivity].
  apply run_inversion in Hrun
    as (total & train & test & train_contexts & test_contexts & st1 & bandits1
        & st2 & bandits2 & _ & _ & _ & _ & Hreplay & _).
  rewrite Hoffline, Hraise in Hreplay. discriminate.
Qed.

End WithCollaborators.


Lemma six_rows_keep_bandits :
  exists sim sim',
    Examples.six_rows false = inr sim
    /\ Examples.run_example sim = Some sim'
    /\ (bandits sim').*1 = (bandits sim).*1
    /\ shape (bandits sim')
       = [("radius", RadiusSimulator, true); ("free", PlainMab ImpOther, false)].
Proof.
  eexists. eexists.
  split; [vm_compute; reflexivity|].
  split; [vm_compute; reflexivity|].
  refine (run_keeps_bandits Examples.exact_mean Examples.exact_variance
            (fun _ _ _ => ([], [])) _ _ _).
  vm_compute. reflexivity.
Defined.

(** Six rows and a test fraction of 0. *)
Lemma no_test_rows_raise :
  exists sim,
    Cases.no_test_rows = inr sim
    /\ Examples.run_example sim = None.
Proof.
  eexists. split; [vm_compute; reflexivity|].
  refine (proj2 (proj2 (offline_run_raises_on_empty_test_set
                          Examples.exact_mean Examples.exact_variance
                          (fun _ _ _ => ([], [])) _ _ _))).
  - reflexivity.
  - vm_compute. reflexivity.
Defined.

End RunEdgeFacts.

(** ** What training does: the [fit] calls and the tables *)
Module TrainFacts.
Import Calls CallFacts.
Section WithCollaborators.

Context {Arm Ctx Dist Expn NStat Cfm TStats EvalRes M : Type}.
Context {MA : @ModelAdapter Arm Ctx Dist Expn NStat M}.
Variable is_quick : bool.

Local Abbreviation Mab := (@Mab Arm M).
Local Abbreviation event := (@event Arm Ctx Dist Expn Cfm EvalRes).
Local Abbreviation State := (@State Arm Ctx Dist Expn NStat Cfm EvalRes).

(** X12. [_train_bandits] adds to the trace one [fit] call per bandit and
    nothing else, in the order of the bandit list, each with the train
    decisions and rewards; the call carries the train contexts exactly when
    the object that is fitted (the simulator variant, where training puts
    one in place) is contextual. *)
Theorem train_fits_every_bandit_once
    (train_decisions : list Arm) (train_rewards : list Z)
    (train_contexts : option (list Ctx))
    (st : State) (bandits : list (string * Mab)) :
  trace (_train_bandits is_quick train_decisions train_rewards train_contexts
           st bandits).1
  = trace st
    ++ ((fun b : string * Mab =>
           EvFit b.1 train_decisions train_rewards
             (if is_contextual (simulate is_quick b.2) then train_contexts else None))
          <$> bandits).
Proof.
  unfold _train_bandits. revert st.
  induction bandits as [|[name mab] rest IH]; intros st.
  - cbn. rewrite app_nil_r. reflexivity.
  - cbn [for_bandits].
    destruct (train_bandit _ _ _ _ st name mab) as [st0 mab0] eqn:Hstep.
    specialize (IH st0).
    destruct (for_bandits _ st0 rest) as [st2 rest2].
    cbn [fst] in *. rewrite IH.
    unfold train_bandit in Hstep. cbv zeta in Hstep. injection Hstep as <- _.
    cbn [emit update trace fmap list_fmap fst snd]. rewrite <- app_assoc. reflexivity.
Qed.

Lemma entries_init_tables name n (r : @Results Arm Expn NStat Cfm EvalRes) :
  entries name (init_tables n r)
  = if decide (name = n) then fresh_entries else entries name r.
Proof.
  unfold entries, init_tables, fresh_entries.
  cbn [bandit_to_predictions bandit_to_expectations bandit_to_neighborhood_size
       bandit_to_arm_to_stats_neighborhoods bandit_to_confusion_matrices
       bandit_to_arm_to_stats_min bandit_to_arm_to_stats_avg
       bandit_to_arm_to_stats_max].
  destruct (decide (name = n)) as [->|Hne].
  - rewrite !lookup_insert_eq. reflexivity.
  - rewrite !lookup_insert_ne by congruence. reflexivity.
Qed.

Lemma entries_after_training
    (train_decisions : list Arm) (train_rewards : list Z)
    (train_contexts : option (list Ctx))
    (st : State) (bandits : list (string * Mab)) (name : string) :
  entries name
    (results (_train_bandits is_quick train_decisions train_rewards train_contexts
                st bandits).1)
  = if decide (name ∈ bandits.*1) then fresh_entries else entries name (results st).
Proof.
  unfold _train_bandits. revert st.
  induction bandits as [|[n mab] rest IH]; intros st.
  - cbn. rewrite decide_False by apply not_elem_of_nil. reflexivity.
  - cbn [for_bandits].
    destruct (train_bandit _ _ _ _ st n mab) as [st0 mab0] eqn:Hstep.
    specialize (IH st0).
    destruct (for_bandits _ st0 rest) as [st2 rest2].
    cbn [fst] in *. rewrite IH.
    unfold train_bandit in Hstep. cbv zeta in Hstep. injection Hstep as <- _.
    cbn [emit update results fmap list_fmap fst]. rewrite entries_init_tables.
    destruct (decide (name ∈ rest.*1)) as [Hin|Hnin].
    + rewrite decide_True by (right; exact Hin). reflexivity.
    + destruct (decide (name = n)) as [->|Hne].
      * rewrite decide_True by left. reflexivity.
      * rewrite decide_False; [reflexivity|].
        intros Hc. apply elem_of_cons in Hc as [?|?]; contradiction.
Qed.

(** X13. [_train_bandits] starts every bandit afresh and keeps the names:
    the bandits it returns carry the names of the list, in order; whatever
    the tables held, after training the entries of every bandit of the list
    are the empty lists and the empty dictionaries, and the entries under
    any other name are what they were. *)
Theorem training_resets_the_tables
    (train_decisions : list Arm) (train_rewards : list Z)
    (train_contexts : option (list Ctx))
    (st : State) (bandits : list (string * Mab)) :
  let after :=
    _train_bandits is_quick train_decisions train_rewards train_contexts st bandits in
  after.2.*1 = bandits.*1
  /\ forall name,
       entries name (results after.1)
       = if decide (name ∈ bandits.*1) then fresh_entries
         else entries name (results st).
Proof.
  intros after. subst after. split.
  - destruct (_train_bandits _ _ _ _ st bandits) as [st1 bandits1] eqn:Hrun.
    exact (proj1 (train_bandits_entries _ _ _ _ _ _ _ _ Hrun)).
  - intros name. apply entries_after_training.
Qed.

(** Training leaves the tables fresh for the bandits it returns. *)
Lemma trained_tables_fresh
    (train_decisions : list Arm) (train_rewards : list Z)
    (train_contexts : option (list Ctx))
    (st : State) (bandits : list (string * Mab)) :
  fresh_tables
    (_train_bandits is_quick train_decisions train_rewards train_contexts st bandits).2
    (_train_bandits is_quick train_decisions train_rewards train_contexts st bandits).1.
Proof.
  intros name Hin. rewrite entries_after_training.
  destruct (_train_bandits _ _ _ _ st bandits) as [st1 bandits1] eqn:Hrun.
  destruct (train_bandits_entries _ _ _ _ _ _ _ _ Hrun) as [Hnames _].
  cbn [snd] in Hin. rewrite Hnames in Hin. rewrite decide_True by exact Hin.
  reflexivity.
Qed.

End WithCollaborators.
End TrainFacts.

(** ** The [predict] calls of the offline replay *)
Module OfflineCallFacts.
Import Calls CallFacts PyFacts OrderFacts TableFacts OfflineChunkFacts.
Section WithCollaborators.

Context {Arm Ctx Dist Expn NStat Cfm TStats EvalRes M : Type}.
Context {MA : @ModelAdapter Arm Ctx Dist Expn NStat M}.
Context {SC : @Scoring Arm NStat Cfm TStats EvalRes}.
Variable is_quick : bool.
Variable sim_arms : list Arm.
Variable arm_to_stats_train : TStats.

Local Abbreviation Mab := (@Mab Arm M).
Local Abbreviation event := (@event Arm Ctx Dist Expn Cfm EvalRes).
Local Abbreviation State := (@State Arm Ctx Dist Expn NStat Cfm EvalRes).
Local Abbreviation ChunkState := (@ChunkState Arm Ctx Dist Expn NStat Cfm EvalRes).

(** *** Reading the calls of one bandit *)

Lemma calls_of_app {X : Type} (read : event -> option X) name (tr1 tr2 : list event) :
  calls_of read name (tr1 ++ tr2) = calls_of read name tr1 ++ calls_of read name tr2.
Proof. apply omap_app. Qed.

Lemma calls_of_named {X : Type} (read : event -> option X) name n (tr : list event) :
  Forall (fun e => event_name e = n) tr ->
  calls_of read name tr = if decide (n = name) then omap read tr else [].
Proof.
  intros Hall. unfold calls_of.
  destruct (decide (n = name)) as [Heq|Hne];
    induction Hall as [|e tr He _ IH]; try reflexivity;
    cbn [omap list_omap]; rewrite He.
  - rewrite decide_True by exact Heq. cbn [omap list_omap] in IH. rewrite IH.
    reflexivity.
  - rewrite decide_False by exact Hne. exact IH.
Qed.

Lemma select_distinct {X : Type} name (mab : Mab) (bandits : list (string * Mab))
    (sched : MabClass -> bool -> list X) :
  NoDup bandits.*1 -> (name, mab) ∈ bandits ->
  select name (shape bandits) sched = sched (cls mab) (is_contextual mab).
Proof.
  unfold select.
  induction bandits as [|[n m] rest IH]; intros Hnodup Hin; [inversion Hin|].
  cbn in Hnodup. apply NoDup_cons in Hnodup as [Hfresh Hnodup].
  rewrite shape_cons, bind_cons. cbn [fst snd].
  assert (forall l : list (string * Mab), name ∉ l.*1 ->
            (shape l ≫= fun x => if decide (x.1.1 = name)
                                 then sched x.1.2 x.2 else []) = []) as Hnone.
  { intros l. induction l as [|[n' m'] l IHl]; intros Hnot; [reflexivity|].
    rewrite shape_cons, bind_cons. cbn [fst snd].
    rewrite decide_False by (intros ->; apply Hnot; left).
    rewrite IHl by (intros Hc; apply Hnot; right; exact Hc). reflexivity. }
  apply elem_of_cons in Hin as [[= -> ->]|Hin].
  - rewrite decide_True by reflexivity. rewrite (Hnone rest Hfresh), app_nil_r.
    reflexivity.
  - rewrite decide_False.
    + exact (IH Hnodup Hin).
    + intros ->. apply Hfresh. apply list_elem_of_fmap.
      exists (name, mab). split; [reflexivity|exact Hin].
Qed.

(** A loop over the bandits whose body makes, on each bandit, calls that
    depend only on the kind of the bandit. *)
Lemma for_bandits_calls {S X : Type} (proj : S -> State) (read : event -> option X)
    (sched : MabClass -> bool -> list X)
    (body : S -> string -> Mab -> S * Mab) :
  (forall s name mab s' mab',
     body s name mab = (s', mab') ->
     cls mab' = cls mab /\ is_contextual mab' = is_contextual mab
     /\ exists new,
          trace (proj s') = trace (proj s) ++ new
          /\ Forall (fun e => event_name e = name) new
          /\ omap read new = sched (cls mab) (is_contextual mab)) ->
  forall (bandits : list (string * Mab)) s s' bandits',
    for_bandits body s bandits = (s', bandits') ->
    shape bandits' = shape bandits
    /\ exists new,
         trace (proj s') = trace (proj s) ++ new
         /\ forall name, calls_of read name new = select name (shape bandits) sched.
Proof.
  intros Hstep bandits.
  induction bandits as [|[n mab] rest IH]; intros s s' bandits' Hrun.
  - cbn in Hrun. injection Hrun as <- <-. split; [reflexivity|].
    exists []. rewrite app_nil_r. split; reflexivity.
  - cbn [for_bandits] in Hrun.
    destruct (body s n mab) as [s1 mab1] eqn:Hbody.
    destruct (for_bandits body s1 rest) as [s2 rest2] eqn:Hrest.
    injection Hrun as <- <-.
    destruct (Hstep _ _ _ _ _ Hbody) as (Hcls & Hctx & new1 & Htr1 & Hnamed & Hread).
    destruct (IH _ _ _ Hrest) as (Hshape & new2 & Htr2 & Hcalls).
    split; [rewrite !shape_cons, Hshape, Hcls, Hctx; reflexivity|].
    exists (new1 ++ new2). rewrite Htr2, Htr1, <- app_assoc. split; [reflexivity|].
    intros name. rewrite calls_of_app, Hcalls, (calls_of_named read name n new1 Hnamed).
    unfold select. rewrite shape_cons, bind_cons. cbn [fst snd]. rewrite Hread.
    reflexivity.
Qed.

(** *** One chunk *)

Lemma predict_times_calls n name (st : State) (p : M) :
  exists rs new p1,
    predict_times n name st p = (rs, mkState (results st) (trace st ++ new), p1)
    /\ length rs = n
    /\ Forall (fun e => event_name e = name) new
    /\ omap predict_arg new = replicate n None.
Proof.
  revert st p. induction n as [|n IH]; intros st p.
  - exists [], [], p. cbn. rewrite app_nil_r. destruct st. repeat split. constructor.
  - cbn [predict_times]. unfold call_predict.
    destruct (predict p None) as [r p1].
    destruct (IH (emit (EvPredict name None r) st) p1)
      as (rs & new & p2 & Heq & Hlen & Hnamed & Hcalls).
    rewrite Heq. exists (r :: rs), (EvPredict name None r :: new), p2.
    cbn. rewrite <- app_assoc. repeat split.
    + rewrite Hlen. reflexivity.
    + constructor; [reflexivity|exact Hnamed].
    + rewrite Hcalls. reflexivity.
Qed.

Lemma offline_predict_calls start stop chunk_decision chunk_contexts
    (cs : ChunkState) name (mab : Mab) (cs' : ChunkState) (mab' : Mab) :
  offline_predict is_quick start stop chunk_decision chunk_contexts cs name mab
  = (cs', mab') ->
  cls mab' = cls mab /\ is_contextual mab' = is_contextual mab
  /\ exists new,
       trace (chunk_state cs') = trace (chunk_state cs) ++ new
       /\ Forall (fun e => event_name e = name) new
       /\ omap predict_arg new
          = (fun (_ : MabClass) (contextual : bool) =>
               if contextual then [chunk_contexts]
               else replicate (length chunk_decision) None)
              (cls mab) (is_contextual mab).
Proof.
  unfold offline_predict. cbv beta.
  destruct (is_contextual mab) eqn:Hctx.
  - destruct (is_Radius_or_KNearest_Simulator (cls mab)).
    + destruct (share_distances_spec name chunk_contexts cs (policy mab))
        as (d & e & p1 & -> & Hevent).
      destruct (call_predict_spec name chunk_contexts
                  (chunk_state (mkChunkState (emit e (chunk_state cs)) (Some d))) p1)
        as (r & p2 & -> & _).
      cbn. intros [= <- <-].
      split; [reflexivity|]. split; [exact Hctx|].
      exists [e; EvPredict name chunk_contexts r].
      destruct (is_NeighborsSimulator (cls mab) && negb is_quick); cbn;
        rewrite <- app_assoc; (split; [reflexivity|]);
        (destruct (distances cs) as [d0|]; [destruct Hevent as [-> ->]|subst e]);
        (split; [repeat constructor|reflexivity]).
    + destruct (call_predict_spec name chunk_contexts (chunk_state cs) (policy mab))
        as (r & p1 & -> & _).
      destruct (is_LSHSimulator (cls mab)); [|destruct (imp_is_Neighbors (cls mab))].
      3: destruct (call_predict_expectations_spec name chunk_contexts
                     (emit (EvPredict name chunk_contexts r) (chunk_state cs)) p1)
           as (r' & p2 & ->).
      all: cbn; intros [= <- <-]; (split; [reflexivity|]); (split; [exact Hctx|]).
      1, 2: exists [EvPredict name chunk_contexts r].
      3: exists [EvPredict name chunk_contexts r;
                 EvPredictExpectations name chunk_contexts r'].
      all: destruct (is_NeighborsSimulator (cls mab) && negb is_quick); cbn;
        rewrite <- ?app_assoc; (split; [reflexivity|]);
        (split; [repeat constructor|reflexivity]).
  - destruct (predict_times_calls (length chunk_decision) name (chunk_state cs)
                (policy mab)) as (rs & new & p1 & -> & Hlen & Hnamed & Hcalls).
    cbn. intros [= <- <-].
    split; [reflexivity|]. split; [exact Hctx|]. exists new.
    destruct (is_NeighborsSimulator (cls mab) && negb is_quick); cbn;
      (split; [reflexivity|]); (split; [exact Hnamed|exact Hcalls]).
Qed.

Lemma select_shape {X : Type} name (sh sh' : list (string * MabClass * bool))
    (sched : MabClass -> bool -> list X) :
  sh = sh' -> select name sh sched = select name sh' sched.
Proof. intros ->. reflexivity. Qed.

Lemma offline_chunks_calls chunk_size test_decisions test_contexts (idxs : list Z) :
  forall (cs cs' : ChunkState) (bandits bandits' : list (string * Mab)),
    foldl (offline_chunk is_quick chunk_size test_decisions test_contexts)
      (cs, bandits) idxs = (cs', bandits') ->
    exists new,
      trace (chunk_state cs') = trace (chunk_state cs) ++ new
      /\ forall name,
           predict_calls name new
           = idxs ≫= fun idx =>
               select name (shape bandits)
                 (chunk_calls chunk_size test_decisions test_contexts idx).
Proof.
  induction idxs as [|idx idxs IH]; intros cs cs' bandits bandits' Hrun.
  - cbn in Hrun. injection Hrun as <- <-. exists []. rewrite app_nil_r.
    split; reflexivity.
  - cbn [foldl] in Hrun.
    destruct (offline_chunk is_quick chunk_size test_decisions test_contexts
                (cs, bandits) idx) as [cs1 bandits1] eqn:Hchunk.
    unfold offline_chunk in Hchunk.
    apply (for_bandits_calls chunk_state predict_arg
             (chunk_calls chunk_size test_decisions test_contexts idx)) in Hchunk;
      [|intros s name mab s' mab' Hbody;
        exact (offline_predict_calls _ _ _ _ _ _ _ _ _ Hbody)].
    destruct Hchunk as (Hshape & new1 & Htr1 & Hcalls1). cbn [chunk_state] in Htr1.
    destruct (IH _ _ _ _ Hrun) as (new2 & Htr2 & Hcalls2).
    exists (new1 ++ new2). rewrite Htr2, Htr1, <- app_assoc. split; [reflexivity|].
    intros name. unfold predict_calls in *.
    rewrite calls_of_app, Hcalls1, Hcalls2, bind_cons, Hshape. reflexivity.
Qed.

(** *** The final loop makes no call *)

Lemma offline_score_calls test_decisions test_rewards
    (st : State) name (mab : Mab) (st' : State) (mab' : Mab) :
  offline_score is_quick sim_arms arm_to_stats_train test_decisions test_rewards
    st name mab = (st', mab') ->
  cls mab' = cls mab /\ is_contextual mab' = is_contextual mab
  /\ exists new,
       trace st' = trace st ++ new
       /\ Forall (fun e => event_name e = name) new
       /\ omap predict_arg new
          = (fun (_ : MabClass) (_ : bool) => @nil (option (list Ctx)))
              (cls mab) (is_contextual mab).
Proof.
  unfold offline_score. cbv zeta.
  set (st0 := if negb (is_contextual mab) then _ else st).
  set (st1 := if is_NeighborsSimulator (cls mab) && negb is_quick then _ else st0).
  assert (trace st1 = trace st) as Htr.
  { subst st1 st0. destruct (is_NeighborsSimulator (cls mab) && negb is_quick);
      destruct (negb (is_contextual mab)); reflexivity. }
  set (preds := bandit_to_predictions (results st1) !!! name).
  set (st2 := record_confusion name Offline test_decisions preds st1).
  destruct (record_evaluation_spec is_quick sim_arms arm_to_stats_train
              (fun res _ => Whole res) name Offline SMin test_decisions test_rewards
              preds 0 (is_NeighborsSimulator (cls mab)) st2) as [r1 ->].
  match goal with |- context [record_evaluation _ _ _ _ _ _ SMean _ _ _ _ _ ?s] =>
    destruct (record_evaluation_spec is_quick sim_arms arm_to_stats_train
                (fun res _ => Whole res) name Offline SMean test_decisions test_rewards
                preds 0 (is_NeighborsSimulator (cls mab)) s) as [r2 ->] end.
  match goal with |- context [record_evaluation _ _ _ _ _ _ SMax _ _ _ _ _ ?s] =>
    destruct (record_evaluation_spec is_quick sim_arms arm_to_stats_train
                (fun res _ => Whole res) name Offline SMax test_decisions test_rewards
                preds 0 (is_NeighborsSimulator (cls mab)) s) as [r3 ->] end.
  intros [= <- <-]. split; [reflexivity|]. split; [reflexivity|].
  eexists. cbn [trace]. subst st2. unfold record_confusion. cbn [trace emit update].
  rewrite Htr, <- !app_assoc. split; [reflexivity|].
  split; [repeat constructor|reflexivity].
Qed.

Lemma select_nothing name (sh : list (string * MabClass * bool)) :
  select name sh (fun (_ : MabClass) (_ : bool) => @nil (option (list Ctx))) = [].
Proof.
  unfold select. induction sh as [|x sh IH]; [reflexivity|].
  rewrite bind_cons, IH. destruct (decide (x.1.1 = name)); reflexivity.
Qed.

(** *** The chunks of a table of any length *)

Lemma slice_nonneg {A : Type} (l : list A) (a b : Z) :
  0 <= a -> 0 <= b ->
  slice l a b = take (Z.to_nat (b - a)) (drop (Z.to_nat a) l).
Proof.
  intros Ha Hb. unfold slice, clamp_index.
  destruct (Z.ltb_spec a 0); [lia|]. destruct (Z.ltb_spec b 0); [lia|].
  set (n := Z.of_nat (length l)).
  destruct (Z.le_gt_cases a n) as [Han|Han].
  - rewrite (Z.min_l a n) by lia.
    destruct (Z.le_gt_cases b n) as [Hbn|Hbn].
    + rewrite (Z.min_l b n) by lia. reflexivity.
    + rewrite (Z.min_r b n) by lia.
      rewrite !take_ge; [reflexivity| |]; rewrite length_drop; lia.
  - rewrite (Z.min_r a n) by lia.
    rewrite !(drop_ge l) by lia. rewrite !take_nil. reflexivity.
Qed.

Lemma chunks_prefix {A : Type} (l : list A) (chunk_size n : Z) (k : nat) :
  0 < chunk_size -> 0 <= n ->
  concat ((fun idx => slice l (idx * chunk_size) (Z.min ((idx + 1) * chunk_size) n))
            <$> range 0 (Z.of_nat k))
  = take (Z.to_nat (Z.min (Z.of_nat k * chunk_size) n)) l.
Proof.
  intros Hpos Hn. induction k as [|k IH].
  - change (Z.of_nat 0 * chunk_size) with 0. rewrite Z.min_l by lia. reflexivity.
  - rewrite range_snoc, fmap_app, concat_app, IH.
    cbn [fmap list_fmap concat]. rewrite app_nil_r.
    rewrite slice_nonneg by lia.
    destruct (Z.le_gt_cases n (Z.of_nat k * chunk_size)) as [Hfull|Hmore].
    + rewrite !Z.min_r by lia.
      replace (Z.to_nat (n - Z.of_nat k * chunk_size)) with 0%nat by lia.
      cbn [take]. apply app_nil_r.
    + rewrite (Z.min_l (Z.of_nat k * chunk_size)) by lia.
      replace (Z.to_nat (Z.min ((Z.of_nat k + 1) * chunk_size) n
                         - Z.of_nat k * chunk_size))
        with (Z.to_nat (Z.min (Z.of_nat (S k) * chunk_size) n)
              - Z.to_nat (Z.of_nat k * chunk_size))%nat by lia.
      apply take_then_more. lia.
Qed.

Lemma chunks_cover {A : Type} (l : list A) (chunk_size n chunks : Z) :
  0 < chunk_size -> 0 <= n -> ceil_div n chunk_size = Some chunks ->
  concat ((fun idx => slice l (idx * chunk_size) (Z.min ((idx + 1) * chunk_size) n))
            <$> range 0 chunks)
  = take (Z.to_nat n) l.
Proof.
  intros Hpos Hn Hchunks.
  destruct (ceil_div_bounds n chunk_size Hpos) as (c & Hc & Hbounds).
  rewrite Hchunks in Hc. injection Hc as <-.
  assert (0 <= chunks) as Hc0 by nia.
  replace chunks with (Z.of_nat (Z.to_nat chunks)) by lia.
  rewrite chunks_prefix by lia. f_equal. lia.
Qed.

Lemma bind_singleton_fmap {A B : Type} (f : A -> B) (l : list A) :
  (l ≫= fun x => [f x]) = f <$> l.
Proof. induction l as [|x l IH]; [reflexivity|]. rewrite bind_cons, IH. reflexivity. Qed.

Lemma bind_replicate_none {A B : Type} (len : A -> nat) (l : list A) :
  (l ≫= fun x => replicate (len x) (@None B))
  = replicate (length (concat ((fun x => replicate (len x) tt) <$> l))) None.
Proof.
  induction l as [|x l IH]; [reflexivity|].
  rewrite bind_cons, IH. cbn [fmap list_fmap concat].
  rewrite length_app, length_replicate, replicate_add. reflexivity.
Qed.

Lemma length_concat_slices {A : Type} (f : Z -> list A) (l : list Z) :
  length (concat ((fun x => replicate (length (f x)) tt) <$> l))
  = length (concat (f <$> l)).
Proof.
  induction l as [|x l IH]; [reflexivity|].
  cbn [fmap list_fmap concat]. rewrite !length_app, length_replicate, IH. reflexivity.
Qed.

(** X14. In the offline replay with a positive chunk size and bandits under
    distinct names, every bandit is asked to predict every row of the test
    set exactly once: the contexts handed to the [predict] calls of a
    contextual bandit have at most [chunk_size] rows each and, put end to
    end, are the test contexts of the rows of the test set, in order; a
    context-free bandit gets one [predict()] call per test row. *)
Theorem offline_predicts_every_row_once
    (chunk_size : Z) (test_decisions : list Arm) (test_rewards : list Z)
    (test_contexts : option (list Ctx))
    (st : State) (bandits : list (string * Mab)) :
  0 < chunk_size -> NoDup bandits.*1 -> tables_ready bandits st ->
  exists st' bandits' new,
    _offline_test_bandits is_quick sim_arms arm_to_stats_train chunk_size
      test_decisions test_rewards test_contexts st bandits = Some (st', bandits')
    /\ trace st' = trace st ++ new
    /\ forall name mab, (name, mab) ∈ bandits ->
         if is_contextual mab
         then forall rows, test_contexts = Some rows ->
                predicted_rows (predict_calls name new)
                = take (length test_decisions) rows
                /\ Forall (fun call => exists chunk,
                             call = Some chunk
                             /\ Z.of_nat (length chunk) <= chunk_size)
                     (predict_calls name new)
         else predict_calls name new = replicate (length test_decisions) None.
Proof.
  intros Hpos Hnodup _.
  unfold _offline_test_bandits, offline_chunks.
  destruct (ceil_div_bounds (Z.of_nat (length test_decisions)) chunk_size Hpos)
    as (n & Hn & Hbounds).
  rewrite Hn. cbn [mbind option_bind].
  destruct (foldl _ _ (range 0 n)) as [cs1 bandits1] eqn:Hchunks.
  cbn [mbind option_bind].
  destruct (for_bandits _ (chunk_state cs1) bandits1) as [st2 bandits2] eqn:Hscore.
  pose proof (offline_chunks_shape _ _ _ _ _ _ _ _ _ Hchunks) as Hshape.
  apply offline_chunks_calls in Hchunks as (new1 & Htr1 & Hcalls1).
  cbn [chunk_state] in Htr1.
  apply (for_bandits_calls (fun s => s) predict_arg
           (fun (_ : MabClass) (_ : bool) => @nil (option (list Ctx)))) in Hscore;
    [|intros s name mab s' mab' Hbody;
      exact (offline_score_calls _ _ _ _ _ _ _ Hbody)].
  destruct Hscore as (_ & new2 & Htr2 & Hcalls2).
  exists st2, bandits2, (new1 ++ new2).
  split; [reflexivity|]. rewrite Htr2, Htr1, <- app_assoc. split; [reflexivity|].
  intros name mab Hin.
  assert (predict_calls name (new1 ++ new2)
          = range 0 n ≫= fun idx =>
              chunk_calls chunk_size test_decisions test_contexts idx
                (cls mab) (is_contextual mab)) as Hcalls.
  { unfold predict_calls in *. rewrite calls_of_app, Hcalls1, Hcalls2.
    rewrite select_nothing, app_nil_r.
    apply bind_ext_in. intros idx. apply select_distinct; assumption. }
  rewrite Hcalls. unfold chunk_calls. cbv zeta.
  destruct (is_contextual mab).
  - intros rows ->. cbn [fmap option_fmap option_map].
    rewrite bind_singleton_fmap. split.
    + unfold predicted_rows.
      transitivity
        (concat ((fun idx => slice rows (idx * chunk_size)
                               (Z.min ((idx + 1) * chunk_size)
                                  (Z.of_nat (length test_decisions))))
                   <$> range 0 n)).
      * generalize (range 0 n). intros l. induction l as [|x l IH]; [reflexivity|].
        cbn [fmap list_fmap concat]. rewrite bind_cons, IH. reflexivity.
      * rewrite (chunks_cover rows chunk_size (Z.of_nat (length test_decisions)) n)
          by (try assumption; lia).
        rewrite Nat2Z.id. reflexivity.
    + apply Forall_fmap, Forall_forall. intros idx Hidx. cbn.
      eexists. split; [reflexivity|].
      unfold range in Hidx. apply list_elem_of_fmap in Hidx as (i & -> & Hi).
      rewrite slice_nonneg by lia. rewrite length_take, length_drop. lia.
  - rewrite (bind_replicate_none
               (fun idx => length (slice test_decisions (idx * chunk_size)
                                     (Z.min ((idx + 1) * chunk_size)
                                        (Z.of_nat (length test_decisions)))))).
    f_equal.
    rewrite (length_concat_slices
               (fun idx => slice test_decisions (idx * chunk_size)
                             (Z.min ((idx + 1) * chunk_size)
                                (Z.of_nat (length test_decisions))))).
    rewrite (chunks_cover test_decisions chunk_size
               (Z.of_nat (length test_decisions)) n) by (try assumption; lia).
    rewrite Nat2Z.id, take_ge by lia. reflexivity.
Qed.

End WithCollaborators.

(** Five rows in chunks of two rows, a contextual and a context-free bandit. *)
Lemma five_rows_predicted_once :
  exists st' bandits' new,
    _offline_test_bandits false [0; 1] tt 2
      Examples.five_rows Examples.five_rows (Some Examples.five_rows)
      (Examples.trained_with Examples.mixed_bandits) Examples.mixed_bandits
    = Some (st', bandits')
    /\ trace st' = trace (Examples.trained_with Examples.mixed_bandits) ++ new
    /\ forall name mab, (name, mab) ∈ Examples.mixed_bandits ->
         if is_contextual mab
         then forall rows, Some Examples.five_rows = Some rows ->
                predicted_rows (predict_calls name new)
                = take (length Examples.five_rows) rows
                /\ Forall (fun call => exists chunk,
                             call = Some chunk
                             /\ Z.of_nat (length chunk) <= 2)
                     (predict_calls name new)
         else predict_calls name new = replicate (length Examples.five_rows) None.
Proof.
  apply (offline_predicts_every_row_once false [0; 1] tt 2).
  - reflexivity.
  - apply NoDup_cons. split; [|apply NoDup_singleton].
    intros Hin. apply list_elem_of_singleton in Hin. discriminate.
  - exact (trained_tables_ready false [] [] None Examples.start_state
             Examples.mixed_bandits).
Defined.

End OfflineCallFacts.

(** ** The [partial_fit] calls of the online replay *)
Module OnlineCallFacts.
Import Calls CallFacts PyFacts OrderFacts OfflineChunkFacts OfflineCallFacts.
Section WithCollaborators.

Context {Arm Ctx Dist Expn NStat Cfm TStats EvalRes M : Type}.
Context {MA : @ModelAdapter Arm Ctx Dist Expn NStat M}.
Context {SC : @Scoring Arm NStat Cfm TStats EvalRes}.
Variable is_quick : bool.
Variable sim_arms : list Arm.
Variable arm_to_stats_train : TStats.

Local Abbreviation Mab := (@Mab Arm M).
Local Abbreviation event := (@event Arm Ctx Dist Expn Cfm EvalRes).
Local Abbreviation State := (@State Arm Ctx Dist Expn NStat Cfm EvalRes).
Local Abbreviation OnlineState := (@OnlineState Arm Ctx Dist Expn NStat Cfm EvalRes M).


(** *** From the checkpoints to the calls of one bandit *)







End WithCollaborators.


End OnlineCallFacts.

(** ** The scoring tables after the online replay *)
Module OnlineTableFacts.
Import Calls CallFacts PyFacts OrderFacts TableFacts OfflineChunkFacts TrainFacts.
Section WithCollaborators.

Context {Arm Ctx Dist Expn NStat Cfm TStats EvalRes M : Type}.
Context {MA : @ModelAdapter Arm Ctx Dist Expn NStat M}.
Context {SC : @Scoring Arm NStat Cfm TStats EvalRes}.
Variable is_quick : bool.
Variable sim_arms : list Arm.
Variable arm_to_stats_train : TStats.

Local Abbreviation Mab := (@Mab Arm M).
Local Abbreviation event := (@event Arm Ctx Dist Expn Cfm EvalRes).
Local Abbreviation State := (@State Arm Ctx Dist Expn NStat Cfm EvalRes).
Local Abbreviation Results := (@Results Arm Expn NStat Cfm EvalRes).
Local Abbreviation BatchState := (@BatchState Arm Ctx Dist Expn NStat Cfm EvalRes).
Local Abbreviation OnlineState := (@OnlineState Arm Ctx Dist Expn NStat Cfm EvalRes M).

(** *** One scoring *)

Lemma alist_set_keys (k : checkpoint) (v : EvalRes) (l : list (checkpoint * EvalRes)) :
  (alist_set k v l).*1 = key_add k l.*1.
Proof.
  unfold key_add. induction l as [|[k' v'] l IH]; [reflexivity|].
  cbn [alist_set fmap list_fmap fst].
  destruct (decide (k' = k)) as [->|Hne].
  - rewrite decide_True by left. reflexivity.
  - cbn [fmap list_fmap fst]. rewrite IH.
    destruct (decide (k ∈ l.*1)) as [Hin|Hnin].
    + rewrite decide_True by (right; exact Hin). reflexivity.
    + rewrite decide_False; [reflexivity|].
      intros Hc. apply elem_of_cons in Hc as [?|?]; [congruence|contradiction].
Qed.

Lemma score_keys_set_key (ck : checkpoint) (res : EvalRes)
    (m : gmap string (@evaluations EvalRes)) name :
  score_keys (Some (set_key ck res (m !!! name)))
  = Some (key_add ck (default [] (score_keys (m !! name)))).
Proof.
  rewrite lookup_total_alt.
  destruct (m !! name) as [[items|whole]|]; cbn; try reflexivity.
  rewrite alist_set_keys. reflexivity.
Qed.

Lemma get_partial_evaluation_summary name ck decisions predictions rewards
    start_index nn (st : State) (name' : string) :
  scoring_summary name'
    (results (_get_partial_evaluation is_quick sim_arms arm_to_stats_train name ck
                decisions predictions rewards start_index nn st))
  = if decide (name' = name)
    then scored_at ck (scoring_summary name' (results st))
    else scoring_summary name' (results st).
Proof.
  unfold _get_partial_evaluation. cbv zeta.
  set (st0 := record_confusion name ck decisions predictions st).
  destruct (record_evaluation_spec is_quick sim_arms arm_to_stats_train
              (set_key ck) name ck SMin decisions rewards
              predictions start_index nn st0) as [r1 ->].
  match goal with |- context [record_evaluation _ _ _ _ _ _ SMean _ _ _ _ _ ?s] =>
    destruct (record_evaluation_spec is_quick sim_arms arm_to_stats_train
                (set_key ck) name ck SMean decisions rewards
                predictions start_index nn s) as [r2 ->] end.
  match goal with |- context [record_evaluation _ _ _ _ _ _ SMax _ _ _ _ _ ?s] =>
    destruct (record_evaluation_spec is_quick sim_arms arm_to_stats_train
                (set_key ck) name ck SMax decisions rewards
                predictions start_index nn s) as [r3 ->] end.
  subst st0. unfold record_confusion, scoring_summary, scored_at.
  cbn [results emit update set_stats set_confusion_matrices stats_table
       bandit_to_confusion_matrices bandit_to_arm_to_stats_min
       bandit_to_arm_to_stats_avg bandit_to_arm_to_stats_max].
  destruct (decide (name' = name)) as [->|Hne].
  - rewrite !lookup_insert_eq. rewrite !score_keys_set_key.
    rewrite lookup_total_alt.
    destruct (bandit_to_confusion_matrices (results st) !! name) as [l|]; cbn;
      [rewrite length_app; cbn; rewrite Nat.add_1_r|]; reflexivity.
  - rewrite !lookup_insert_ne by congruence. reflexivity.
Qed.



(** *** The loops *)




Lemma shape_names (bandits bandits' : list (string * Mab)) :
  shape bandits' = shape bandits -> bandits'.*1 = bandits.*1.
Proof.
  intros Hshape.
  apply (f_equal (fmap (fun x : string * MabClass * bool => x.1.1))) in Hshape.
  unfold shape in Hshape. rewrite <- !list_fmap_compose in Hshape. exact Hshape.
Qed.





End WithCollaborators.


End OnlineTableFacts.

(** ** The tables after the offline replay *)
Module OfflineTableFacts.
Import Calls CallFacts PyFacts OrderFacts TableFacts OfflineChunkFacts TrainFacts
       OfflineCallFacts.
Section WithCollaborators.

Context {Arm Ctx Dist Expn NStat Cfm TStats EvalRes M : Type}.
Context {MA : @ModelAdapter Arm Ctx Dist Expn NStat M}.
Context {SC : @Scoring Arm NStat Cfm TStats EvalRes}.
Variable is_quick : bool.
Variable sim_arms : list Arm.
Variable arm_to_stats_train : TStats.

Local Abbreviation Mab := (@Mab Arm M).
Local Abbreviation event := (@event Arm Ctx Dist Expn Cfm EvalRes).
Local Abbreviation State := (@State Arm Ctx Dist Expn NStat Cfm EvalRes).
Local Abbreviation Results := (@Results Arm Expn NStat Cfm EvalRes).
Local Abbreviation ChunkState := (@ChunkState Arm Ctx Dist Expn NStat Cfm EvalRes).

(** *** The chunk loop: the predictions grow, the scores stay *)

(** The four scoring tables. *)
Local Abbreviation scores r :=
  (bandit_to_confusion_matrices r, bandit_to_arm_to_stats_min r,
   bandit_to_arm_to_stats_avg r, bandit_to_arm_to_stats_max r).

Lemma offline_predict_tables start stop chunk_decision chunk_contexts
    (cs : ChunkState) n (mab : Mab) (cs' : ChunkState) (mab' : Mab) :
  offline_predict is_quick start stop chunk_decision chunk_contexts cs n mab
  = (cs', mab') ->
  scores (results (chunk_state cs')) = scores (results (chunk_state cs))
  /\ (forall name, name <> n ->
        bandit_to_predictions (results (chunk_state cs')) !! name
        = bandit_to_predictions (results (chunk_state cs)) !! name)
  /\ exists items,
       bandit_to_predictions (results (chunk_state cs')) !! n
       = Some (bandit_to_predictions (results (chunk_state cs)) !!! n ++ items)
       /\ (is_contextual mab = false -> length items = length chunk_decision).
Proof.
  unfold offline_predict.
  destruct (is_contextual mab) eqn:Hctx.
  - destruct (is_Radius_or_KNearest_Simulator (cls mab)).
    + destruct (share_distances_spec n chunk_contexts cs (policy mab))
        as (d & e & p1 & -> & _).
      destruct (call_predict_spec n chunk_contexts
                  (chunk_state (mkChunkState (emit e (chunk_state cs)) (Some d))) p1)
        as (r & p2 & -> & _).
      cbn. intros [= <- _].
      destruct (is_NeighborsSimulator (cls mab) && negb is_quick); cbn;
        (split; [reflexivity|]);
        (split; [intros name Hne; apply lookup_insert_ne; congruence|]);
        exists (as_items r); (split; [apply lookup_insert_eq|discriminate]).
    + destruct (call_predict_spec n chunk_contexts (chunk_state cs) (policy mab))
        as (r & p1 & -> & _).
      destruct (is_LSHSimulator (cls mab)); [|destruct (imp_is_Neighbors (cls mab))].
      3: destruct (call_predict_expectations_spec n chunk_contexts
                     (emit (EvPredict n chunk_contexts r) (chunk_state cs)) p1)
           as (r' & p2 & ->).
      all: cbn; intros [= <- _];
        destruct (is_NeighborsSimulator (cls mab) && negb is_quick); cbn;
        (split; [reflexivity|]);
        (split; [intros name Hne; apply lookup_insert_ne; congruence|]);
        exists (as_items r); (split; [apply lookup_insert_eq|discriminate]).
  - destruct (predict_times_calls (length chunk_decision) n (chunk_state cs)
                (policy mab)) as (rs & new & p1 & -> & Hlen & _).
    cbn. intros [= <- _].
    destruct (is_NeighborsSimulator (cls mab) && negb is_quick); cbn;
      (split; [reflexivity|]);
      (split; [intros name Hne; apply lookup_insert_ne; congruence|]);
      exists rs; (split; [apply lookup_insert_eq|intros _; exact Hlen]).
Qed.

Lemma offline_bandits_tables start stop chunk_decision chunk_contexts
    (bandits : list (string * Mab)) :
  forall (cs cs' : ChunkState) bandits',
    NoDup bandits.*1 ->
    for_bandits (offline_predict is_quick start stop chunk_decision chunk_contexts)
      cs bandits = (cs', bandits') ->
    scores (results (chunk_state cs')) = scores (results (chunk_state cs))
    /\ (forall name, name ∉ bandits.*1 ->
          bandit_to_predictions (results (chunk_state cs')) !! name
          = bandit_to_predictions (results (chunk_state cs)) !! name)
    /\ forall name mab, (name, mab) ∈ bandits ->
         grown (length chunk_decision) (is_contextual mab)
           (bandit_to_predictions (results (chunk_state cs)) !! name)
           (bandit_to_predictions (results (chunk_state cs')) !! name).
Proof.
  induction bandits as [|[n m] rest IH]; intros cs cs' bandits' Hnodup Hrun.
  - cbn in Hrun. injection Hrun as <- <-. split; [reflexivity|]. split; [reflexivity|].
    intros name mab Hin. inversion Hin.
  - cbn [for_bandits] in Hrun.
    destruct (offline_predict _ _ _ _ _ cs n m) as [cs1 m1] eqn:Hstep.
    destruct (for_bandits _ cs1 rest) as [cs2 rest2] eqn:Hrest.
    injection Hrun as <- <-.
    cbn in Hnodup. apply NoDup_cons in Hnodup as [Hfresh Hnodup].
    destruct (offline_predict_tables _ _ _ _ _ _ _ _ _ Hstep)
      as (Hscores1 & Hother1 & items & Hown1 & Hlen1).
    destruct (IH _ _ _ Hnodup Hrest) as (Hscores2 & Hother2 & Hin2).
    split; [rewrite Hscores2; exact Hscores1|]. split.
    + intros name Hnot. rewrite Hother2, Hother1; [reflexivity| |].
      * intros ->. apply Hnot. left.
      * intros Hc. apply Hnot. right. exact Hc.
    + intros name mab Hin. apply elem_of_cons in Hin as [[= -> ->]|Hin].
      * exists items. rewrite (Hother2 n Hfresh), Hown1.
        rewrite lookup_total_alt. split; [reflexivity|exact Hlen1].
      * destruct (Hin2 name mab Hin) as (items2 & Hafter & Hlen2).
        exists items2. rewrite Hafter. rewrite Hother1; [split; [reflexivity|exact Hlen2]|].
        intros ->. apply Hfresh. apply list_elem_of_fmap.
        exists (n, mab). split; [reflexivity|exact Hin].
Qed.

Lemma in_shape name (mab : Mab) (bandits : list (string * Mab)) :
  (name, mab) ∈ bandits -> (name, cls mab, is_contextual mab) ∈ shape bandits.
Proof.
  intros Hin. unfold shape. apply list_elem_of_fmap.
  exists (name, mab). split; [reflexivity|exact Hin].
Qed.

Lemma shape_in name c ctx (bandits : list (string * Mab)) :
  (name, c, ctx) ∈ shape bandits ->
  exists mab, (name, mab) ∈ bandits /\ cls mab = c /\ is_contextual mab = ctx.
Proof.
  unfold shape. intros Hin. apply list_elem_of_fmap in Hin as ([n m] & [= -> -> ->] & Hin).
  exists m. repeat split. exact Hin.
Qed.

Lemma offline_chunks_tables chunk_size test_decisions test_contexts (idxs : list Z) :
  forall (cs cs' : ChunkState) (bandits bandits' : list (string * Mab)),
    NoDup bandits.*1 ->
    foldl (offline_chunk is_quick chunk_size test_decisions test_contexts)
      (cs, bandits) idxs = (cs', bandits') ->
    scores (results (chunk_state cs')) = scores (results (chunk_state cs))
    /\ forall name mab, (name, mab) ∈ bandits ->
         is_Some (bandit_to_predictions (results (chunk_state cs)) !! name) ->
         grown (length (concat ((fun idx =>
                                   slice test_decisions (idx * chunk_size)
                                     (Z.min ((idx + 1) * chunk_size)
                                        (Z.of_nat (length test_decisions))))
                                  <$> idxs)))
           (is_contextual mab)
           (bandit_to_predictions (results (chunk_state cs)) !! name)
           (bandit_to_predictions (results (chunk_state cs')) !! name).
Proof.
  induction idxs as [|idx idxs IH]; intros cs cs' bandits bandits' Hnodup Hrun.
  - cbn in Hrun. injection Hrun as <- <-. split; [reflexivity|].
    intros name mab Hin [l Hl]. exists []. rewrite Hl. cbn. rewrite app_nil_r.
    split; reflexivity.
  - cbn [foldl] in Hrun.
    destruct (offline_chunk is_quick chunk_size test_decisions test_contexts
                (cs, bandits) idx) as [cs1 bandits1] eqn:Hchunk.
    unfold offline_chunk in Hchunk.
    pose proof (offline_bandits_shape _ _ _ _ _ _ _ _ _ Hchunk) as Hshape.
    apply offline_bandits_tables in Hchunk as (Hscores1 & _ & Hgrown1);
      [|exact Hnodup].
    cbn [chunk_state] in Hscores1, Hgrown1.
    assert (NoDup bandits1.*1) as Hnodup1
      by (rewrite (OnlineTableFacts.shape_names _ _ Hshape); exact Hnodup).
    destruct (IH _ _ _ _ Hnodup1 Hrun) as (Hscores2 & Hgrown2).
    split; [rewrite Hscores2; exact Hscores1|].
    intros name mab Hin Hsome.
    destruct (Hgrown1 name mab Hin) as (items1 & Hafter1 & Hlen1).
    apply in_shape in Hin. rewrite <- Hshape in Hin.
    apply shape_in in Hin as (mab1 & Hin1 & _ & Hctx1).
    destruct (Hgrown2 name mab1 Hin1 ltac:(rewrite Hafter1; eauto))
      as (items2 & Hafter2 & Hlen2).
    exists (items1 ++ items2). rewrite Hafter2, Hafter1.
    change (default [] (Some ?x)) with x.
    rewrite <- app_assoc. split; [reflexivity|].
    intros Hctx. cbn [fmap list_fmap concat].
    rewrite !length_app, Hlen1, Hlen2 by congruence. reflexivity.
Qed.

(** *** The final loop *)

Lemma offline_score_tables test_decisions test_rewards
    (st : State) n (mab : Mab) (st' : State) (mab' : Mab) :
  offline_score is_quick sim_arms arm_to_stats_train test_decisions test_rewards
    st n mab = (st', mab') ->
  mab' = mab
  /\ bandit_to_predictions (results st') = bandit_to_predictions (results st)
  /\ bandit_to_arm_to_stats_neighborhoods (results st')
     = bandit_to_arm_to_stats_neighborhoods (results st)
  /\ (forall name, name <> n ->
        scoring_tables_at name (results st') = scoring_tables_at name (results st))
  /\ scoring_tables_at n (results st')
     = offline_scores is_quick sim_arms arm_to_stats_train test_decisions test_rewards
         n mab st.
Proof.
  unfold offline_score, offline_scores. cbv zeta.
  set (st0 := if negb (is_contextual mab) then _ else st).
  set (st1 := if is_NeighborsSimulator (cls mab) && negb is_quick then _ else st0).
  assert (bandit_to_predictions (results st1) = bandit_to_predictions (results st)
          /\ bandit_to_arm_to_stats_neighborhoods (results st1)
             = bandit_to_arm_to_stats_neighborhoods (results st)
          /\ scores (results st1) = scores (results st)) as (Hp & Hn & Hs).
  { subst st1 st0. destruct (is_NeighborsSimulator (cls mab) && negb is_quick);
      destruct (negb (is_contextual mab)); repeat split. }
  injection Hs as Hc Hmin Havg Hmax.
  set (preds := bandit_to_predictions (results st1) !!! n).
  set (st2 := record_confusion n Offline test_decisions preds st1).
  unfold record_evaluation.
  assert (scoring_reference is_quick arm_to_stats_train n
            (is_NeighborsSimulator (cls mab)) st2
          = scoring_reference is_quick arm_to_stats_train n
              (is_NeighborsSimulator (cls mab)) st) as Href.
  { unfold scoring_reference. subst st2. cbn. rewrite Hn. reflexivity. }
  rewrite Href.
  destruct (scoring_reference is_quick arm_to_stats_train n
              (is_NeighborsSimulator (cls mab)) st) as [ref flag] eqn:Hsr.
  cbn [emit update results trace].
  match goal with |- context [scoring_reference _ _ _ _ ?s] =>
    assert (scoring_reference is_quick arm_to_stats_train n
              (is_NeighborsSimulator (cls mab)) s = (ref, flag)) as ->
      by (rewrite <- Hsr; unfold scoring_reference; subst st2; cbn; rewrite Hn;
          reflexivity)
  end.
  cbn [emit update results trace].
  match goal with |- context [scoring_reference _ _ _ _ ?s] =>
    assert (scoring_reference is_quick arm_to_stats_train n
              (is_NeighborsSimulator (cls mab)) s = (ref, flag)) as ->
      by (rewrite <- Hsr; unfold scoring_reference; subst st2; cbn; rewrite Hn;
          reflexivity)
  end.
  intros [= <- <-]. subst st2. unfold record_confusion, scoring_tables_at.
  cbn [results emit update set_stats set_confusion_matrices stats_table
       bandit_to_predictions bandit_to_arm_to_stats_neighborhoods
       bandit_to_confusion_matrices bandit_to_arm_to_stats_min
       bandit_to_arm_to_stats_avg bandit_to_arm_to_stats_max].
  split; [reflexivity|]. split; [exact Hp|]. split; [exact Hn|]. split.
  - intros name Hne. rewrite !lookup_insert_ne by congruence.
    rewrite Hc, Hmin, Havg, Hmax. reflexivity.
  - rewrite !lookup_insert_eq. subst preds. rewrite Hp, Hc. reflexivity.
Qed.

Lemma offline_scores_tables test_decisions test_rewards
    (bandits : list (string * Mab)) :
  forall (st st' : State) bandits',
    NoDup bandits.*1 ->
    for_bandits (offline_score is_quick sim_arms arm_to_stats_train
                   test_decisions test_rewards) st bandits = (st', bandits') ->
    bandits' = bandits
    /\ bandit_to_predictions (results st') = bandit_to_predictions (results st)
    /\ bandit_to_arm_to_stats_neighborhoods (results st')
       = bandit_to_arm_to_stats_neighborhoods (results st)
    /\ (forall name, name ∉ bandits.*1 ->
          scoring_tables_at name (results st') = scoring_tables_at name (results st))
    /\ forall name mab, (name, mab) ∈ bandits ->
         scoring_tables_at name (results st')
         = offline_scores is_quick sim_arms arm_to_stats_train
             test_decisions test_rewards name mab st.
Proof.
  induction bandits as [|[n m] rest IH]; intros st st' bandits' Hnodup Hrun.
  - cbn in Hrun. injection Hrun as <- <-. repeat split.
    intros name mab Hin. inversion Hin.
  - cbn [for_bandits] in Hrun.
    destruct (offline_score _ _ _ _ _ st n m) as [st1 m1] eqn:Hstep.
    destruct (for_bandits _ st1 rest) as [st2 rest2] eqn:Hrest.
    injection Hrun as <- <-.
    cbn in Hnodup. apply NoDup_cons in Hnodup as [Hfresh Hnodup].
    destruct (offline_score_tables _ _ _ _ _ _ _ Hstep)
      as (-> & Hp1 & Hn1 & Hother1 & Hown1).
    destruct (IH _ _ _ Hnodup Hrest) as (-> & Hp2 & Hn2 & Hother2 & Hin2).
    split; [reflexivity|]. split; [rewrite Hp2; exact Hp1|].
    split; [rewrite Hn2; exact Hn1|]. split.
    + intros name Hnot. rewrite Hother2, Hother1; [reflexivity| |].
      * intros ->. apply Hnot. left.
      * intros Hc. apply Hnot. right. exact Hc.
    + intros name mab Hin. apply elem_of_cons in Hin as [[= -> ->]|Hin].
      * rewrite (Hother2 n Hfresh). exact Hown1.
      * rewrite (Hin2 name mab Hin).
        assert (name <> n) as Hne.
        { intros ->. apply Hfresh. apply list_elem_of_fmap.
          exists (n, mab). split; [reflexivity|exact Hin]. }
        unfold offline_scores, scoring_reference.
        rewrite Hp1, Hn1.
        pose proof (Hother1 name Hne) as Hsame. unfold scoring_tables_at in Hsame.
        injection Hsame as Hc _ _ _. rewrite !lookup_total_alt, Hc. reflexivity.
Qed.

(** X17. After training, an offline replay with a positive chunk size and
    bandits under distinct names leaves for every bandit exactly one
    confusion matrix, that of the test decisions against all the predictions
    of the bandit, and in [bandit_to_arm_to_stats_min], [avg] and [max] the
    result of one call of the evaluator (no dictionary keyed by batch) on the
    whole test set, these predictions and start index 0; the scoring changes
    no prediction; and a context-free bandit has one prediction per test
    row. *)
Theorem offline_results_score_the_whole_test_set
    (chunk_size : Z) (test_decisions : list Arm) (test_rewards : list Z)
    (test_contexts : option (list Ctx))
    (st : State) (bandits : list (string * Mab)) :
  0 < chunk_size -> NoDup bandits.*1 -> fresh_tables bandits st ->
  exists st1 st' bandits',
    offline_chunks is_quick chunk_size test_decisions test_contexts st bandits
    = Some (st1, bandits')
    /\ _offline_test_bandits is_quick sim_arms arm_to_stats_train chunk_size
         test_decisions test_rewards test_contexts st bandits = Some (st', bandits')
    /\ bandit_to_predictions (results st') = bandit_to_predictions (results st1)
    /\ forall name mab, (name, mab) ∈ bandits' ->
         let predictions := bandit_to_predictions (results st') !!! name in
         let '(ref, flag) :=
           scoring_reference is_quick arm_to_stats_train name
             (is_NeighborsSimulator (cls mab)) st' in
         let score s :=
           Whole (evaluator sim_arms test_decisions test_rewards predictions
                    ref s 0 flag) in
         scoring_tables_at name (results st')
         = (Some [confusion_matrix test_decisions predictions],
            Some (score SMin), Some (score SMean), Some (score SMax))
         /\ (is_contextual mab = false ->
             length predictions = length test_decisions).
Proof.
  intros Hpos Hnodup Hfresh.
  unfold _offline_test_bandits, offline_chunks.
  destruct (ceil_div_bounds (Z.of_nat (length test_decisions)) chunk_size Hpos)
    as (n & Hn & Hbounds).
  rewrite Hn. cbn [mbind option_bind].
  destruct (foldl _ _ (range 0 n)) as [cs1 bandits1] eqn:Hchunks.
  cbn [mbind option_bind].
  destruct (for_bandits _ (chunk_state cs1) bandits1) as [st2 bandits2] eqn:Hscore.
  pose proof (offline_chunks_shape _ _ _ _ _ _ _ _ _ Hchunks) as Hshape.
  assert (NoDup bandits1.*1) as Hnodup1
    by (rewrite (OnlineTableFacts.shape_names _ _ Hshape); exact Hnodup).
  apply offline_chunks_tables in Hchunks as (Hscores & Hgrown); [|exact Hnodup].
  cbn [chunk_state] in Hscores, Hgrown.
  destruct (offline_scores_tables _ _ _ _ _ _ Hnodup1 Hscore)
    as (-> & Hp & Hnb & _ & Hown).
  exists (chunk_state cs1), st2, bandits1.
  split; [reflexivity|]. split; [reflexivity|]. split; [exact Hp|].
  intros name mab Hin.
  assert (name ∈ bandits.*1) as Hname.
  { rewrite <- (OnlineTableFacts.shape_names _ _ Hshape).
    apply list_elem_of_fmap. exists (name, mab). split; [reflexivity|exact Hin]. }
  specialize (Hfresh name Hname). unfold entries, fresh_entries in Hfresh.
  injection Hfresh as Hpred _ _ _ Hc _ _ _.
  rewrite (Hown name mab Hin). unfold offline_scores.
  assert (scoring_reference is_quick arm_to_stats_train name
            (is_NeighborsSimulator (cls mab)) st2
          = scoring_reference is_quick arm_to_stats_train name
              (is_NeighborsSimulator (cls mab)) (chunk_state cs1)) as ->
    by (unfold scoring_reference; rewrite Hnb; reflexivity).
  destruct (scoring_reference is_quick arm_to_stats_train name
              (is_NeighborsSimulator (cls mab)) (chunk_state cs1)) as [ref flag].
  cbv zeta. rewrite Hp. split.
  - injection Hscores as Hcs _ _ _. rewrite (lookup_total_alt _ name), Hcs, Hc.
    reflexivity.
  - intros Hctx.
    apply in_shape in Hin. rewrite Hshape in Hin.
    apply shape_in in Hin as (mab0 & Hin0 & _ & Hctx0).
    destruct (Hgrown name mab0 Hin0 ltac:(rewrite Hpred; eauto))
      as (items & Hafter & Hlen).
    rewrite lookup_total_alt, Hafter, Hpred. cbn.
    rewrite Hlen by congruence.
    rewrite (chunks_cover test_decisions chunk_size
               (Z.of_nat (length test_decisions)) n) by (try assumption; lia).
    rewrite Nat2Z.id, take_ge by lia. reflexivity.
Qed.

End WithCollaborators.

(** Five rows in chunks of two rows. *)
Lemma five_rows_scored_once :
  exists st1 st' bandits',
    offline_chunks false 2 Examples.five_rows (Some Examples.five_rows)
      (Examples.trained_with Examples.mixed_bandits) Examples.mixed_bandits
    = Some (st1, bandits')
    /\ _offline_test_bandits false [0; 1] tt 2
         Examples.five_rows Examples.five_rows (Some Examples.five_rows)
         (Examples.trained_with Examples.mixed_bandits) Examples.mixed_bandits
       = Some (st', bandits')
    /\ bandit_to_predictions (results st') = bandit_to_predictions (results st1)
    /\ forall name mab, (name, mab) ∈ bandits' ->
         let predictions := bandit_to_predictions (results st') !!! name in
         let '(ref, flag) :=
           scoring_reference false tt name (is_NeighborsSimulator (cls mab)) st' in
         let score s :=
           Whole (evaluator [0; 1] Examples.five_rows Examples.five_rows predictions
                    ref s 0 flag) in
         scoring_tables_at name (results st')
         = (Some [confusion_matrix (TStats:=unit) Examples.five_rows predictions],
            Some (score SMin), Some (score SMean), Some (score SMax))
         /\ (is_contextual mab = false ->
             length predictions = length Examples.five_rows).
Proof.
  apply (offline_results_score_the_whole_test_set false [0; 1] tt 2).
  - reflexivity.
  - apply NoDup_cons. split; [|apply NoDup_singleton].
    intros Hin. apply list_elem_of_singleton in Hin. discriminate.
  - exact (trained_tables_fresh false [] [] None Examples.start_state
             Examples.mixed_bandits).
Defined.

End OfflineTableFacts.

(** ** When [plot] can be called *)
Module PlotFacts.
Import Plot Calls CallFacts OrderFacts TableFacts TrainFacts OfflineTableFacts
       OnlineTableFacts RunEdgeFacts.
Section WithCollaborators.

Context {Arm : Type} `{Countable Arm}.
Context {Ctx Dist Expn NStat Cfm EvalRes M F : Type}.
Context {MA : @ModelAdapter Arm Ctx Dist Expn NStat M}.
Context {SC : @Scoring Arm NStat Cfm (gmap Arm (@Stats.ArmStats F)) EvalRes}.
Variable np_mean : list Z -> F.
Variable np_std : list Z -> F.
Variable effective_jobs : Z -> Z -> Z.
Variable train_test_split : nat -> Q -> Z -> list nat * list nat.

Local Abbreviation Mab := (@Mab Arm M).
Local Abbreviation TStats := (gmap Arm (@Stats.ArmStats F)).
Local Abbreviation State := (@State Arm Ctx Dist Expn NStat Cfm EvalRes).
Local Abbreviation BatchState := (@BatchState Arm Ctx Dist Expn NStat Cfm EvalRes).
Local Abbreviation ChunkState := (@ChunkState Arm Ctx Dist Expn NStat Cfm EvalRes).
Local Abbreviation OnlineState := (@OnlineState Arm Ctx Dist Expn NStat Cfm EvalRes M).
Local Abbreviation Simulator :=
  (@Simulator Arm _ _ Ctx Dist Expn NStat Cfm EvalRes M F).
Local Abbreviation pybandits := (@pybandits Arm M).
Local Abbreviation pycontexts := (@pycontexts Ctx).

(** The bandit [n] has an entry in [bandit_to_arm_to_stats_min]. *)
Local Abbreviation scored_min n st :=
  (is_Some (bandit_to_arm_to_stats_min (results st) !! n)).

(** *** Loops that keep a property of the state *)

Lemma for_bandits_preserves {S : Type} (P : S -> Prop)
    (body : S -> string -> Mab -> S * Mab) :
  (forall s name mab s' mab', body s name mab = (s', mab') -> P s -> P s') ->
  forall (bandits : list (string * Mab)) s s' bandits',
    for_bandits body s bandits = (s', bandits') -> P s -> P s'.
Proof.
  intros Hstep bandits.
  induction bandits as [|[name mab] rest IH]; intros s s' bandits' Hrun HP.
  - cbn in Hrun. injection Hrun as <- <-. exact HP.
  - cbn [for_bandits] in Hrun.
    destruct (body s name mab) as [s1 mab1] eqn:Hbody.
    destruct (for_bandits body s1 rest) as [s2 rest2] eqn:Hrest.
    injection Hrun as <- <-.
    exact (IH _ _ _ Hrest (Hstep _ _ _ _ _ Hbody HP)).
Qed.

Lemma foldl_preserves {S A : Type} (P : S -> Prop) (step : S -> A -> S) (l : list A) :
  (forall s a, P s -> P (step s a)) -> forall s, P s -> P (foldl step s l).
Proof.
  intros Hstep. induction l as [|a l IH]; intros s HP; [exact HP|].
  cbn [foldl]. apply IH, Hstep, HP.
Qed.

(** *** The steps of the replays keep the entry *)

Lemma get_partial_evaluation_keeps q arms (stats : TStats) name ck decisions
    predictions rewards start_index nn (st : State) n :
  scored_min n st ->
  scored_min n (_get_partial_evaluation q arms stats name ck decisions predictions
                  rewards start_index nn st).
Proof.
  intros HP.
  pose proof (get_partial_evaluation_summary q arms stats name ck decisions
                predictions rewards start_index nn st n) as Hsum.
  unfold scoring_summary in Hsum.
  destruct (decide (n = name)) as [->|Hne].
  - unfold scored_at in Hsum. injection Hsum as _ Hmin _ _.
    destruct (bandit_to_arm_to_stats_min
                (results (_get_partial_evaluation q arms stats name ck decisions
                            predictions rewards start_index nn st)) !! name);
      [eauto|discriminate].
  - revert Hsum. unfold _get_partial_evaluation. cbv zeta.
    set (st0 := record_confusion name ck decisions predictions st).
    destruct (record_evaluation_spec q arms stats (set_key ck) name ck SMin
                decisions rewards predictions start_index nn st0) as [r1 ->].
    match goal with |- context [record_evaluation _ _ _ _ _ _ SMean _ _ _ _ _ ?s] =>
      destruct (record_evaluation_spec q arms stats (set_key ck) name ck SMean
                  decisions rewards predictions start_index nn s) as [r2 ->] end.
    match goal with |- context [record_evaluation _ _ _ _ _ _ SMax _ _ _ _ _ ?s] =>
      destruct (record_evaluation_spec q arms stats (set_key ck) name ck SMax
                  decisions rewards predictions start_index nn s) as [r3 ->] end.
    intros _. subst st0. unfold record_confusion.
    cbn [results emit update set_stats set_confusion_matrices stats_table
         bandit_to_arm_to_stats_min].
    rewrite lookup_insert_ne by congruence. exact HP.
Qed.

Lemma online_score_keeps q arms (stats : TStats) i start batch_decisions
    batch_rewards batch_contexts
    (bs : BatchState) name (mab : Mab) (bs' : BatchState) (mab' : Mab) n :
  online_score q arms stats i start batch_decisions batch_rewards batch_contexts
    bs name mab = (bs', mab') ->
  scored_min n (chunk_state (batch_chunk bs)) ->
  scored_min n (chunk_state (batch_chunk bs')).
Proof.
  unfold online_score. cbv zeta. intros [= <- _] HP.
  cbn [batch_chunk chunk_state emit results].
  apply get_partial_evaluation_keeps.
  destruct (is_NeighborsSimulator (cls mab) && negb q);
    destruct (is_Radius_or_LSH_Simulator (cls mab) && negb q); exact HP.
Qed.

Lemma online_total_keeps q arms (stats : TStats) test_decisions test_rewards
    (st : State) name (mab : Mab) (st' : State) (mab' : Mab) n :
  online_total q arms stats test_decisions test_rewards st name mab = (st', mab') ->
  scored_min n st -> scored_min n st'.
Proof.
  unfold online_total. cbv zeta. intros [= <- _] HP.
  pose proof (get_partial_evaluation_keeps q arms stats name Total test_decisions
                (bandit_to_predictions (results st) !!! name) test_rewards 0
                (is_NeighborsSimulator (cls mab)) st n HP) as HP'.
  destruct (is_NeighborsSimulator (cls mab) && negb q); exact HP'.
Qed.

Lemma online_replay_keeps q arms (stats : TStats) batch_size chunk_size
    test_decisions test_rewards (test_contexts : option (list Ctx))
    (st st' : State) (bandits bandits' : list (string * Mab)) n :
  _online_test_bandits q arms stats batch_size chunk_size
    test_decisions test_rewards test_contexts st bandits = Some (st', bandits') ->
  scored_min n st -> scored_min n st'.
Proof.
  unfold _online_test_bandits, _online_test_bandits_chunks.
  destruct (ceil_div (Z.of_nat (length test_decisions)) batch_size) as [b|];
    cbn [mbind option_bind]; [|discriminate].
  destruct (foldl _ _ (range 0 b)) as [os|] eqn:Hfold;
    cbn [mbind option_bind]; [|discriminate].
  intros [= Htotal] HP.
  assert (forall (acc : option OnlineState) i,
            match acc with
            | Some os => scored_min n (online_state os)
            | None => True
            end ->
            match online_batch q arms stats batch_size chunk_size test_decisions
                    test_rewards test_contexts acc i with
            | Some os => scored_min n (online_state os)
            | None => True
            end) as Hstep.
  { clear. intros [os|] i HP; [|exact I].
    destruct (online_batch q arms stats batch_size chunk_size test_decisions
                test_rewards test_contexts (Some os) i) as [os'|] eqn:Hbatch;
      [|exact I].
    revert Hbatch. unfold online_batch. cbn [mbind option_bind].
    destruct (ceil_div batch_size chunk_size) as [c|]; [|discriminate].
    cbn [mbind option_bind]. cbv zeta.
    match goal with |- context [foldl ?f (?b0, ?l0) (range 0 c)] =>
      pose proof (online_chunks_results batch_size chunk_size (online_start os)
                    (Z.min (online_start os + batch_size)
                       (Z.of_nat (length test_decisions) + 1)) 0
                    (slice test_decisions (online_start os)
                       (Z.min (online_start os + batch_size)
                          (Z.of_nat (length test_decisions) + 1)))
                    ((fun c => slice c (online_start os)
                       (Z.min (online_start os + batch_size)
                          (Z.of_nat (length test_decisions) + 1))) <$> test_contexts)
                    (range 0 c) b0 l0) as Hres;
      destruct (foldl f (b0, l0) (range 0 c)) as [bs1 bandits1]
    end.
    cbn in Hres.
    destruct (for_bandits _ bs1 bandits1) as [bs2 bandits2] eqn:Hscore.
    intros [= <-]. cbn [online_state].
    apply (for_bandits_preserves
             (fun b : BatchState => scored_min n (chunk_state (batch_chunk b)))
             _ (fun s name mab s' mab' Hbody =>
                  online_score_keeps _ _ _ _ _ _ _ _ _ _ _ _ _ n Hbody)
             _ _ _ _ Hscore).
    rewrite Hres. exact HP. }
  assert (scored_min n (online_state os)) as HP1.
  { pose proof (foldl_preserves _ _ (range 0 b) Hstep
                  (Some (mkOnlineState st bandits 0)) HP) as Hkeep.
    rewrite Hfold in Hkeep. exact Hkeep. }
  destruct (for_bandits _ (online_state os) (online_bandits os))
    as [st2 bandits2] eqn:Hloop.
  injection Htotal as <- <-.
  exact (for_bandits_preserves (fun s : State => scored_min n s)
           _ (fun s name mab s' mab' Hbody =>
                online_total_keeps _ _ _ _ _ _ _ _ _ _ n Hbody)
           _ _ _ _ Hloop HP1).
Qed.

Lemma offline_predict_keeps q start stop chunk_decision
    (chunk_contexts : option (list Ctx)) n
    (cs : ChunkState) name (mab : Mab) (cs' : ChunkState) (mab' : Mab) :
  offline_predict q start stop chunk_decision chunk_contexts cs name mab = (cs', mab') ->
  scored_min n (chunk_state cs) -> scored_min n (chunk_state cs').
Proof.
  intros Hbody HP.
  destruct (offline_predict_tables _ _ _ _ _ _ _ _ _ _ Hbody) as [Hscores _].
  injection Hscores as _ Hmin _ _. rewrite Hmin. exact HP.
Qed.

Lemma offline_score_keeps q arms (stats : TStats) test_decisions test_rewards n
    (st : State) name (mab : Mab) (st' : State) (mab' : Mab) :
  offline_score q arms stats test_decisions test_rewards st name mab = (st', mab') ->
  scored_min n st -> scored_min n st'.
Proof.
  intros Hbody HP.
  destruct (offline_score_tables _ _ _ _ _ _ _ _ _ _ Hbody)
    as (_ & _ & _ & Hother & Hown).
  destruct (decide (n = name)) as [->|Hne].
  - unfold scoring_tables_at, offline_scores in Hown.
    destruct (scoring_reference _ _ _ _ _) in Hown.
    injection Hown as _ Hmin _ _. rewrite Hmin. eauto.
  - specialize (Hother n Hne). unfold scoring_tables_at in Hother.
    injection Hother as _ Hmin _ _. rewrite Hmin. exact HP.
Qed.

Lemma offline_replay_keeps q arms (stats : TStats) chunk_size
    test_decisions test_rewards (test_contexts : option (list Ctx))
    (st st' : State) (bandits bandits' : list (string * Mab)) n :
  _offline_test_bandits q arms stats chunk_size
    test_decisions test_rewards test_contexts st bandits = Some (st', bandits') ->
  scored_min n st -> scored_min n st'.
Proof.
  unfold _offline_test_bandits, offline_chunks.
  destruct (ceil_div (Z.of_nat (length test_decisions)) chunk_size) as [c|];
    cbn [mbind option_bind]; [|discriminate].
  destruct (foldl _ _ (range 0 c)) as [cs1 bandits1] eqn:Hchunks.
  cbn [mbind option_bind]. intros [= Hscore] HP.
  assert (forall (acc : ChunkState * list (string * Mab)) idx,
            scored_min n (chunk_state acc.1) ->
            scored_min n (chunk_state
                            (offline_chunk q chunk_size test_decisions test_contexts
                               acc idx).1)) as Hstep.
  { clear. intros [cs l] idx HP. unfold offline_chunk.
    destruct (for_bandits _ _ l) as [cs2 l2] eqn:Hloop. cbn [fst].
    apply (for_bandits_preserves
             (fun cs : ChunkState => scored_min n (chunk_state cs))
             _ (offline_predict_keeps q _ _ _ _ n) _ _ _ _ Hloop).
    exact HP. }
  assert (scored_min n (chunk_state cs1)) as HP1.
  { pose proof (foldl_preserves _ _ (range 0 c) Hstep
                  (mkChunkState st None, bandits) HP) as Hkeep.
    rewrite Hchunks in Hkeep. exact Hkeep. }
  destruct (for_bandits _ (chunk_state cs1) bandits1) as [st2 bandits2] eqn:Hloop.
  injection Hscore as <- <-.
  exact (for_bandits_preserves (fun s : State => scored_min n s)
           _ (offline_score_keeps q arms stats test_decisions test_rewards n)
           _ _ _ _ Hloop HP1).
Qed.

Lemma valid_metric_passes (m : string) :
  m ∈ ["avg"; "min"; "max"] ->
  negb (bool_decide (m ∈ ["avg"; "min"; "max"])) = false.
Proof. intros Hm. rewrite bool_decide_eq_true_2 by exact Hm. reflexivity. Qed.

(** X18. [plot] with a valid metric and a Boolean flag raises its
    [AssertionError] on every simulator that has been constructed and not
    run, and passes its checks on the simulator every run that returns leaves
    behind: training has given each bandit its entry in
    [bandit_to_arm_to_stats_min], and neither replay removes one. *)
Theorem plot_needs_a_run :
  (forall (bandits : pybandits) (decisions : pyarray Arm) (rewards : pyarray Z)
          (config : Config) (scaler : option (@Scaler Ctx))
          (contexts : option pycontexts) (sim : Simulator) (m : string) (b : bool),
     __init__ effective_jobs bandits decisions rewards config scaler contexts
     = inr sim ->
     m ∈ ["avg"; "min"; "max"] ->
     plot_checks (Str m) (Bool b) sim = inl not_run_error)
  /\ (forall (sim sim' : Simulator) (m : string) (b : bool),
        run np_mean np_std train_test_split sim = Some sim' ->
        Simulation.bandits sim <> [] ->
        m ∈ ["avg"; "min"; "max"] ->
        plot_checks (Str m) (Bool b) sim' = inr tt).
Proof.
  split.
  - intros bandits decisions rewards config scaler contexts sim m b Hinit Hm.
    assert (state sim = mkState empty_results []) as Hstate.
    { revert Hinit. unfold __init__.
      destruct (_validate_args _ _ _ _ _ _) as [e|[]]; [discriminate|].
      destruct (typed_bandits bandits) as [|[iter_name iter_mab] rest];
        [discriminate|].
      intros [= <-]. reflexivity. }
    unfold plot_checks. rewrite (valid_metric_passes m Hm), Hstate.
    cbn [results bandit_to_arm_to_stats_min empty_results].
    rewrite bool_decide_eq_true_2 by reflexivity. reflexivity.
  - intros sim sim' m b Hrun Hne Hm.
    apply run_inversion in Hrun
      as (total & train & test & train_contexts & test_contexts & st1 & bandits1
          & st2 & bandits2 & _ & _ & _ & Htrain & Hreplay & _ & _ & _ & _ & Hstate).
    destruct (Simulation.bandits sim) as [|[n mab] rest] eqn:Hbandits;
      [contradiction|].
    assert (scored_min n st1) as HP1.
    { pose proof (entries_after_training (is_quick (config sim))
                    (Split.train_decisions
                       (Split._run_train_test_split train_test_split
                          (is_ordered (config sim)) (test_size (config sim))
                          (seed (config sim)) (max_n_jobs sim) (decisions sim)
                          (rewards sim) (contexts sim)))
                    (Split.train_rewards
                       (Split._run_train_test_split train_test_split
                          (is_ordered (config sim)) (test_size (config sim))
                          (seed (config sim)) (max_n_jobs sim) (decisions sim)
                          (rewards sim) (contexts sim)))
                    train_contexts (state sim) ((n, mab) :: rest) n) as Hfresh.
      rewrite Htrain in Hfresh. cbn [fst] in Hfresh.
      rewrite decide_True in Hfresh by left.
      unfold entries, fresh_entries in Hfresh.
      injection Hfresh as _ _ _ _ _ Hmin _ _. rewrite Hmin. eauto. }
    assert (scored_min n st2) as HP2.
    { destruct (_online sim).
      - exact (online_replay_keeps _ _ _ _ _ _ _ _ _ _ _ _ n Hreplay HP1).
      - exact (offline_replay_keeps _ _ _ _ _ _ _ _ _ _ _ n Hreplay HP1). }
    unfold plot_checks. rewrite (valid_metric_passes m Hm), Hstate.
    rewrite bool_decide_eq_false_2; [reflexivity|].
    intros Hempty. rewrite Hempty, lookup_empty in HP2.
    destruct HP2 as [x Hx]. discriminate.
Qed.

End WithCollaborators.

(** Six rows: [plot] before and after the run. *)
Lemma plot_six_rows :
  exists sim sim',
    Examples.six_rows false = inr sim
    /\ Examples.run_example sim = Some sim'
    /\ plot_checks (Str "avg") (Bool false) sim = inl not_run_error
    /\ plot_checks (Str "avg") (Bool false) sim' = inr tt.
Proof.
  destruct (Examples.six_rows false) as [e|sim] eqn:Hinit;
    [vm_compute in Hinit; discriminate|].
  destruct (Examples.run_example sim) as [sim'|] eqn:Hrun.
  - exists sim, sim'. split; [reflexivity|]. split; [exact Hrun|].
    assert ("avg" ∈ ["avg"; "min"; "max"]) as Hm by (left; reflexivity).
    destruct (plot_needs_a_run Examples.exact_mean Examples.exact_variance
                (fun rows jobs => jobs) (fun _ _ _ => ([], []))) as [Hbefore Hafter].
    split.
    + exact (Hbefore _ _ _ _ _ _ sim "avg" false Hinit Hm).
    + refine (Hafter sim sim' "avg" false Hrun _ Hm).
      vm_compute in Hinit. injection Hinit as <-. discriminate.
  - exfalso. vm_compute in Hinit. injection Hinit as <-.
    vm_compute in Hrun. discriminate.
Defined.

End PlotFacts.

(** ** The expectations of the online replay *)
Module OnlineExpectationFacts.
Import Calls CallFacts PyFacts OrderFacts TableFacts OfflineChunkFacts TrainFacts
       OnlineTableFacts OfflineTableFacts.
Section WithCollaborators.

Context {Arm Ctx Dist Expn NStat Cfm TStats EvalRes M : Type}.
Context {MA : @ModelAdapter Arm Ctx Dist Expn NStat M}.
Context {SC : @Scoring Arm NStat Cfm TStats EvalRes}.
Variable is_quick : bool.
Variable sim_arms : list Arm.
Variable arm_to_stats_train : TStats.

Local Abbreviation Mab := (@Mab Arm M).
Local Abbreviation State := (@State Arm Ctx Dist Expn NStat Cfm EvalRes).
Local Abbreviation BatchState := (@BatchState Arm Ctx Dist Expn NStat Cfm EvalRes).
Local Abbreviation OnlineState := (@OnlineState Arm Ctx Dist Expn NStat Cfm EvalRes M).










End WithCollaborators.


End OnlineExpectationFacts.

(** ** What a batch is scored on *)
Module OnlineScoreFacts.
Import Calls CallFacts PyFacts OrderFacts TableFacts OfflineChunkFacts.
Section WithCollaborators.

Context {Arm Ctx Dist Expn NStat Cfm TStats EvalRes M : Type}.
Context {MA : @ModelAdapter Arm Ctx Dist Expn NStat M}.
Context {SC : @Scoring Arm NStat Cfm TStats EvalRes}.
Variable is_quick : bool.
Variable sim_arms : list Arm.
Variable arm_to_stats_train : TStats.

Local Abbreviation Mab := (@Mab Arm M).
Local Abbreviation event := (@event Arm Ctx Dist Expn Cfm EvalRes).
Local Abbreviation State := (@State Arm Ctx Dist Expn NStat Cfm EvalRes).
Local Abbreviation BatchState := (@BatchState Arm Ctx Dist Expn NStat Cfm EvalRes).
Local Abbreviation OnlineState := (@OnlineState Arm Ctx Dist Expn NStat Cfm EvalRes M).








End WithCollaborators.


End OnlineScoreFacts.
